(** * Market breadth analyzer: the data-fetch, cache and merge pipeline

    Shallow embedding of [services/api.ts] (cache helpers, the request URL of
    [fetchWithFallback], [fetchVNIndexData], [fetchBreadthData],
    [mapComplexBreadthData], [mapBreadthData]), of [utils/formatters.ts]
    ([parseVNIndexData]), of [chartData] and [crossovers] of [App.tsx], of the
    data window of [prepareAnalysisContext] in [services/ai.ts], of the saved
    session of [AiInsightPanel.tsx] and of the exchange checkboxes of
    [SettingsPanel.tsx].

    JavaScript values are modelled by [value]; a JS number is [num]: a finite
    number (an exact rational), [NaN] or an infinity.  Arithmetic on finite
    numbers is exact: rounding of IEEE doubles is not modelled.  Exceptions
    ([TypeError], [RangeError]) are the [Throw] case of [result].  The host
    built-ins whose behaviour is not fixed by this code (string to number
    conversion, [Date] parsing and printing, JSON number printing) are the
    fields of the class [Host]; every theorem holds for every host. *)

From Stdlib Require Import String Ascii List Bool ZArith QArith Qabs Lia Permutation Sorted.
Import ListNotations.
Set Warnings "-register-all".
Open Scope string_scope.

(* ------------------------------------------------------------------------- *)
(** ** JavaScript values *)

Inductive num : Type :=
| NFin (q : Q)
| NNaN
| NPosInf
| NNegInf.

Inductive value : Type :=
| VUndef
| VNull
| VBool (b : bool)
| VNum (n : num)
| VStr (s : string)
| VArr (l : list value)
| VObj (fs : list (string * value)).

Inductive exn : Type := TypeError | RangeError | Error.

Inductive result (A : Type) : Type :=
| Ok (a : A)
| Throw (e : exn).
Arguments Ok {A} a.
Arguments Throw {A} e.

Definition bind {A B} (m : result A) (k : A -> result B) : result B :=
  match m with Ok a => k a | Throw e => Throw e end.

Notation "'let*' x ':=' m 'in' k" := (bind m (fun x => k))
  (at level 200, x name, m at level 100, k at level 200).

(** [try m catch h] *)
Definition try_catch {A} (m : result A) (h : exn -> A) : A :=
  match m with Ok a => a | Throw e => h e end.

Fixpoint mapM {A B} (f : A -> result B) (l : list A) : result (list B) :=
  match l with
  | [] => Ok []
  | x :: r => let* y := f x in let* ys := mapM f r in Ok (y :: ys)
  end.

(** The built-ins of the JavaScript host that this code calls. *)
Class Host : Type := {
  (** [Number(s)] for a string [s] *)
  str_to_number : string -> num;
  (** [parseFloat(s)] for a string [s] *)
  str_parse_float : string -> num;
  (** [String(o)] for an object or an array [o] *)
  obj_to_string : value -> string;
  (** [new Date(s).getTime()] for a string [s]; [None] is [NaN] *)
  date_parse : string -> option Z;
  (** [new Date(t).toISOString().split('T')[0]] for a valid time value [t] *)
  iso_day : Z -> string;
  (** [formatDate(t)] of formatters.ts (local day and month) *)
  format_day_month : Z -> string;
  (** the JSON text of a finite number *)
  num_to_json : Q -> string;
  (** the JSON string literal of a string *)
  json_quote : string -> string
}.

(* ------------------------------------------------------------------------- *)
(** ** Numbers *)

Definition Qltb (x y : Q) : bool := negb (Qle_bool y x).

Definition num_truthy (n : num) : bool :=
  match n with
  | NFin q => negb (Qeq_bool q 0)
  | NNaN => false
  | _ => true
  end.

(** [a < b] *)
Definition num_lt (a b : num) : bool :=
  match a, b with
  | NFin x, NFin y => Qltb x y
  | NNegInf, NFin _ | NNegInf, NPosInf | NFin _, NPosInf => true
  | _, _ => false
  end.

Definition num_gt (a b : num) : bool := num_lt b a.

Definition num_neg (a : num) : num :=
  match a with
  | NFin x => NFin (- x) | NNaN => NNaN | NPosInf => NNegInf | NNegInf => NPosInf
  end.

Definition num_add (a b : num) : num :=
  match a, b with
  | NFin x, NFin y => NFin (x + y)
  | NNaN, _ | _, NNaN => NNaN
  | NPosInf, NNegInf | NNegInf, NPosInf => NNaN
  | NPosInf, _ | _, NPosInf => NPosInf
  | NNegInf, _ | _, NNegInf => NNegInf
  end.

(** [a - b] *)
Definition num_sub (a b : num) : num := num_add a (num_neg b).

(** the sign of a non-NaN number: [Some true] positive, [Some false] negative,
    [None] zero *)
Definition num_sign (a : num) : option bool :=
  match a with
  | NFin x => if Qeq_bool x 0 then None else Some (Qle_bool 0 x)
  | NPosInf => Some true
  | NNegInf => Some false
  | NNaN => None
  end.

Definition inf_of_sign (b : bool) : num := if b then NPosInf else NNegInf.

(** [a * b] *)
Definition num_mul (a b : num) : num :=
  match a, b with
  | NFin x, NFin y => NFin (x * y)
  | NNaN, _ | _, NNaN => NNaN
  | _, _ =>
      match num_sign a, num_sign b with
      | Some sa, Some sb => inf_of_sign (Bool.eqb sa sb)
      | _, _ => NNaN
      end
  end.

(** [a / b] *)
Definition num_div (a b : num) : num :=
  match a, b with
  | NNaN, _ | _, NNaN => NNaN
  | NFin x, NFin y =>
      if Qeq_bool y 0 then
        (if Qeq_bool x 0 then NNaN else inf_of_sign (Qle_bool 0 x))
      else NFin (x / y)
  | NFin _, _ => NFin 0
  | _, NFin y =>
      match num_sign a with
      | Some sa => inf_of_sign (Bool.eqb sa (Qle_bool 0 y))
      | None => NNaN
      end
  | _, _ => NNaN
  end.

(** [Math.max(a, b)] *)
Definition num_max (a b : num) : num :=
  match a, b with
  | NNaN, _ | _, NNaN => NNaN
  | NPosInf, _ | _, NPosInf => NPosInf
  | NNegInf, x | x, NNegInf => x
  | NFin x, NFin y => if Qle_bool x y then NFin y else NFin x
  end.

(** TimeClip: the time value of a [Date] built from a number; [None] is an
    invalid date. *)
Definition time_clip (n : num) : option Z :=
  match n with
  | NFin q =>
      if Qle_bool (Qabs q) (8640000000000000 # 1)
      then Some (Z.quot (Qnum q) (Zpos (Qden q))) else None
  | _ => None
  end.

Definition time_num (t : option Z) : num :=
  match t with Some z => NFin (inject_Z z) | None => NNaN end.

Definition n0 : num := NFin 0.
Definition n100 : num := NFin (100 # 1).
Definition n1000 : num := NFin (1000 # 1).
Definition n1e10 : num := NFin (10000000000 # 1).

(* ------------------------------------------------------------------------- *)
(** ** Operations on values *)

Definition truthy (v : value) : bool :=
  match v with
  | VUndef | VNull => false
  | VBool b => b
  | VNum n => num_truthy n
  | VStr s => negb (String.eqb s "")
  | VArr _ | VObj _ => true
  end.

Definition nullish (v : value) : bool :=
  match v with VUndef | VNull => true | _ => false end.

(** [a || b] *)
Definition js_or (a b : value) : value := if truthy a then a else b.

Definition is_array (v : value) : bool :=
  match v with VArr _ => true | _ => false end.

Fixpoint assoc (k : string) (fs : list (string * value)) : option value :=
  match fs with
  | [] => None
  | (k', v) :: r => if String.eqb k k' then Some v else assoc k r
  end.

Fixpoint digits_of_uint (d : Decimal.uint) : string :=
  match d with
  | Decimal.Nil => ""
  | Decimal.D0 r => String "0" (digits_of_uint r)
  | Decimal.D1 r => String "1" (digits_of_uint r)
  | Decimal.D2 r => String "2" (digits_of_uint r)
  | Decimal.D3 r => String "3" (digits_of_uint r)
  | Decimal.D4 r => String "4" (digits_of_uint r)
  | Decimal.D5 r => String "5" (digits_of_uint r)
  | Decimal.D6 r => String "6" (digits_of_uint r)
  | Decimal.D7 r => String "7" (digits_of_uint r)
  | Decimal.D8 r => String "8" (digits_of_uint r)
  | Decimal.D9 r => String "9" (digits_of_uint r)
  end.

Definition string_of_nat (n : nat) : string := digits_of_uint (Nat.to_uint n).

(** [v.k]: reading a named property; [null.k] and [undefined.k] throw. *)
Definition prop (v : value) (k : string) : result value :=
  match v with
  | VUndef | VNull => Throw TypeError
  | VObj fs => Ok (match assoc k fs with Some x => x | None => VUndef end)
  | VArr l =>
      Ok (if String.eqb k "length" then VNum (NFin (inject_Z (Z.of_nat (List.length l))))
          else VUndef)
  | VStr s =>
      Ok (if String.eqb k "length" then VNum (NFin (inject_Z (Z.of_nat (String.length s))))
          else VUndef)
  | _ => Ok VUndef
  end.

(** [v[i]]: reading an index. *)
Definition index_read (v : value) (i : nat) : result value :=
  match v with
  | VUndef | VNull => Throw TypeError
  | VArr l => Ok (nth i l VUndef)
  | VObj fs => Ok (match assoc (string_of_nat i) fs with Some x => x | None => VUndef end)
  | VStr s => Ok (match String.get i s with Some c => VStr (String c EmptyString) | None => VUndef end)
  | _ => Ok VUndef
  end.

(** [k in v] *)
Definition has_prop (k : string) (v : value) : result bool :=
  match v with
  | VObj fs => Ok (match assoc k fs with Some _ => true | None => false end)
  | VArr _ => Ok (String.eqb k "length")
  | _ => Throw TypeError
  end.

(** [v.k1 || v.k2 || ... || v.kn] *)
Fixpoint or_props (v : value) (ks : list string) : result value :=
  match ks with
  | [] => Ok VUndef
  | [k] => prop v k
  | k :: r => let* x := prop v k in if truthy x then Ok x else or_props v r
  end.

(** [v.k1 ?? v.k2 ?? ... ?? d] *)
Fixpoint coalesce_props (v : value) (ks : list string) (d : value) : result value :=
  match ks with
  | [] => Ok d
  | k :: r => let* x := prop v k in if nullish x then coalesce_props v r d else Ok x
  end.

(** SameValueZero, the key equality of [Map]; two object references read
    from distinct JSON documents are never the same. *)
Definition svz (a b : value) : bool :=
  match a, b with
  | VUndef, VUndef | VNull, VNull => true
  | VBool x, VBool y => Bool.eqb x y
  | VNum (NFin x), VNum (NFin y) => Qeq_bool x y
  | VNum NNaN, VNum NNaN | VNum NPosInf, VNum NPosInf | VNum NNegInf, VNum NNegInf => true
  | VStr x, VStr y => String.eqb x y
  | _, _ => false
  end.

Section HostOps.
Context `{Host}.

(** [Number(v)] *)
Definition to_number (v : value) : num :=
  match v with
  | VUndef => NNaN
  | VNull => n0
  | VBool b => if b then NFin 1 else n0
  | VNum n => n
  | VStr s => str_to_number s
  | VArr _ | VObj _ => str_to_number (obj_to_string v)
  end.

(** [parseFloat(v)] *)
Definition parse_float (v : value) : num :=
  match v with
  | VNum n => n
  | VStr s => str_parse_float s
  | VArr _ | VObj _ => str_parse_float (obj_to_string v)
  | _ => NNaN
  end.

(** [new Date(v).getTime()]; [None] is [NaN] *)
Definition date_value (v : value) : option Z :=
  match v with
  | VUndef => None
  | VNull => Some 0%Z
  | VBool b => Some (if b then 1%Z else 0%Z)
  | VNum n => time_clip n
  | VStr s => date_parse s
  | VArr _ | VObj _ => date_parse (obj_to_string v)
  end.

(** [new Date(v).toISOString().split('T')[0]]: throws on an invalid date *)
Definition iso_date_of (v : value) : result string :=
  match date_value v with
  | Some t => Ok (iso_day t)
  | None => Throw RangeError
  end.

End HostOps.

(* ------------------------------------------------------------------------- *)
(** ** services/api.ts: the breadth mappers *)

Section BreadthMappers.
Context `{Host}.

(** The key under which [merged] in [mapComplexBreadthData] keeps its
    per-date entries: the mutable object [{ date, total, count20, ... }];
    an unset count is [None] ([undefined]). *)
Record centry : Type := mk_centry {
  c_date : value;
  c_total : num;
  c_count20 : option num;
  c_count50 : option num;
  c_count200 : option num
}.

Definition centry_set_count (countProp : string) (n : num) (e : centry) : centry :=
  if String.eqb countProp "count20" then
    mk_centry e.(c_date) e.(c_total) (Some n) e.(c_count50) e.(c_count200)
  else if String.eqb countProp "count50" then
    mk_centry e.(c_date) e.(c_total) e.(c_count20) (Some n) e.(c_count200)
  else mk_centry e.(c_date) e.(c_total) e.(c_count20) e.(c_count50) (Some n).

(** A [Map] as its entries in insertion order; [map_set] replaces the value
    of a present key in place and appends a new key. *)
Fixpoint map_get {A} (k : value) (m : list (value * A)) : option A :=
  match m with
  | [] => None
  | (k', x) :: r => if svz k' k then Some x else map_get k r
  end.

Fixpoint map_set {A} (k : value) (x : A) (m : list (value * A)) : list (value * A) :=
  match m with
  | [] => [(k, x)]
  | (k', y) :: r => if svz k' k then (k', x) :: r else (k', y) :: map_set k x r
  end.

(** The body of [dataObj[key].forEach(...)] in [mergeSeries]. *)
Definition merge_series_item (countProp : string) (merged : list (value * centry))
    (item : value) : result (list (value * centry)) :=
  let* date := prop item "date" in
  (* [merged.has(date)], [merged.set(date, { date, total: 0 })] and
     [merged.get(date)]: the entry is the present one or a fresh one *)
  let entry := match map_get date merged with
               | Some e => e | None => mk_centry date n0 None None None end in
  let* itotal := prop item "total" in
  let entry1 :=
    if truthy itotal
    then mk_centry entry.(c_date) (num_max entry.(c_total) (to_number itotal))
           entry.(c_count20) entry.(c_count50) entry.(c_count200)
    else entry in
  let* ivalue := prop item "value" in
  Ok (map_set date (centry_set_count countProp (parse_float ivalue) entry1) merged).

Fixpoint fold_resultM {A B} (f : A -> B -> result A) (acc : A) (l : list B) : result A :=
  match l with
  | [] => Ok acc
  | x :: r => let* acc' := f acc x in fold_resultM f acc' r
  end.

(** [mergeSeries(key, countProp)] *)
Definition mergeSeries (dataObj : value) (key countProp : string)
    (merged : list (value * centry)) : result (list (value * centry)) :=
  let* s := prop dataObj key in
  match s with
  | VArr items => fold_resultM (merge_series_item countProp) merged items
  | _ => Ok merged
  end.

(** [item.countK || 0] *)
Definition count_or_zero (c : option num) : num :=
  match c with Some n => if num_truthy n then n else n0 | None => n0 end.

(** [const calc = (c) => t > 0 ? (c / t) * 100 : 0] *)
Definition calc (t c : num) : num :=
  if num_gt t n0 then num_mul (num_div c t) n100 else n0.

(** The [map] callback building one point of [mapComplexBreadthData]. *)
Definition complex_point (e : centry) : value :=
  let t := if num_truthy e.(c_total) then e.(c_total) else n0 in
  let ts := date_value e.(c_date) in
  let c20 := count_or_zero e.(c_count20) in
  let c50 := count_or_zero e.(c_count50) in
  let c200 := count_or_zero e.(c_count200) in
  VObj [("date", e.(c_date));
        ("timestamp", VNum (match ts with Some z => NFin (inject_Z z) | None => n0 end));
        ("total", VNum t);
        ("count20", VNum c20); ("count50", VNum c50); ("count200", VNum c200);
        ("ma20", VNum (calc t c20)); ("ma50", VNum (calc t c50));
        ("ma200", VNum (calc t c200))].

Definition mapComplexBreadthData (dataObj : value) : result (list value) :=
  let* m1 := mergeSeries dataObj "ma20" "count20" [] in
  let* m2 := mergeSeries dataObj "ma50" "count50" m1 in
  let* m3 := mergeSeries dataObj "ma200" "count200" m2 in
  Ok (map (fun kv => complex_point (snd kv)) m3).

(** The [map] callback of [mapBreadthData]. *)
Definition breadth_point (item : value) : result value :=
  let* rawDate := or_props item ["date"; "Date"; "time"; "t"] in
  let ts0 := match rawDate with
             | VStr s => VNum (time_num (date_parse s))
             | v => v
             end in
  let timestamp := match ts0 with
                   | VNum n => if num_lt n n1e10 then VNum (num_mul n n1000) else ts0
                   | _ => ts0
                   end in
  let* itotal := prop item "total" in
  let total := to_number (js_or itotal (VNum n0)) in
  let* r20 := coalesce_props item ["ma20"; "avg_ma20"; "pct_ma20"] (VNum n0) in
  let* r50 := coalesce_props item ["ma50"; "avg_ma50"; "pct_ma50"] (VNum n0) in
  let* r200 := coalesce_props item ["ma200"; "avg_ma200"; "pct_ma200"] (VNum n0) in
  let c20 := to_number r20 in
  let c50 := to_number r50 in
  let c200 := to_number r200 in
  let* date := iso_date_of timestamp in
  Ok (VObj [("date", VStr date); ("timestamp", timestamp); ("total", VNum total);
            ("count20", VNum c20); ("count50", VNum c50); ("count200", VNum c200);
            ("ma20", VNum (calc total c20)); ("ma50", VNum (calc total c50));
            ("ma200", VNum (calc total c200))]).

(** [d.timestamp > 0] *)
Definition timestamp_positive (d : value) : bool :=
  match prop d "timestamp" with
  | Ok ts => num_gt (to_number ts) n0
  | Throw _ => false
  end.

Definition mapBreadthData (data : list value) : result (list value) :=
  let* pts := mapM breadth_point data in
  Ok (filter timestamp_positive pts).

(** [processRaw] of [fetchBreadthData]. *)
Definition processRaw (data : value) : result (list value) :=
  if negb (truthy data) then Ok [] else
  let* dd := prop data "data" in
  let* raw :=
    match dd with
    | VObj _ => let* l := mapComplexBreadthData dd in Ok (VArr l)
    | _ => Ok (if is_array data then data else js_or dd (VArr []))
    end in
  match raw with
  | VArr [] => mapBreadthData []
  | VArr ((r0 :: _) as l) =>
      let* has := has_prop "ma20" r0 in
      if has then Ok l else mapBreadthData l
  | _ => Ok []
  end.

End BreadthMappers.

(* ------------------------------------------------------------------------- *)
(** ** utils/formatters.ts: [parseVNIndexData] *)

Section Formatters.
Context `{Host}.

(** [a >= b] *)
Definition num_ge (a b : num) : bool :=
  match a, b with
  | NNaN, _ | _, NNaN => false
  | _, _ => negb (num_lt a b)
  end.

(** [if (typeof timestamp === 'number' && timestamp < 10000000000) timestamp *= 1000] *)
Definition scale_if_number (ts : value) : value :=
  match ts with
  | VNum n => if num_lt n n1e10 then VNum (num_mul n n1000) else ts
  | _ => ts
  end.

(** [typeof time === 'string' ? new Date(time).getTime() : time] *)
Definition parse_time (time : value) : value :=
  match time with
  | VStr s => VNum (time_num (date_parse s))
  | v => v
  end.

Definition vn_point (timestamp : value) (close : num) : value :=
  VObj [("timestamp", timestamp); ("close", VNum close)].

(** Scenario 1, the callback for one [item] of an array of arrays. *)
Definition array_row_point (item : value) : result value :=
  let* t0 := index_read item 0 in
  let* len := prop item "length" in
  let* close := if num_ge (to_number len) (NFin 5) then index_read item 4
                else index_read item 1 in
  Ok (vn_point (scale_if_number t0) (to_number close)).

Definition time_keys : list string := ["date"; "time"; "t"; "Date"; "Time"; "dt"].
Definition close_keys : list string :=
  ["value"; "close"; "c"; "Close"; "Price"; "price"; "v"; "adClose"; "adjClose"].

(** Scenario 2, the callback for one [item] of an array of objects;
    [None] is the [null] that the [filter] removes. *)
Definition object_row_point (item : value) : result (option value) :=
  let* time := or_props item time_keys in
  let* close := or_props item close_keys in
  match time, close with
  | VUndef, _ | _, VUndef => Ok None
  | _, _ => Ok (Some (vn_point (scale_if_number (parse_time time)) (to_number close)))
  end.

Fixpoint cat_options {A} (l : list (option A)) : list A :=
  match l with
  | [] => []
  | Some x :: r => x :: cat_options r
  | None :: r => cat_options r
  end.

(** Scenario 3, TradingView columns [{ t: [...], c: [...] }]. *)
Definition column_point (cs : list value) (t : value) (i : nat) : value :=
  let tn := to_number t in
  let timestamp := if num_lt tn n1e10 then VNum (num_mul tn n1000) else t in
  vn_point timestamp (to_number (nth i cs VUndef)).

Fixpoint column_points (cs : list value) (ts : list value) (i : nat) : list value :=
  match ts with
  | [] => []
  | t :: r => column_point cs t i :: column_points cs r (S i)
  end.

(** The shapes tried after the [{ data: [...] }] wrapper. *)
Definition parse_shapes (data : value) : result (list value) :=
  match data with
  | VArr ((VArr _ :: _) as l) => mapM array_row_point l
  | VArr l => let* ps := mapM object_row_point l in Ok (cat_options ps)
  | VObj fs =>
      match assoc "t" fs, assoc "c" fs with
      | Some (VArr ts), Some (VArr cs) => Ok (column_points cs ts 0)
      | _, _ => Ok []
      end
  | _ => Ok []
  end.

Fixpoint parseVNIndexData (data : value) : result (list value) :=
  if negb (truthy data) then Ok [] else
  match data with
  | VObj fs =>
      (* [data.data && Array.isArray(data.data)]: unwrap and recurse *)
      (fix unwrap (r : list (string * value)) : result (list value) :=
         match r with
         | [] => parse_shapes data
         | (k, x) :: r' =>
             if String.eqb k "data"
             then (if is_array x then parseVNIndexData x else parse_shapes data)
             else unwrap r'
         end) fs
  | _ => parse_shapes data
  end.

End Formatters.

(* ------------------------------------------------------------------------- *)
(** ** services/api.ts: cache helpers *)

Section Cache.
Context `{Host}.

Definition CACHE_PREFIX : string := "MBA_CACHE_V5_".
Definition VNINDEX_TTL : num := NFin (14400000 # 1).
Definition BREADTH_MIN_FRESH : num := NFin (300000 # 1).
Definition DEFAULT_BREADTH_URL : string := "https://api.alphastock.vn/api/stock/avg".
Definition DEFAULT_VNINDEX_URL : string :=
  "https://api.alphastock.vn/charts_json/vnindex_5y.json".

(** [JSON.stringify(v, plist)] with a property-list replacer: every object,
    at every depth, is written with the keys of [plist], in that order, that
    it has and whose value is not [undefined]; [None] is [undefined]. *)
Fixpoint json_ser (plist : list string) (v : value) : option string :=
  match v with
  | VUndef => None
  | VNull => Some "null"
  | VBool b => Some (if b then "true" else "false")
  | VNum (NFin q) => Some (num_to_json q)
  | VNum _ => Some "null"
  | VStr s => Some (json_quote s)
  | VArr l =>
      Some ("[" ++ String.concat ","
              (map (fun x => match json_ser plist x with Some s => s | None => "null" end) l)
            ++ "]")
  | VObj fs =>
      let sfs := (fix ser_fields (r : list (string * value)) : list (string * option string) :=
                    match r with
                    | [] => []
                    | (k, x) :: r' => (k, json_ser plist x) :: ser_fields r'
                    end) fs in
      Some ("{" ++ String.concat ","
              (flat_map (fun k =>
                 match find (fun kv => String.eqb (fst kv) k) sfs with
                 | Some (_, Some s) => [json_quote k ++ ":" ++ s]
                 | _ => []
                 end) plist)
            ++ "}")
  end.

(** [Array.prototype.sort] on strings (code-unit order), as a stable
    insertion sort. *)
Fixpoint insert_string (x : string) (l : list string) : list string :=
  match l with
  | [] => [x]
  | y :: r => if String.leb x y then x :: y :: r else y :: insert_string x r
  end.

Definition sort_strings (l : list string) : list string :=
  fold_right insert_string [] l.

(** [Object.keys(v)] *)
Definition object_keys (v : value) : list string :=
  match v with VObj fs => map fst fs | _ => [] end.

(** [getCacheKey(prefix, params)] *)
Definition getCacheKey (prefix : string) (params : value) : string :=
  let paramString := match json_ser (sort_strings (object_keys params)) params with
                     | Some s => s | None => "undefined" end in
  CACHE_PREFIX ++ prefix ++ "_" ++ paramString.

(** [JSON.parse(JSON.stringify(v))]; [None] is [undefined]. *)
Fixpoint json_rt (v : value) : option value :=
  match v with
  | VUndef => None
  | VNum (NFin q) => Some (VNum (NFin q))
  | VNum _ => Some VNull
  | VArr l => Some (VArr (map (fun x => match json_rt x with Some y => y | None => VNull end) l))
  | VObj fs =>
      Some (VObj ((fix rt_fields (r : list (string * value)) : list (string * value) :=
                     match r with
                     | [] => []
                     | (k, x) :: r' =>
                         match json_rt x with
                         | Some y => (k, y) :: rt_fields r'
                         | None => rt_fields r'
                         end
                     end) fs))
  | _ => Some v
  end.

(** What [localStorage] holds under a key: text that [JSON.parse] rejects,
    or a JSON document. *)
Inductive stored : Type := Corrupt | Json (v : value).

Definition storage : Type := string -> option stored.

Definition store_put (st : storage) (k : string) (s : stored) : storage :=
  fun k' => if String.eqb k k' then Some s else st k'.

(** [saveToCache(key, data)] at time [now]; [writable = false] is a
    [setItem] that throws (quota), which is caught. *)
Definition saveToCache (writable : bool) (st : storage) (now : Z) (key : string)
    (data : value) : storage :=
  if writable then
    match json_rt (VObj [("timestamp", VNum (NFin (inject_Z now))); ("data", data)]) with
    | Some p => store_put st key (Json p)
    | None => st
    end
  else st.

(** [loadFromCache(key, ttl)] at time [now]; [ttl = None] is [null]. *)
Definition loadFromCache (st : storage) (now : Z) (key : string) (ttl : option num)
    : option (value * num) :=
  match st key with
  | None | Some Corrupt => None
  | Some (Json payload) =>
      if negb (truthy payload) then None else
      match prop payload "data", prop payload "timestamp" with
      | Ok d, Ok ts =>
          if negb (truthy d) then None else
          let age := num_sub (NFin (inject_Z now)) (to_number ts) in
          match ttl with
          | Some t => if num_gt age t then None else Some (d, age)
          | None => Some (d, age)
          end
      | _, _ => None
      end
  end.

End Cache.

(* ------------------------------------------------------------------------- *)
(** ** services/api.ts: the fetchers *)

Section Fetchers.
Context `{Host}.

(** The outcome of [fetchWithFallback(url)]: the parsed body, or [None]
    when both the direct and the proxy request failed (it rejects). *)
Definition fetch_outcome : Type := option value.

(** [url || DEFAULT_VNINDEX_URL] *)
Definition vnindex_target (url : option string) : string :=
  match url with
  | Some u => if String.eqb u "" then DEFAULT_VNINDEX_URL else u
  | None => DEFAULT_VNINDEX_URL
  end.

(** [fetchVNIndexData(url)]: the cache is read at [t0]; the response
    [fetched] arrives, and the cache is written and re-read, at [t1]. *)
Definition fetchVNIndexData (url : option string) (st : storage) (t0 : Z)
    (fetched : fetch_outcome) (writable : bool) (t1 : Z) : result (value * storage) :=
  let targetUrl := vnindex_target url in
  let cacheKey := getCacheKey "VNINDEX" (VObj [("url", VStr targetUrl)]) in
  match loadFromCache st t0 cacheKey (Some VNINDEX_TTL) with
  | Some (d, _) => Ok (d, st)
  | None =>
      Ok (try_catch
            (let* data := match fetched with Some d => Ok d | None => Throw Error end in
             if negb (truthy data) then Throw Error else
             let* parsed := parseVNIndexData data in
             let st' := if Nat.ltb 0 (List.length parsed)
                        then saveToCache writable st t1 cacheKey (VArr parsed) else st in
             Ok (VArr parsed, st'))
            (fun _ =>
               match loadFromCache st t1 cacheKey None with
               | Some (d, _) => (d, st)
               | None => (VArr [], st)
               end))
  end.

Record FilterParams : Type := mk_params {
  p_t : Q;
  p_floor : string;
  p_min_adClose : num;
  p_max_adClose : num;
  p_min_MA20 : num;
  p_max_MA20 : num;
  p_breadthUrl : option string
}.

Definition breadth_url (params : FilterParams) : string :=
  match params.(p_breadthUrl) with
  | Some u => if String.eqb u "" then DEFAULT_BREADTH_URL else u
  | None => DEFAULT_BREADTH_URL
  end.

Definition filterIdentity (params : FilterParams) : value :=
  VObj [("floor", VStr params.(p_floor));
        ("min_ad", VNum params.(p_min_adClose));
        ("max_ad", VNum params.(p_max_adClose));
        ("min_ma", VNum params.(p_min_MA20));
        ("max_ma", VNum params.(p_max_MA20));
        ("breadthUrl", VStr (breadth_url params))].

(** The two network requests of [fetchBreadthData]. *)
Inductive request : Type := ReqLatest | ReqHistory.

(** [p.timestamp] as a number, for the sort comparator. *)
Definition ts_num (p : value) : num :=
  match prop p "timestamp" with Ok v => to_number v | Throw _ => NNaN end.

(** [(a, b) => a.timestamp - b.timestamp], read as SortCompare reads it:
    [NaN] counts as [+0]. *)
Definition ts_cmp (a b : value) : Q :=
  match num_sub (ts_num a) (ts_num b) with
  | NFin q => q
  | NPosInf => 1
  | NNegInf => -1
  | NNaN => 0
  end.

(** [Array.prototype.sort] with that comparator, as a stable insertion sort. *)
Fixpoint insert_point (x : value) (l : list value) : list value :=
  match l with
  | [] => [x]
  | y :: r => if Qle_bool (ts_cmp x y) 0 then x :: y :: r else y :: insert_point x r
  end.

Definition sort_by_timestamp (l : list value) : list value :=
  fold_right insert_point [] l.

(** [mergedMap.set(p.timestamp, p)] *)
Definition set_by_timestamp (m : list (value * value)) (p : value)
    : result (list (value * value)) :=
  let* ts := prop p "timestamp" in Ok (map_set ts p m).

(** The cache read at the start of [fetchBreadthData]:
    [(cachedData, isCacheValid, cacheAge)]. *)
Definition breadth_cache (st : storage) (t0 : Z) (cacheKey : string)
    : list value * bool * num :=
  match loadFromCache st t0 cacheKey None with
  | Some (VArr ((_ :: _) as l), age) => (l, true, age)
  | _ => ([], false, NFin (999999999 # 1))
  end.

(** The body of the [try] block from [Promise.all] on: the merge of the
    processed responses and the cache write at [t1]. *)
Definition breadth_merge (writable : bool) (st : storage) (t1 : Z) (cacheKey : string)
    (cachedData : list value) (isCacheValid shouldFetchHistory : bool)
    (latestRaw historyRaw : value) : result (list value * storage) :=
  let* latestPoints := processRaw latestRaw in
  let* historyPoints := processRaw historyRaw in
  let* m1 := if negb shouldFetchHistory && isCacheValid
             then fold_resultM set_by_timestamp [] cachedData else Ok [] in
  let* m2 := if shouldFetchHistory
             then fold_resultM set_by_timestamp m1 historyPoints else Ok m1 in
  let* m3 := fold_resultM set_by_timestamp m2 latestPoints in
  let finalResult := sort_by_timestamp (map snd m3) in
  let st' := match finalResult with
             | [] => st
             | _ => saveToCache writable st t1 cacheKey (VArr finalResult)
             end in
  Ok (finalResult, st').

(** [fetchBreadthData(params)]: the cache is read at [t0]; [latest] and
    [history] are the outcomes of the two requests, and the cache is written
    at [t1].  The result also lists the requests that were issued. *)
Definition fetchBreadthData (params : FilterParams) (st : storage) (t0 : Z)
    (latest history : fetch_outcome) (writable : bool) (t1 : Z)
    : list value * storage * list request :=
  let cacheKey := getCacheKey "BREADTH" (filterIdentity params) in
  let '(cachedData, isCacheValid, cacheAge) := breadth_cache st t0 cacheKey in
  if isCacheValid && num_lt cacheAge BREADTH_MIN_FRESH then (cachedData, st, []) else
  let shouldFetchHistory := negb isCacheValid || Nat.ltb (List.length cachedData) 50 in
  let reqs := ReqLatest :: (if shouldFetchHistory then [ReqHistory] else []) in
  (* [fetchWithFallback(url).catch(() => [])] *)
  let latestRaw := match latest with Some v => v | None => VArr [] end in
  let historyRaw := if shouldFetchHistory
                    then match history with Some v => v | None => VArr [] end
                    else VArr [] in
  let '(res, st') :=
    try_catch (breadth_merge writable st t1 cacheKey cachedData isCacheValid
                 shouldFetchHistory latestRaw historyRaw)
              (fun _ => (if isCacheValid then cachedData else [], st)) in
  (res, st', reqs).

End Fetchers.

(* ------------------------------------------------------------------------- *)
(** ** App.tsx: the merge step of [chartData]

    [dataMap] maps a calendar-day key to a mutable [ChartDataPoint], modelled
    as the list of its properties; the sort and the date-range filter that
    follow the merge are in [chartData] below. *)

Section ChartMerge.
Context `{Host}.

Definition record : Type := list (string * value).

(** [o[k] = v] *)
Fixpoint obj_set (k : string) (v : value) (o : record) : record :=
  match o with
  | [] => [(k, v)]
  | (k', x) :: r => if String.eqb k' k then (k', v) :: r else (k', x) :: obj_set k v r
  end.

Fixpoint dm_get (key : string) (dm : list (string * record)) : option record :=
  match dm with
  | [] => None
  | (k, r) :: rest => if String.eqb k key then Some r else dm_get key rest
  end.

Fixpoint dm_put (key : string) (r : record) (dm : list (string * record))
    : list (string * record) :=
  match dm with
  | [] => [(key, r)]
  | (k, x) :: rest => if String.eqb k key then (k, r) :: rest else (k, x) :: dm_put key r rest
  end.

(** [getDateKey(ts)]: throws [RangeError] on an invalid date. *)
Definition getDateKey (ts : value) : result string := iso_date_of ts.

Definition fresh_record (ts : value) (key : string) : record :=
  [("date", VStr key); ("timestamp", ts);
   ("formattedDate", VStr (match date_value ts with
                           | Some t => format_day_month t | None => "NaN/NaN" end));
   ("vnIndex", VUndef); ("capVal", VUndef); ("sectorVal", VUndef)].

(** [getOrCreate(ts, key)]: the record under [key], created if absent. *)
Definition getOrCreate (ts : value) (key : string) (dm : list (string * record))
    : record * list (string * record) :=
  match dm_get key dm with
  | Some r => (r, dm)
  | None => let r := fresh_record ts key in (r, dm_put key r dm)
  end.

(** [Object.assign(item, b)] *)
Definition obj_assign (item : record) (b : value) : record :=
  match b with
  | VObj fs => fold_left (fun o kv => obj_set (fst kv) (snd kv) o) fs item
  | _ => item
  end.

(** The body of [breadthData.forEach]. *)
Definition merge_breadth_point (dm : list (string * record)) (b : value)
    : result (list (string * record)) :=
  let* ts := prop b "timestamp" in
  let* key := getDateKey ts in
  let '(item, dm1) := getOrCreate ts key dm in
  Ok (dm_put key (obj_assign item b) dm1).

(** The body of [vnIndexFixedData.forEach] ([field = "vnIndex"]),
    [capData.forEach] ([field = "capVal"]) and [sectorData.forEach]
    ([field = "sectorVal"]). *)
Definition merge_index_point (field : string) (dm : list (string * record)) (v : value)
    : result (list (string * record)) :=
  let* ts := prop v "timestamp" in
  let* key := getDateKey ts in
  let '(item, dm1) := getOrCreate ts key dm in
  let* close := prop v "close" in
  if nullish close then Ok dm1 else Ok (dm_put key (obj_set field close item) dm1).

Definition merge_index_series (field : string) (src : list value)
    (dm : list (string * record)) : result (list (string * record)) :=
  fold_resultM (merge_index_point field) dm src.

(** Step 1 of [chartData]: the four sources merged into [dataMap]. *)
Definition chart_merge (breadthData vnIndexFixedData capData sectorData : list value)
    : result (list (string * record)) :=
  let* dm1 := fold_resultM merge_breadth_point [] breadthData in
  let* dm2 := merge_index_series "vnIndex" vnIndexFixedData dm1 in
  let* dm3 := merge_index_series "capVal" capData dm2 in
  merge_index_series "sectorVal" sectorData dm3.

End ChartMerge.

(* ------------------------------------------------------------------------- *)
(** ** App.tsx: the sort and the date-range filter of [chartData] *)

Section ChartData.
Context `{Host}.

(** [TimeRange] *)
Inductive time_range : Type := R1M | R3M | R6M | R1Y | R3Y | R5Y | R7Y.

(** [ranges[range]], in days *)
Definition range_days (r : time_range) : Z :=
  match r with
  | R1M => 30 | R3M => 90 | R6M => 180 | R1Y => 365
  | R3Y => 1095 | R5Y => 1825 | R7Y => 2555
  end.

(** ToPrimitive with hint number: an object or an array becomes its string. *)
Definition to_primitive (v : value) : value :=
  match v with VArr _ | VObj _ => VStr (obj_to_string v) | _ => v end.

(** IsLessThan(a, b); [None] is [undefined], a comparison with [NaN]. *)
Definition js_less (a b : value) : option bool :=
  match to_primitive a, to_primitive b with
  | VStr x, VStr y => Some (String.ltb x y)
  | pa, pb =>
      match to_number pa, to_number pb with
      | NNaN, _ | _, NNaN => None
      | x, y => Some (num_lt x y)
      end
  end.

(** [a < b], [a > b], [a <= b], [a >= b] *)
Definition js_lt (a b : value) : bool := match js_less a b with Some r => r | None => false end.
Definition js_gt (a b : value) : bool := match js_less b a with Some r => r | None => false end.
Definition js_le (a b : value) : bool := match js_less b a with Some false => true | _ => false end.
Definition js_ge (a b : value) : bool := match js_less a b with Some false => true | _ => false end.

(** [d.timestamp] for a point of [chartData]: the points are the objects of
    [dataMap], so the read does not throw. *)
Definition point_ts (d : value) : value :=
  match prop d "timestamp" with Ok v => v | Throw _ => VUndef end.

(** [params.fromDate] / [params.toDate] is set: a non-empty string *)
Definition date_given (d : option string) : bool :=
  match d with Some s => negb (String.eqb s "") | None => false end.

(** [chartData]: the merge of the four series, then
    [Array.from(dataMap.values()).sort((a, b) => a.timestamp - b.timestamp)],
    then the filter by [params.fromDate] / [params.toDate] ([None] is
    [undefined]) or by the [range] state, with [now] for [Date.now()].  An
    exception of the merge escapes the [useMemo]. *)
Definition chartData (breadthData vnIndexFixedData capData sectorData : list value)
    (range : time_range) (fromDate toDate : option string) (now : Z) : result (list value) :=
  if Nat.eqb (List.length breadthData) 0 && Nat.eqb (List.length vnIndexFixedData) 0
  then Ok [] else
  let* dm := chart_merge breadthData vnIndexFixedData capData sectorData in
  let sorted := sort_by_timestamp (map (fun kr => VObj (snd kr)) dm) in
  if date_given fromDate || date_given toDate then
    let from := match fromDate with
                | Some s => if String.eqb s "" then n0 else time_num (date_parse s)
                | None => n0
                end in
    let to := match toDate with
              | Some s => if String.eqb s "" then NPosInf
                          else num_add (time_num (date_parse s)) (NFin (86400000 # 1))
              | None => NPosInf
              end in
    Ok (filter (fun d => js_ge (point_ts d) (VNum from) && js_lt (point_ts d) (VNum to)) sorted)
  else
    let days := NFin (inject_Z (range_days range)) in
    if num_truthy days then
      let cutoff := num_sub (NFin (inject_Z now)) (num_mul days (NFin (86400000 # 1))) in
      Ok (filter (fun d => js_ge (point_ts d) (VNum cutoff)) sorted)
    else Ok sorted.

End ChartData.

(* ------------------------------------------------------------------------- *)
(** ** App.tsx: [crossovers] *)

Section Crossovers.
Context `{Host}.

Inductive cross_type : Type := Bull | Bear.

(** [v !== undefined] *)
Definition defined (v : value) : bool := match v with VUndef => false | _ => true end.

(** The test of one pair of lines [lo]/[hi] ([ma20]/[ma50] or [ma50]/[ma200])
    between [prev] and [curr]; [&&] stops at the first [undefined]. *)
Definition cross_step (lo hi : string) (prev curr : value) : result (option cross_type) :=
  let* pl := prop prev lo in
  if negb (defined pl) then Ok None else
  let* ph := prop prev hi in
  if negb (defined ph) then Ok None else
  let* cl := prop curr lo in
  if negb (defined cl) then Ok None else
  let* ch := prop curr hi in
  if negb (defined ch) then Ok None else
  if js_le pl ph && js_gt cl ch then Ok (Some Bull)
  else if js_ge pl ph && js_lt cl ch then Ok (Some Bear)
  else Ok None.

(** [{ x: curr.timestamp, type }] pushed when the step fires *)
Definition cross_push (curr : value) (s : option cross_type)
    : result (list (value * cross_type)) :=
  match s with
  | Some t => let* x := prop curr "timestamp" in Ok [(x, t)]
  | None => Ok []
  end.

(** The [for] loop from [i = 1], with [prev] the point before [rest]. *)
Fixpoint cross_loop (prev : value) (rest : list value)
    : result (list (value * cross_type) * list (value * cross_type)) :=
  match rest with
  | [] => Ok ([], [])
  | curr :: r =>
      let* s1 := cross_step "ma20" "ma50" prev curr in
      let* e1 := cross_push curr s1 in
      let* s2 := cross_step "ma50" "ma200" prev curr in
      let* e2 := cross_push curr s2 in
      let* acc := cross_loop curr r in
      Ok ((e1 ++ fst acc)%list, (e2 ++ snd acc)%list)
  end.

(** [crossovers]: [(cross20_50, cross50_200)]. *)
Definition crossovers (chartData : list value)
    : result (list (value * cross_type) * list (value * cross_type)) :=
  if Nat.ltb (List.length chartData) 2 then Ok ([], []) else
  match chartData with
  | [] => Ok ([], [])
  | p :: r => cross_loop p r
  end.

End Crossovers.

(* ------------------------------------------------------------------------- *)
(** ** services/ai.ts: the data window of [prepareAnalysisContext] *)

Section AiContext.
Context `{Host}.

(** [AnalysisRange] *)
Inductive analysis_range : Type := AR1M | AR3M | AR6M | AR1Y | ARALL.

(** [sliceCount] for [n] points *)
Definition slice_count (range : analysis_range) (n : nat) : nat :=
  match range with
  | AR1M => 22 | AR3M => 65 | AR6M => 130 | AR1Y => 250 | ARALL => n
  end.

(** [recentData]: the guard on [data.length] and the slice. *)
Definition analysis_window (data : list value) (range : analysis_range) : result (list value) :=
  if Nat.ltb (List.length data) 5 then Throw Error else
  let sliceCount := slice_count range (List.length data) in
  let startIndex := Nat.max 0 (List.length data - sliceCount) in
  Ok (skipn startIndex data).

(** [v === n] for a number [n] *)
Definition strict_eq_num (v : value) (n : Q) : bool :=
  match v with VNum (NFin q) => Qeq_bool q n | _ => false end.

(** [secData.find(d => d.timestamp >= startTs)]; [None] is [undefined]. *)
Fixpoint find_from (startTs : value) (l : list value) : result (option value) :=
  match l with
  | [] => Ok None
  | d :: r =>
      let* t := prop d "timestamp" in
      if js_ge t startTs then Ok (Some d) else find_from startTs r
  end.

(** [((endPoint.close - startPoint.close) / startPoint.close) * 100] *)
Definition pct_change (startPoint endPoint : value) : result num :=
  let* ec := prop endPoint "close" in
  let* sc := prop startPoint "close" in
  Ok (num_mul (num_div (num_sub (to_number ec) (to_number sc)) (to_number sc)) n100).

(** The callback of [allSectors.map] once [fetchVNIndexData(url)] has given
    [secData]: the change of the sector over the window, [None] is [null]. *)
Definition sector_change (secData startTs : value) : result (option num) :=
  if negb (truthy secData) then Ok None else
  let* len := prop secData "length" in
  if strict_eq_num len 0 then Ok None else
  match secData with
  | VArr l =>
      let* startPoint := find_from startTs l in
      let endPoint := nth (List.length l - 1) l VUndef in
      match startPoint with
      | Some sp =>
          if truthy sp && truthy endPoint then
            let* et := prop endPoint "timestamp" in
            if js_ge et startTs then let* c := pct_change sp endPoint in Ok (Some c)
            else Ok None
          else Ok None
      | None => Ok None
      end
  | _ => Throw TypeError (* [secData.find] is not a function *)
  end.

End AiContext.

(* ------------------------------------------------------------------------- *)
(** ** components/AiInsightPanel.tsx: the saved session *)

Section AiSession.

Definition STORAGE_KEY : string := "MBA_AI_SESSION".

(** The [id]s of [MODELS] *)
Definition MODELS : list string :=
  ["gemini-3-pro-preview"; "gemini-3-flash-preview"; "gemini-2.5-pro"].

(** The state that the session effects read and write. *)
Record ai_state : Type := mk_ai_state {
  s_analysis : value;
  s_chatMessages : value;
  s_range : value;
  s_model : value
}.

Definition store_remove (st : storage) (k : string) : storage :=
  fun k' => if String.eqb k k' then None else st k'.

(** The save effect, at time [now]; [writable = false] is a [setItem] that
    throws (the effect does not catch it). *)
Definition save_session (writable : bool) (st : storage) (s : ai_state) (now : Z)
    : result storage :=
  if truthy s.(s_analysis) then
    let payload := VObj [("analysis", s.(s_analysis)); ("chatMessages", s.(s_chatMessages));
                         ("range", s.(s_range)); ("model", s.(s_model));
                         ("timestamp", VNum (NFin (inject_Z now)))] in
    if writable then
      match json_rt payload with
      | Some p => Ok (store_put st STORAGE_KEY (Json p))
      | None => Ok st
      end
    else Throw Error
  else Ok (store_remove st STORAGE_KEY).

(** [MODELS.some(m => m.id === v)] *)
Definition known_model (v : value) : bool :=
  match v with VStr m => existsb (String.eqb m) MODELS | _ => false end.

(** The load effect run on mount from the state [s]: every setter called
    before an exception keeps its effect; the [catch] only logs. *)
Definition load_session (st : storage) (s : ai_state) : ai_state :=
  match st STORAGE_KEY with
  | None => s
  | Some Corrupt => s
  | Some (Json parsed) =>
      match prop parsed "analysis" with
      | Throw _ => s
      | Ok a =>
      let s1 := if truthy a then mk_ai_state a s.(s_chatMessages) s.(s_range) s.(s_model)
                else s in
      match prop parsed "chatMessages" with
      | Throw _ => s1
      | Ok c =>
      let s2 := if truthy c then mk_ai_state s1.(s_analysis) c s1.(s_range) s1.(s_model)
                else s1 in
      match prop parsed "range" with
      | Throw _ => s2
      | Ok r =>
      let s3 := if truthy r then mk_ai_state s2.(s_analysis) s2.(s_chatMessages) r s2.(s_model)
                else s2 in
      match prop parsed "model" with
      | Throw _ => s3
      | Ok m =>
          if truthy m && known_model m
          then mk_ai_state s3.(s_analysis) s3.(s_chatMessages) s3.(s_range) m
          else s3
      end end end end
  end.

(** [handleClearHistory]: the state is reset and the saved session removed. *)
Definition handleClearHistory (st : storage) (s : ai_state) : ai_state * storage :=
  (mk_ai_state VNull (VArr []) s.(s_range) s.(s_model), store_remove st STORAGE_KEY).

End AiSession.

(* ------------------------------------------------------------------------- *)
(** ** components/SettingsPanel.tsx: the exchange checkboxes *)

Section Settings.

(** [s.split(c)] *)
Fixpoint split_on (c : ascii) (s : string) : list string :=
  match s with
  | EmptyString => [""]
  | String a r =>
      if Ascii.eqb a c then "" :: split_on c r
      else match split_on c r with
           | x :: xs => String a x :: xs
           | [] => [String a ""]
           end
  end.

(** [idx = floors.indexOf(f); if (idx > -1) floors.splice(idx, 1)] *)
Fixpoint remove_first (f : string) (l : list string) : list string :=
  match l with
  | [] => []
  | x :: r => if String.eqb x f then r else x :: remove_first f r
  end.

(** [params.floor.split(',').filter(f => f)] *)
Definition parse_floors (floorParam : string) : list string :=
  filter (fun f => negb (String.eqb f "")) (split_on "," floorParam).

(** The [onChange] of the checkbox of [floor]: the new [params.floor]. *)
Definition toggle_floor (floorParam floor : string) (checked : bool) : string :=
  let floors := parse_floors floorParam in
  let floors' := if checked then (floors ++ [floor])%list else remove_first floor floors in
  String.concat "," floors'.

End Settings.

(* ------------------------------------------------------------------------- *)
(** ** services/api.ts: the URL requested by [fetchWithFallback] *)

Section FetchUrl.
Context `{Host}.

(** [s.includes(c)] for a one-character string [c] *)
Fixpoint str_has (c : ascii) (s : string) : bool :=
  match s with
  | EmptyString => false
  | String a r => Ascii.eqb a c || str_has c r
  end.

(** [urlWithCacheBuster] at time [now]; [String(now)] is the JSON text of
    the number. *)
Definition urlWithCacheBuster (url : string) (now : Z) : string :=
  url ++ (if str_has "?" url then "&" else "?") ++ "_=" ++ num_to_json (inject_Z now).

End FetchUrl.

(* ------------------------------------------------------------------------- *)
(** ** A concrete host

    Used to run the model on concrete inputs: numbers as decimal literals,
    dates in the [YYYY-MM-DD] form (UTC), JSON strings escaping quotes and
    backslashes.  The theorems do not depend on it. *)

Module ExampleHost.

Definition digit_of (c : ascii) : option Z :=
  let n := nat_of_ascii c in
  if (48 <=? n)%nat && (n <=? 57)%nat then Some (Z.of_nat (n - 48)) else None.

(** the digits of [s] as a number and their count *)
Fixpoint digits_acc (s : string) (acc : Z) (len : nat) : option (Z * nat) :=
  match s with
  | EmptyString => Some (acc, len)
  | String c r =>
      match digit_of c with
      | Some d => digits_acc r (10 * acc + d) (S len)
      | None => None
      end
  end.

Fixpoint split_at (c : ascii) (s : string) : string * option string :=
  match s with
  | EmptyString => (EmptyString, None)
  | String x r =>
      if Ascii.eqb x c then (EmptyString, Some r)
      else let '(a, b) := split_at c r in (String x a, b)
  end.

(** an optional [-], digits, and an optional [.] with digits *)
Definition parse_decimal (s : string) : option Q :=
  let '(neg, body) := match s with
                      | String "-"%char r => (true, r)
                      | _ => (false, s)
                      end in
  let '(ip, fp) := split_at "."%char body in
  match digits_acc ip 0 0 with
  | Some (i, S _) =>
      let q := match fp with
               | None => Some (inject_Z i)
               | Some f =>
                   match digits_acc f 0 0 with
                   | Some (fz, k) => Some (inject_Z i + (fz # Pos.of_nat (10 ^ k)))
                   | None => None
                   end
               end in
      match q with Some q => Some (if neg then - q else q) | None => None end
  | _ => None
  end.

Definition ex_str_to_number (s : string) : num :=
  if String.eqb s "" then NFin 0
  else match parse_decimal s with Some q => NFin q | None => NNaN end.

Definition ex_str_parse_float (s : string) : num :=
  match parse_decimal s with Some q => NFin q | None => NNaN end.

Definition Z_to_decimal (z : Z) : string :=
  (if (z <? 0)%Z then "-" else "") ++ digits_of_uint (N.to_uint (Z.to_N (Z.abs z))).

Fixpoint pad_left (n : nat) (s : string) : string :=
  match n with
  | O => s
  | S n' => if (String.length s <? n)%nat then pad_left n' ("0" ++ s) else s
  end.

Fixpoint strip_zeros_rev (l : list ascii) : list ascii :=
  match l with
  | "0"%char :: r => strip_zeros_rev r
  | _ => l
  end.

(** a terminating decimal printed exactly; others truncated to 20 digits *)
Definition q_to_decimal (q : Q) : string :=
  let n := Qnum q in
  let d := Zpos (Qden q) in
  if (d =? 1)%Z then Z_to_decimal n else
  let a := Z.abs n in
  let scaled := (a * 10 ^ 20 / d)%Z in
  let ip := (scaled / 10 ^ 20)%Z in
  let fp := (scaled mod 10 ^ 20)%Z in
  let fs := pad_left 20 (Z_to_decimal fp) in
  let fs' := string_of_list_ascii (rev (strip_zeros_rev (rev (list_ascii_of_string fs)))) in
  (if (n <? 0)%Z then "-" else "") ++ Z_to_decimal ip ++
  (if String.eqb fs' "" then "" else "." ++ fs').

Definition days_from_civil (y m d : Z) : Z :=
  let y' := if (m <=? 2)%Z then (y - 1)%Z else y in
  let era := (y' / 400)%Z in
  let yoe := (y' - era * 400)%Z in
  let doy := ((153 * (if (m >? 2)%Z then m - 3 else m + 9) + 2) / 5 + d - 1)%Z in
  let doe := (yoe * 365 + yoe / 4 - yoe / 100 + doy)%Z in
  (era * 146097 + doe - 719468)%Z.

Definition civil_from_days (z : Z) : Z * Z * Z :=
  let z' := (z + 719468)%Z in
  let era := (z' / 146097)%Z in
  let doe := (z' - era * 146097)%Z in
  let yoe := ((doe - doe / 1460 + doe / 36524 - doe / 146096) / 365)%Z in
  let doy := (doe - (365 * yoe + yoe / 4 - yoe / 100))%Z in
  let mp := ((5 * doy + 2) / 153)%Z in
  let d := (doy - (153 * mp + 2) / 5 + 1)%Z in
  let m := if (mp <? 10)%Z then (mp + 3)%Z else (mp - 9)%Z in
  let y := (yoe + era * 400 + (if (m <=? 2)%Z then 1 else 0))%Z in
  (y, m, d).

Definition ms_per_day : Z := 86400000.

(** [YYYY-MM-DD], read as midnight UTC *)
Definition ex_date_parse (s : string) : option Z :=
  match list_ascii_of_string s with
  | [y1; y2; y3; y4; "-"%char; m1; m2; "-"%char; d1; d2] =>
      match digits_acc (string_of_list_ascii [y1; y2; y3; y4]) 0 0,
            digits_acc (string_of_list_ascii [m1; m2]) 0 0,
            digits_acc (string_of_list_ascii [d1; d2]) 0 0 with
      | Some (y, _), Some (m, _), Some (d, _) =>
          if (1 <=? m)%Z && (m <=? 12)%Z && (1 <=? d)%Z && (d <=? 31)%Z
          then Some (days_from_civil y m d * ms_per_day)%Z else None
      | _, _, _ => None
      end
  | _ => None
  end.

Definition ex_iso_day (t : Z) : string :=
  let '(y, m, d) := civil_from_days (t / ms_per_day)%Z in
  pad_left 4 (Z_to_decimal y) ++ "-" ++ pad_left 2 (Z_to_decimal m) ++ "-"
    ++ pad_left 2 (Z_to_decimal d).

Definition ex_format_day_month (t : Z) : string :=
  let '(_, m, d) := civil_from_days (t / ms_per_day)%Z in
  pad_left 2 (Z_to_decimal d) ++ "/" ++ pad_left 2 (Z_to_decimal m).

Definition quote_char : ascii := ascii_of_nat 34.
Definition backslash_char : ascii := ascii_of_nat 92.

Fixpoint escape (s : string) : string :=
  match s with
  | EmptyString => EmptyString
  | String c r =>
      if Ascii.eqb c quote_char || Ascii.eqb c backslash_char
      then String backslash_char (String c (escape r))
      else String c (escape r)
  end.

Definition ex_json_quote (s : string) : string :=
  String quote_char (escape s ++ String quote_char EmptyString).

Fixpoint to_js_string (v : value) : string :=
  match v with
  | VUndef | VNull => ""
  | VBool b => if b then "true" else "false"
  | VNum (NFin q) => q_to_decimal q
  | VNum NNaN => "NaN"
  | VNum NPosInf => "Infinity"
  | VNum NNegInf => "-Infinity"
  | VStr s => s
  | VArr l => String.concat "," (map to_js_string l)
  | VObj _ => "[object Object]"
  end.

Definition host : Host := {|
  str_to_number := ex_str_to_number;
  str_parse_float := ex_str_parse_float;
  obj_to_string := to_js_string;
  date_parse := ex_date_parse;
  iso_day := ex_iso_day;
  format_day_month := ex_format_day_month;
  num_to_json := q_to_decimal;
  json_quote := ex_json_quote
|}.

End ExampleHost.

(* ------------------------------------------------------------------------- *)
(** ** The properties stated by the specification *)

(** [p.k] when it is a number. *)
Definition field_num (k : string) (p : value) : option num :=
  match p with
  | VObj fs => match assoc k fs with Some (VNum n) => Some n | _ => None end
  | _ => None
  end.

Definition field (k : string) (p : value) : option value :=
  match p with VObj fs => assoc k fs | _ => None end.

(** [ma = 100 * count / total] when [total > 0], [ma = 0] when [total = 0]. *)
Definition ma_rule (t c m : num) : Prop :=
  (forall t' c', t = NFin t' -> c = NFin c' -> (0 < t')%Q ->
     exists x, m = NFin x /\ (x == 100 * c' / t')%Q) /\
  (forall t', t = NFin t' -> (t' == 0)%Q -> m = NFin 0).

Definition breadth_pairs : list (string * string) :=
  [("count20", "ma20"); ("count50", "ma50"); ("count200", "ma200")].

(** A point obeys the percentage rule for k in {20, 50, 200}. *)
Definition breadth_ma_ok (p : value) : Prop :=
  forall ck mk, In (ck, mk) breadth_pairs ->
  exists t c m, field_num "total" p = Some t /\ field_num ck p = Some c /\
                field_num mk p = Some m /\ ma_rule t c m.

(** The same, with [ma = 0] also for a negative or [NaN] total. *)
Definition breadth_ma_ok_full (p : value) : Prop :=
  forall ck mk, In (ck, mk) breadth_pairs ->
  exists t c m, field_num "total" p = Some t /\ field_num ck p = Some c /\
                field_num mk p = Some m /\ ma_rule t c m /\
                (forall t', t = NFin t' -> (t' <= 0)%Q -> m = NFin 0) /\
                (t = NNaN -> m = NFin 0).

(** The request of [fetchVNIndexData] fails: [fetchWithFallback] rejects,
    the body is falsy, or [parseVNIndexData] throws. *)
Definition vn_fetch_fails `{Host} (fetched : fetch_outcome) : Prop :=
  match fetched with
  | None => True
  | Some d => truthy d = false \/ exists e, parseVNIndexData d = Throw e
  end.

(** [p.timestamp] is present and is the same [Map] key as [k]. *)
Definition key_is `{Host} (k : value) (p : value) : bool :=
  match prop p "timestamp" with Ok t => svz t k | Throw _ => false end.

(** The entries of a [Map] whose key is the same as [k]. *)
Definition entries_at {A} (k : value) (m : list (value * A)) : list (value * A) :=
  filter (fun e => svz (fst e) k) m.

(** An entry of [mergedMap]: its value's timestamp is the same key as the
    entry's key, or is that key. *)
Definition entry_ok `{Host} (e : value * value) : Prop :=
  exists t, prop (snd e) "timestamp" = Ok t /\ (svz (fst e) t = true \/ fst e = t).

(** Two points in ascending order of finite numeric timestamps. *)
Definition ts_le `{Host} (a b : value) : Prop :=
  exists x y, ts_num a = NFin x /\ ts_num b = NFin y /\ (x <= y)%Q.

(** [p.timestamp] when it is a finite number. *)
Definition fin_ts (p : value) : option Q :=
  match prop p "timestamp" with Ok (VNum (NFin x)) => Some x | _ => None end.

(** Points with finite numeric timestamps, no two of them equal. *)
Definition distinct_fin_ts (l : list value) : Prop :=
  Forall (fun p => exists x, fin_ts p = Some x) l /\
  ForallOrdPairs (fun a b => forall x y, fin_ts a = Some x -> fin_ts b = Some y ->
                             Qeq_bool x y = false) l.

(** Values that [JSON.parse(JSON.stringify(.))] gives back unchanged. *)
Definition json_stable (l : list value) : Prop := Forall (fun p => json_rt p = Some p) l.

(** The order [Array.prototype.sort] puts strings in. *)
Definition sleb (x y : string) : Prop := String.leb x y = true.

(** A finite number. *)
Definition finite_num (n : num) : Prop := exists q, n = NFin q.

(** A point of [parseVNIndexData] with a finite numeric timestamp and close. *)
Definition finite_point (p : value) : Prop :=
  exists ts c, field "timestamp" p = Some (VNum (NFin ts)) /\
               field "close" p = Some (VNum (NFin c)).



(* ------------------------------------------------------------------------- *)
(** ** Sample inputs *)

Definition sample_breadth_row : value :=
  VObj [("date", VStr "2024-01-01"); ("total", VNum (NFin 100));
        ("avg_ma20", VNum (NFin 40)); ("avg_ma50", VNum (NFin 30));
        ("avg_ma200", VNum (NFin 20))].

Definition sample_params : FilterParams :=
  mk_params 1 "all" n0 n100 n0 n100 None.

(** A ready-made point whose [ma20] is not [100 * count20 / total]. *)
Definition sample_ready_point : value :=
  VObj [("date", VStr "2024-01-01"); ("timestamp", VNum (NFin (1704067200000 # 1)));
        ("total", VNum (NFin 100));
        ("count20", VNum (NFin 10)); ("count50", VNum (NFin 5)); ("count200", VNum (NFin 2));
        ("ma20", VNum (NFin 40)); ("ma50", VNum (NFin 20)); ("ma200", VNum (NFin 10))].

(** Two parameter sets that differ only in [min_adClose]: [NaN] and
    [Infinity]. *)
Definition sample_params_nan : FilterParams :=
  mk_params 1 "all" NNaN n100 n0 n100 None.

Definition sample_params_inf : FilterParams :=
  mk_params 1 "all" NPosInf n100 n0 n100 None.

Definition empty_storage : storage := fun _ => None.

(** A breadth point as the server sends it ready-made. *)
Definition ready_point (ts ma : Q) : value :=
  VObj [("timestamp", VNum (NFin ts)); ("total", VNum (NFin 100));
        ("count20", VNum (NFin ma)); ("ma20", VNum (NFin ma))].

(** Fifty cached daily points, newest first. *)
Definition sample_cached : list value :=
  map (fun i => ready_point (inject_Z (1704067200000 + 86400000 * Z.of_nat (49 - i))) 50)
      (seq 0 50).

(** A latest response and a history response that disagree on 2024-01-02. *)
Definition sample_latest : value := VArr [ready_point (1704153600000 # 1) 55].

Definition sample_history : value :=
  VArr [ready_point (1704067200000 # 1) 40; ready_point (1704153600000 # 1) 50].

(** A [dataMap] with one day whose [vnIndex] is set, and a [capData] point of
    that day with close 0. *)
Definition sample_day_map : list (string * record) :=
  [("2024-01-01", [("date", VStr "2024-01-01"); ("vnIndex", VNum (NFin 1500))])].

Definition sample_index_point : value :=
  VObj [("timestamp", VNum (NFin (1704067200000 # 1))); ("close", VNum n0)].

(* ------------------------------------------------------------------------- *)
(** ** Predicates and samples for the further properties *)

Definition distinct_dates `{Host} (ps : list value) : Prop :=
  ForallOrdPairs (fun a b => forall x y, prop a "date" = Ok x -> prop b "date" = Ok y ->
                             svz x y = false) ps.

Definition dates_are_keys (m : list (value * centry)) : Prop :=
  Forall (fun kv => c_date (snd kv) = fst kv) m.

Definition keys_distinct {A} (m : list (value * A)) : Prop :=
  ForallOrdPairs (fun a b => svz a b = false) (map fst m).

Definition sample_complex : value :=
  VObj [("ma20", VArr [VObj [("date", VStr "2024-01-01"); ("total", VNum (NFin 100));
                             ("value", VNum (NFin 40))]]);
        ("ma50", VArr [VObj [("date", VStr "2024-01-01"); ("total", VNum (NFin 120));
                             ("value", VNum (NFin 30))]])].

Definition rec_fin_ts (r : record) : Prop :=
  exists q, assoc "timestamp" r = Some (VNum (NFin q)).

Definition ts_fields_fin (fs : list (string * value)) : Prop :=
  forall v, In ("timestamp", v) fs -> exists q, v = VNum (NFin q).

Definition breadth_input_ok (b : value) : Prop :=
  exists fs, b = VObj fs /\ ts_fields_fin fs.

Definition has_fin_ts (p : value) : Prop := exists q, fin_ts p = Some q.

Definition sample_chart_breadth : list value :=
  [VObj [("timestamp", VNum (NFin (1704240000000 # 1))); ("ma20", VNum (NFin 60))];
   VObj [("timestamp", VNum (NFin (1698796800000 # 1))); ("ma20", VNum (NFin 30))];
   VObj [("timestamp", VNum (NFin (1704067200000 # 1))); ("ma20", VNum (NFin 40))]].

Definition sample_chart_index : list value :=
  [VObj [("timestamp", VNum (NFin (1704153600000 # 1))); ("close", VNum (NFin 1150))]].

Definition chart_out (r : result (list value)) : list value :=
  match r with Ok o => o | Throw _ => [] end.

Fixpoint alternating (l : list cross_type) : Prop :=
  match l with
  | a :: ((b :: _) as r) => a <> b /\ alternating r
  | _ => True
  end.

(** A point with finite, distinct values of the two lines [lo] and [hi]. *)
Definition ma_point (lo hi : string) (d : value) : Prop :=
  exists fs a b, d = VObj fs /\ assoc lo fs = Some (VNum (NFin a)) /\
                 assoc hi fs = Some (VNum (NFin b)) /\ ~ (a == b)%Q.

(** [lo] is above [hi] at [d]. *)
Definition above (lo hi : string) (d : value) : bool :=
  match d with
  | VObj fs =>
      match assoc lo fs, assoc hi fs with
      | Some (VNum (NFin a)), Some (VNum (NFin b)) => Qltb b a
      | _, _ => false
      end
  | _ => false
  end.

Definition is_obj (v : value) : Prop := exists fs, v = VObj fs.

Definition alt_from (ab : bool) (l : list cross_type) : Prop :=
  alternating l /\ match l with [] => True | t :: _ => t = if ab then Bear else Bull end.

Definition ma_day (ts ma20 ma50 ma200 : Q) : value :=
  VObj [("timestamp", VNum (NFin ts)); ("ma20", VNum (NFin ma20));
        ("ma50", VNum (NFin ma50)); ("ma200", VNum (NFin ma200))].

Definition sample_cross : list value :=
  [ma_day 1 40 50 45; ma_day 2 60 50 45; ma_day 3 45 50 55; ma_day 4 55 50 55].

Definition ts_before (t0 : Q) (d : value) : Prop := exists q, fin_ts d = Some q /\ (q < t0)%Q.

Definition ts_from (t0 : Q) (d : value) : Prop := exists q, fin_ts d = Some q /\ (t0 <= q)%Q.

Definition sample_sector : list value :=
  [VObj [("timestamp", VNum (NFin 1)); ("close", VNum (NFin 100))];
   VObj [("timestamp", VNum (NFin 3)); ("close", VNum (NFin 110))];
   VObj [("timestamp", VNum (NFin 5)); ("close", VNum (NFin 121))]].

Definition sample_session : ai_state :=
  mk_ai_state VNull (VArr []) (VStr "3M") (VStr "gemini-2.5-pro").

Definition no_comma (s : string) : Prop := str_has "," s = false.

Definition floor_ok (s : string) : Prop := s <> "" /\ no_comma s.

(** A URL cut at its first [?]: the part before it, and the query after it. *)
Fixpoint split_query (s : string) : string * option string :=
  match s with
  | EmptyString => ("", None)
  | String a r =>
      if Ascii.eqb a "?" then ("", Some r)
      else let '(p, q) := split_query r in (String a p, q)
  end.

Definition sample_vnindex_raw : value :=
  VArr [VArr [VNum (NFin (1704067200#1)); VNum (NFin (1200#1))]].

Definition sample_vnindex_parsed : list value :=
  [VObj [("timestamp", VNum (NFin (1704067200000#1))); ("close", VNum (NFin (1200#1)))]].

(* ------------------------------------------------------------------------- *)
(** * Proofs *)

(** ** General facts *)

Lemma bind_Ok {A B} (m : result A) (k : A -> result B) b :
  bind m k = Ok b -> exists a, m = Ok a /\ k a = Ok b.
Proof. destruct m as [a|e]; simpl; [eauto | discriminate]. Qed.

Ltac inv_binds :=
  repeat match goal with
  | H : bind _ _ = Ok _ |- _ =>
      let a := fresh "a" in let Ha := fresh "Ha" in
      apply bind_Ok in H; destruct H as [a [Ha H]]
  | H : Ok _ = Ok _ |- _ => injection H as H
  end.

Lemma mapM_In {A B} (f : A -> result B) l ys :
  mapM f l = Ok ys -> forall y, In y ys -> exists x, In x l /\ f x = Ok y.
Proof.
  revert ys; induction l as [|x r IH]; simpl; intros ys Hm y Hy.
  - injection Hm as <-. destruct Hy.
  - inv_binds. subst ys. destruct Hy as [<-|Hy].
    + exists x; auto.
    + destruct (IH _ Ha0 y Hy) as [x' [Hin Hf]]. exists x'; auto.
Qed.

Lemma mapM_length {A B} (f : A -> result B) l ys :
  mapM f l = Ok ys -> List.length ys = List.length l.
Proof.
  revert ys; induction l as [|x r IH]; simpl; intros ys Hm.
  - injection Hm as <-. reflexivity.
  - inv_binds. subst ys. simpl. f_equal. auto.
Qed.

Lemma mapM_nth {A B} (f : A -> result B) l ys i x :
  mapM f l = Ok ys -> nth_error l i = Some x ->
  exists y, nth_error ys i = Some y /\ f x = Ok y.
Proof.
  revert ys i; induction l as [|x0 r IH]; simpl; intros ys i Hm Hi.
  - destruct i; discriminate.
  - inv_binds. subst ys. destruct i as [|i]; simpl in *.
    + injection Hi as <-. eauto.
    + eauto.
Qed.

(** ** The percentage computation *)

Lemma calc_rule (t c : num) :
  ma_rule t c (calc t c) /\
  (forall t', t = NFin t' -> (t' <= 0)%Q -> calc t c = NFin 0) /\
  (t = NNaN -> calc t c = NFin 0).
Proof.
  unfold calc, num_gt, num_lt, Qltb, n0. split; [split|split].
  - intros t' c' -> -> Hpos.
    assert (Hle : Qle_bool t' 0 = false).
    { destruct (Qle_bool t' 0) eqn:E; auto. apply Qle_bool_iff in E. exfalso.
      apply (Qlt_not_le _ _ Hpos E). }
    assert (Heq : Qeq_bool t' 0 = false).
    { destruct (Qeq_bool t' 0) eqn:E; auto. apply Qeq_bool_iff in E. rewrite E in Hpos.
      exfalso. apply (Qlt_irrefl _ Hpos). }
    rewrite Hle. simpl. rewrite Heq. simpl. eexists; split; [reflexivity|].
    assert (Hnz : ~ t' == 0) by (apply Qeq_bool_neq; exact Heq).
    field. exact Hnz.
  - intros t' -> Hz. simpl.
    assert (Hle : Qle_bool t' 0 = true) by (apply Qle_bool_iff; rewrite Hz; apply Qle_refl).
    rewrite Hle. reflexivity.
  - intros t' -> Hle. simpl. apply Qle_bool_iff in Hle. rewrite Hle. reflexivity.
  - intros ->. reflexivity.
Qed.

Lemma ma_ok_of_fields (p : value) t c20 c50 c200 :
  field_num "total" p = Some t ->
  field_num "count20" p = Some c20 -> field_num "ma20" p = Some (calc t c20) ->
  field_num "count50" p = Some c50 -> field_num "ma50" p = Some (calc t c50) ->
  field_num "count200" p = Some c200 -> field_num "ma200" p = Some (calc t c200) ->
  breadth_ma_ok_full p.
Proof.
  intros Ht H20 M20 H50 M50 H200 M200 ck mk Hin.
  destruct (calc_rule t c20) as [R20 [N20 Z20]].
  destruct (calc_rule t c50) as [R50 [N50 Z50]].
  destruct (calc_rule t c200) as [R200 [N200 Z200]].
  simpl in Hin. destruct Hin as [E|[E|[E|[]]]]; injection E as <- <-.
  - exists t, c20, (calc t c20); repeat split; auto; apply R20.
  - exists t, c50, (calc t c50); repeat split; auto; apply R50.
  - exists t, c200, (calc t c200); repeat split; auto; apply R200.
Qed.

Lemma breadth_point_ma `{Host} (item p : value) :
  breadth_point item = Ok p -> breadth_ma_ok_full p.
Proof.
  unfold breadth_point. intro Hb. inv_binds. subst p.
  eapply ma_ok_of_fields; reflexivity.
Qed.

Lemma complex_point_ma `{Host} (e : centry) : breadth_ma_ok_full (complex_point e).
Proof. unfold complex_point. eapply ma_ok_of_fields; reflexivity. Qed.

Lemma mapBreadthData_In `{Host} l ps p :
  mapBreadthData l = Ok ps -> In p ps -> exists item, In item l /\ breadth_point item = Ok p.
Proof.
  unfold mapBreadthData. intros Hm Hin. inv_binds. subst ps.
  apply filter_In in Hin. destruct Hin as [Hin _].
  destruct (mapM_In _ _ _ Ha p Hin) as [item [Hi Hf]]. eauto.
Qed.

Lemma mapComplexBreadthData_In `{Host} d ps p :
  mapComplexBreadthData d = Ok ps -> In p ps -> exists e, p = complex_point e.
Proof.
  unfold mapComplexBreadthData. intros Hm Hin. inv_binds. subst ps.
  apply in_map_iff in Hin. destruct Hin as [kv [<- _]]. eauto.
Qed.

(** ** parseVNIndexData *)

Lemma parseVNIndexData_no_wrapper `{Host} fs :
  (forall x, assoc "data" fs = Some x -> is_array x = false) ->
  parseVNIndexData (VObj fs) = parse_shapes (VObj fs).
Proof.
  intros Hd. cbn [parseVNIndexData truthy negb].
  generalize (VObj fs) as d.
  induction fs as [|[k x] r IH]; intro d; [reflexivity|].
  cbn [assoc] in Hd |- *. destruct (String.eqb "data" k) eqn:E.
  - apply String.eqb_eq in E. subst k. rewrite (Hd x eq_refl). reflexivity.
  - rewrite (String.eqb_sym k "data"), E. apply IH. exact Hd.
Qed.




Lemma Qltb_lt (x y : Q) : (x < y)%Q -> Qltb x y = true.
Proof.
  intro Hlt. unfold Qltb. destruct (Qle_bool y x) eqn:E; [|reflexivity].
  apply Qle_bool_iff in E. exfalso. exact (Qlt_not_le _ _ Hlt E).
Qed.

Lemma column_points_length `{Host} cs ts i :
  List.length (column_points cs ts i) = List.length ts.
Proof.
  revert i; induction ts as [|t r IH]; intro i; simpl; [reflexivity|].
  rewrite IH. reflexivity.
Qed.
Lemma short_row_close `{Host} t c rest :
  (List.length rest < 3)%nat ->
  array_row_point (VArr (t :: c :: rest)) = Ok (vn_point (scale_if_number t) (to_number c)).
Proof.
  intro Hl. destruct rest as [|a [|b [|d rest']]]; simpl in Hl; try lia; reflexivity.
Qed.

Lemma row_timestamp_scaled `{Host} q rest p :
  (q < 10000000000 # 1)%Q ->
  array_row_point (VArr (VNum (NFin q) :: rest)) = Ok p ->
  field "timestamp" p = Some (VNum (NFin (q * (1000 # 1)))).
Proof.
  intros Hq Hp. unfold array_row_point in Hp. inv_binds. subst p.
  cbn [index_read nth] in Ha. injection Ha as <-.
  unfold scale_if_number, num_lt, n1e10. rewrite (Qltb_lt _ _ Hq). reflexivity.
Qed.

(** C2 fails on the code: an array-of-arrays record with no close cell gives
    a point whose close is [NaN], while in the array-of-objects shape a record
    with a timestamp and no close is dropped. *)
Lemma parseVNIndexData_emits_nan_close :
  @parseVNIndexData ExampleHost.host (VArr [VArr [VNum (NFin (1700000000 # 1))]])
    = Ok [vn_point (VNum (NFin (1700000000000 # 1))) NNaN] /\
  ~ finite_point (vn_point (VNum (NFin (1700000000000 # 1))) NNaN) /\
  @parseVNIndexData ExampleHost.host (VArr [VObj [("t", VNum (NFin (1700000000 # 1)))]])
    = Ok [].
Proof.
  split; [vm_compute; reflexivity|]. split; [|vm_compute; reflexivity].
  intros (ts & c & _ & Hc). simpl in Hc. discriminate.
Qed.



(** ** The breadth percentages *)

(** C1 (as amended): every point built by [mapBreadthData] or by
    [mapComplexBreadthData] has [ma_k = 100 * count_k / total] when
    [total > 0] and [ma_k = 0] when [total] is 0, negative or [NaN], for k
    in {20, 50, 200}.  A flat array whose first element already has an
    [ma20] key is passed through [processRaw] unchanged. *)
Theorem breadth_mappers_percentages `{Host} :
  (forall l ps, mapBreadthData l = Ok ps -> forall p, In p ps -> breadth_ma_ok_full p) /\
  (forall d ps, mapComplexBreadthData d = Ok ps -> forall p, In p ps -> breadth_ma_ok_full p) /\
  (forall r0 rest, has_prop "ma20" r0 = Ok true -> processRaw (VArr (r0 :: rest)) = Ok (r0 :: rest)).
Proof.
  split; [|split].
  - intros l ps Hm p Hin.
    destruct (mapBreadthData_In _ _ _ Hm Hin) as [item [_ Hb]].
    exact (breadth_point_ma _ _ Hb).
  - intros d ps Hm p Hin.
    destruct (mapComplexBreadthData_In _ _ _ Hm Hin) as [e ->].
    apply complex_point_ma.
  - intros r0 rest Hh. unfold processRaw. cbn -[has_prop mapBreadthData].
    rewrite Hh. reflexivity.
Qed.

Lemma breadth_mappers_percentages_witness :
  exists p, @mapBreadthData ExampleHost.host [sample_breadth_row] = Ok [p] /\
            breadth_ma_ok_full p.
Proof.
  eexists. split.
  - vm_compute. reflexivity.
  - match goal with
    | |- breadth_ma_ok_full ?p =>
        exact (proj1 (@breadth_mappers_percentages ExampleHost.host)
                 [sample_breadth_row] [p] ltac:(vm_compute; reflexivity) p (or_introl eq_refl))
    end.
Defined.

(** C1 as stated fails: a flat array whose first point already carries an
    [ma20] key is returned by [fetchBreadthData] as it came, whatever its
    percentages are. *)
Lemma fetchBreadthData_passes_ready_points :
  fst (fst (@fetchBreadthData ExampleHost.host sample_params empty_storage 0
              (Some (VArr (sample_ready_point :: nil))) (Some (VArr nil)) true 0))
    = sample_ready_point :: nil /\
  ~ breadth_ma_ok sample_ready_point.
Proof.
  split; [vm_compute; reflexivity|].
  intro Hok. destruct (Hok "count20" "ma20" (or_introl eq_refl)) as (t & c & m & Ht & Hc & Hm & [Hpos _]).
  cbn in Ht, Hc, Hm. injection Ht as <-. injection Hc as <-. injection Hm as <-.
  destruct (Hpos _ _ eq_refl eq_refl ltac:(vm_compute; reflexivity)) as [x [Hx Heq]].
  injection Hx as <-. vm_compute in Heq. discriminate.
Qed.

(** ** Timestamps of the two breadth mappers *)

(** C10: [mapBreadthData] does not filter out a record without a date: the
    [toISOString] call on the invalid date throws [RangeError] before the
    [timestamp > 0] filter runs, so the whole batch fails.  The complex-shape
    mapper keeps such a record, with timestamp 0. *)
Theorem breadth_mappers_missing_date `{Host} :
  mapBreadthData [VObj [("total", VNum (NFin 100)); ("avg_ma20", VNum (NFin 40))]]
    = Throw RangeError /\
  mapComplexBreadthData
    (VObj [("ma20", VArr [VObj [("total", VNum (NFin 100)); ("value", VNum (NFin 10))]])])
    = Ok [complex_point (mk_centry VUndef (NFin 100) (Some (NFin 10)) None None)] /\
  field "timestamp" (complex_point (mk_centry VUndef (NFin 100) (Some (NFin 10)) None None))
    = Some (VNum n0).
Proof.
  split; [|split]; reflexivity.
Qed.

(** ** The merge of the index series into [dataMap] *)

Lemma dm_get_put_same key r dm : dm_get key (dm_put key r dm) = Some r.
Proof.
  induction dm as [|[k x] rest IH]; simpl.
  - rewrite String.eqb_refl. reflexivity.
  - destruct (String.eqb k key) eqn:E; simpl; rewrite E; [reflexivity | exact IH].
Qed.

Lemma dm_get_put_other key key' r dm :
  key' <> key -> dm_get key' (dm_put key r dm) = dm_get key' dm.
Proof.
  intro Hne. induction dm as [|[k x] rest IH]; simpl.
  - destruct (String.eqb key key') eqn:E; [|reflexivity].
    apply String.eqb_eq in E. congruence.
  - destruct (String.eqb k key) eqn:E; simpl.
    + apply String.eqb_eq in E. subst k.
      destruct (String.eqb key key') eqn:E'; [apply String.eqb_eq in E'; congruence|].
      reflexivity.
    + rewrite IH. reflexivity.
Qed.

Lemma assoc_obj_set_same f v r : assoc f (obj_set f v r) = Some v.
Proof.
  induction r as [|[k x] rest IH]; simpl.
  - rewrite String.eqb_refl. reflexivity.
  - destruct (String.eqb k f) eqn:E; simpl.
    + apply String.eqb_eq in E. subst k. rewrite String.eqb_refl. reflexivity.
    + rewrite String.eqb_sym, E. exact IH.
Qed.

Lemma assoc_obj_set_other f f' v r :
  f' <> f -> assoc f' (obj_set f v r) = assoc f' r.
Proof.
  intro Hne. induction r as [|[k x] rest IH]; simpl.
  - destruct (String.eqb f' f) eqn:E; [apply String.eqb_eq in E; congruence | reflexivity].
  - destruct (String.eqb k f) eqn:E; simpl.
    + apply String.eqb_eq in E. subst k.
      destruct (String.eqb f' f) eqn:E'; [apply String.eqb_eq in E'; congruence | reflexivity].
    + rewrite IH. reflexivity.
Qed.

(** One point of an index series: only the record of the point's day
    changes; its [field] gets the close unless the close is nullish, and its
    other properties are those of the record found or created. *)
Lemma merge_index_point_step `{Host} field dm dm' v ts key close :
  merge_index_point field dm v = Ok dm' ->
  prop v "timestamp" = Ok ts -> getDateKey ts = Ok key -> prop v "close" = Ok close ->
  (forall k', k' <> key -> dm_get k' dm' = dm_get k' dm) /\
  exists r0 r,
    (dm_get key dm = Some r0 \/ (dm_get key dm = None /\ r0 = fresh_record ts key)) /\
    dm_get key dm' = Some r /\
    (nullish close = true -> r = r0) /\
    (nullish close = false -> assoc field r = Some close) /\
    (forall f, f <> field -> assoc f r = assoc f r0).
Proof.
  intros Hm Hts Hk Hc. unfold merge_index_point in Hm.
  rewrite Hts in Hm. cbn [bind] in Hm. rewrite Hk in Hm. cbn [bind] in Hm.
  unfold getOrCreate in Hm.
  destruct (dm_get key dm) as [r0|] eqn:Eg;
    rewrite Hc in Hm; cbn [bind] in Hm;
    destruct (nullish close) eqn:N; injection Hm as <-.
  - split; [reflexivity|]. exists r0, r0. repeat split; auto; discriminate.
  - split; [intros; apply dm_get_put_other; auto|].
    exists r0, (obj_set field close r0). repeat split; auto.
    + apply dm_get_put_same.
    + discriminate.
    + intros _. apply assoc_obj_set_same.
    + intros f Hf. apply assoc_obj_set_other; auto.
  - split; [intros; apply dm_get_put_other; auto|].
    exists (fresh_record ts key), (fresh_record ts key). repeat split; auto.
    + apply dm_get_put_same.
    + discriminate.
  - split.
    + intros k' Hk'. rewrite dm_get_put_other by auto. apply dm_get_put_other; auto.
    + exists (fresh_record ts key), (obj_set field close (fresh_record ts key)).
      repeat split; auto.
      * apply dm_get_put_same.
      * discriminate.
      * intros _. apply assoc_obj_set_same.
      * intros f Hf. apply assoc_obj_set_other; auto.
Qed.

Lemma merge_index_point_keys `{Host} field dm dm' v :
  merge_index_point field dm v = Ok dm' ->
  exists ts key close, prop v "timestamp" = Ok ts /\ getDateKey ts = Ok key /\
                       prop v "close" = Ok close.
Proof.
  intro Hm. unfold merge_index_point in Hm.
  destruct (prop v "timestamp") as [ts|] eqn:E1; [|discriminate]. cbn [bind] in Hm.
  destruct (getDateKey ts) as [key|] eqn:E2; [|discriminate]. cbn [bind] in Hm.
  destruct (getOrCreate ts key dm) as [item dm1].
  destruct (prop v "close") as [c|] eqn:E3; [|discriminate]. exists ts, key, c; auto.
Qed.

(** C5: an index series writes its [field] of a day's record exactly when
    that point's close is neither [undefined] nor [null] (so a close of 0 is
    written), leaves the other properties of the record as they were, and
    leaves the record of every day it has no point for, and every other
    property of every record, unchanged. *)
Theorem index_series_merge_frame `{Host} (field : string) :
  (forall dm dm' v ts key close,
     merge_index_point field dm v = Ok dm' ->
     prop v "timestamp" = Ok ts -> getDateKey ts = Ok key -> prop v "close" = Ok close ->
     exists r0 r,
       (dm_get key dm = Some r0 \/ (dm_get key dm = None /\ r0 = fresh_record ts key)) /\
       dm_get key dm' = Some r /\
       (nullish close = true -> assoc field r = assoc field r0) /\
       (nullish close = false -> assoc field r = Some close) /\
       (forall f, f <> field -> assoc f r = assoc f r0)) /\
  (forall src dm dm', merge_index_series field src dm = Ok dm' ->
     (forall key, (forall v ts, In v src -> prop v "timestamp" = Ok ts -> getDateKey ts <> Ok key) ->
        dm_get key dm' = dm_get key dm) /\
     (forall key r f, f <> field -> dm_get key dm = Some r ->
        exists r', dm_get key dm' = Some r' /\ assoc f r' = assoc f r)).
Proof.
  split.
  - intros dm dm' v ts key close Hm Hts Hk Hc.
    destruct (merge_index_point_step _ _ _ _ _ _ _ Hm Hts Hk Hc)
      as [_ (r0 & r & Hr0 & Hr & Hn & Hw & Ho)].
    exists r0, r. repeat split; auto. intro N. rewrite (Hn N). reflexivity.
  - unfold merge_index_series. intros src. induction src as [|v rest IH]; intros dm dm' Hm.
    + cbn [fold_resultM] in Hm. injection Hm as <-. split; [reflexivity|]. eauto.
    + cbn [fold_resultM] in Hm. inv_binds. rename a into dm1.
      destruct (merge_index_point_keys _ _ _ _ Ha) as (ts & key0 & close & Hts & Hk & Hc).
      destruct (merge_index_point_step _ _ _ _ _ _ _ Ha Hts Hk Hc)
        as [Hother (r0 & r1 & Hr0 & Hr1 & _ & _ & Ho)].
      destruct (IH _ _ Hm) as [IHf IHp]. split.
      * intros key Hnot. rewrite IHf.
        -- apply Hother. intro E. subst key0. exact (Hnot v ts (or_introl eq_refl) Hts Hk).
        -- intros v' ts' Hin. apply Hnot. right. exact Hin.
      * intros key r f Hf Hr.
        destruct (String.eqb key key0) eqn:E.
        -- apply String.eqb_eq in E. subst key0.
           destruct Hr0 as [Hr0 | [Hr0 _]]; rewrite Hr in Hr0; [|discriminate].
           injection Hr0 as <-.
           destruct (IHp key r1 f Hf Hr1) as [r' [Hr' Hf']].
           exists r'. split; [exact Hr'|]. rewrite Hf'. apply Ho. exact Hf.
        -- apply String.eqb_neq in E. rewrite <- (Hother key E) in Hr.
           exact (IHp key r f Hf Hr).
Qed.

Lemma index_series_merge_frame_witness :
  exists dm' r,
    @merge_index_point ExampleHost.host "capVal" sample_day_map sample_index_point = Ok dm' /\
    dm_get "2024-01-01" dm' = Some r /\
    assoc "capVal" r = Some (VNum n0) /\ assoc "vnIndex" r = Some (VNum (NFin 1500)).
Proof.
  set (dm' := match @merge_index_point ExampleHost.host "capVal" sample_day_map
                                        sample_index_point with
              | Ok d => d | Throw _ => [] end).
  exists dm'.
  assert (Hm : @merge_index_point ExampleHost.host "capVal" sample_day_map sample_index_point
               = Ok dm') by (vm_compute; reflexivity).
  destruct (proj1 (@index_series_merge_frame ExampleHost.host "capVal")
              _ _ _ (VNum (NFin (1704067200000 # 1))) "2024-01-01" (VNum n0) Hm
              ltac:(vm_compute; reflexivity) ltac:(vm_compute; reflexivity)
              ltac:(vm_compute; reflexivity))
    as (r0 & r & Hr0 & Hr & _ & Hw & Ho).
  exists r. split; [exact Hm|]. split; [exact Hr|]. split; [apply Hw; reflexivity|].
  rewrite Ho by discriminate.
  destruct Hr0 as [Hr0 | [Hr0 _]].
  - simpl in Hr0. injection Hr0 as <-. reflexivity.
  - assert (E : dm_get "2024-01-01" sample_day_map <> None)
      by (unfold sample_day_map; simpl; discriminate).
    contradiction.
Defined.

(** ** The cache *)

Lemma loadFromCache_ttl `{Host} st now key ttl d age :
  loadFromCache st now key None = Some (d, age) ->
  loadFromCache st now key (Some ttl) = if num_gt age ttl then None else Some (d, age).
Proof.
  unfold loadFromCache.
  destruct (st key) as [[|payload]|]; try discriminate.
  destruct (negb (truthy payload)); [discriminate|].
  destruct (prop payload "data") as [dd|], (prop payload "timestamp") as [ts|]; try discriminate.
  destruct (negb (truthy dd)); [discriminate|].
  intro E. injection E as <- <-. reflexivity.
Qed.

Lemma loadFromCache_some_ttl `{Host} st now key ttl x :
  loadFromCache st now key (Some ttl) = Some x -> loadFromCache st now key None = Some x.
Proof.
  unfold loadFromCache.
  destruct (st key) as [[|payload]|]; try discriminate.
  destruct (negb (truthy payload)); [discriminate|].
  destruct (prop payload "data") as [dd|], (prop payload "timestamp") as [ts|]; try discriminate.
  destruct (negb (truthy dd)); [discriminate|].
  destruct (num_gt _ ttl); [discriminate | exact id].
Qed.

Lemma loadFromCache_saved `{Host} st w now key d d' :
  json_rt d = Some d' -> truthy d' = true ->
  loadFromCache (saveToCache true st w key d) now key None
    = Some (d', NFin (inject_Z now - inject_Z w)).
Proof.
  intros Hrt Htr.
  unfold loadFromCache, saveToCache. cbn [json_rt]. rewrite Hrt.
  unfold store_put. rewrite String.eqb_refl. cbn [truthy negb prop assoc].
  cbn [String.eqb Ascii.eqb Bool.eqb]. rewrite Htr. reflexivity.
Qed.

Lemma num_gt_refl (q : Q) : num_gt (NFin q) (NFin q) = false.
Proof.
  unfold num_gt, num_lt, Qltb. rewrite (proj2 (Qle_bool_iff q q) (Qle_refl q)). reflexivity.
Qed.

(** C7: for a stored entry (one that [loadFromCache(key, null)] returns, with
    its age), [loadFromCache(key, ttl)] returns nothing exactly when
    [age > ttl] and otherwise the same entry and age, so an entry whose age
    equals [ttl] is fresh; with [ttl = null] the entry comes back whatever its
    age; an entry is returned under a TTL only if it is returned without one.
    An entry written by [saveToCache] at time [w] is read back at [now]
    (without a TTL) as its JSON round trip with age [now - w]. *)
Theorem loadFromCache_ttl_boundary `{Host} :
  (forall st now key d age, loadFromCache st now key None = Some (d, age) ->
     (forall ttl, loadFromCache st now key (Some ttl) = None <-> num_gt age ttl = true) /\
     (forall ttl, num_gt age ttl = false -> loadFromCache st now key (Some ttl) = Some (d, age)) /\
     (forall q, age = NFin q -> loadFromCache st now key (Some (NFin q)) = Some (d, age))) /\
  (forall st now key ttl x, loadFromCache st now key (Some ttl) = Some x ->
     loadFromCache st now key None = Some x) /\
  (forall st w now key d d', json_rt d = Some d' -> truthy d' = true ->
     loadFromCache (saveToCache true st w key d) now key None
       = Some (d', NFin (inject_Z now - inject_Z w))).
Proof.
  split; [|split].
  - intros st now key d age Hl.
    pose proof (fun ttl => loadFromCache_ttl st now key ttl d age Hl) as Ht.
    split; [|split].
    + intro ttl. rewrite Ht. destruct (num_gt age ttl); split; congruence.
    + intros ttl Hg. rewrite Ht, Hg. reflexivity.
    + intros q ->. rewrite Ht, num_gt_refl. reflexivity.
  - intros st now key ttl x. apply loadFromCache_some_ttl.
  - intros st w now key d d' Hrt Htr. exact (loadFromCache_saved st w now key d d' Hrt Htr).
Qed.

Lemma loadFromCache_ttl_boundary_witness :
  @loadFromCache ExampleHost.host
    (saveToCache true empty_storage 0%Z "k" (VArr [VNum (NFin 1)]))
    14400000%Z "k" (Some VNINDEX_TTL)
  = Some (VArr [VNum (NFin 1)], NFin (inject_Z 14400000 - inject_Z 0)).
Proof.
  pose proof (proj2 (proj2 (@loadFromCache_ttl_boundary ExampleHost.host))
                empty_storage 0%Z 14400000%Z "k" (VArr [VNum (NFin 1)]) (VArr [VNum (NFin 1)])
                eq_refl eq_refl) as Hs.
  exact (proj2 (proj2 (proj1 (@loadFromCache_ttl_boundary ExampleHost.host) _ _ _ _ _ Hs))
           (14400000 # 1) eq_refl).
Defined.

(** ** fetchVNIndexData *)

(** C8: [fetchVNIndexData] never throws: a fresh cache entry is returned as
    it is, a successful request gives the parsed list, and when the request
    fails in any way the result is the stale entry of the cache read without a
    TTL, or the empty list when there is none; the cache is then untouched. *)
Theorem fetchVNIndexData_never_throws `{Host} :
  forall url st t0 fetched writable t1,
  let cacheKey := getCacheKey "VNINDEX" (VObj [("url", VStr (vnindex_target url))]) in
  (exists v st', fetchVNIndexData url st t0 fetched writable t1 = Ok (v, st')) /\
  (forall d age, loadFromCache st t0 cacheKey (Some VNINDEX_TTL) = Some (d, age) ->
     fetchVNIndexData url st t0 fetched writable t1 = Ok (d, st)) /\
  (loadFromCache st t0 cacheKey (Some VNINDEX_TTL) = None ->
     forall d parsed, fetched = Some d -> truthy d = true -> parseVNIndexData d = Ok parsed ->
     exists st', fetchVNIndexData url st t0 fetched writable t1 = Ok (VArr parsed, st')) /\
  (loadFromCache st t0 cacheKey (Some VNINDEX_TTL) = None -> vn_fetch_fails fetched ->
     fetchVNIndexData url st t0 fetched writable t1
       = Ok (match loadFromCache st t1 cacheKey None with
             | Some (d, _) => d
             | None => VArr []
             end, st)).
Proof.
  intros url st t0 fetched writable t1 cacheKey. unfold fetchVNIndexData. fold cacheKey.
  split; [|split; [|split]].
  - destruct (loadFromCache st t0 cacheKey (Some VNINDEX_TTL)) as [[d age]|]; [eauto|].
    match goal with |- exists v st', Ok (try_catch ?m ?h) = _ =>
      destruct (try_catch m h) as [v st']; eauto end.
  - intros d age ->. reflexivity.
  - intros -> d parsed -> Ht Hp. cbn [bind]. rewrite Ht. cbn [negb]. rewrite Hp.
    cbn [bind try_catch]. eauto.
  - intros -> Hf. destruct fetched as [d|]; cbn [bind].
    + destruct Hf as [Ht | [e Hp]].
      * rewrite Ht. cbn [negb try_catch].
        destruct (loadFromCache st t1 cacheKey None) as [[? ?]|]; reflexivity.
      * destruct (truthy d); cbn [negb]; [rewrite Hp|]; cbn [bind try_catch];
          destruct (loadFromCache st t1 cacheKey None) as [[? ?]|]; reflexivity.
    + cbn [try_catch]. destruct (loadFromCache st t1 cacheKey None) as [[? ?]|]; reflexivity.
Qed.

Lemma fetchVNIndexData_never_throws_witness :
  @fetchVNIndexData ExampleHost.host None
    (saveToCache true empty_storage 0%Z
       (@getCacheKey ExampleHost.host "VNINDEX" (VObj [("url", VStr DEFAULT_VNINDEX_URL)]))
       (VArr [vn_point (VNum (NFin (1704067200000 # 1))) (NFin 1200)]))
    20000000%Z None true 20000000%Z
  = Ok (VArr [vn_point (VNum (NFin (1704067200000 # 1))) (NFin 1200)],
        saveToCache true empty_storage 0%Z
          (@getCacheKey ExampleHost.host "VNINDEX" (VObj [("url", VStr DEFAULT_VNINDEX_URL)]))
          (VArr [vn_point (VNum (NFin (1704067200000 # 1))) (NFin 1200)])).
Proof.
  refine (eq_trans (proj2 (proj2 (proj2 (@fetchVNIndexData_never_throws ExampleHost.host
             None _ 20000000%Z None true 20000000%Z))) _ I) _).
  - vm_compute. reflexivity.
  - vm_compute. reflexivity.
Defined.

(** ** getCacheKey *)

Lemma string_leb_trans x y z :
  String.leb x y = true -> String.leb y z = true -> String.leb x z = true.
Proof.
  unfold String.leb. revert y z.
  induction x as [|a x IH]; intros [|b y] [|c z]; cbn [String.compare];
    try discriminate; try reflexivity.
  unfold Ascii.compare. intros H1 H2.
  destruct (N.compare_spec (N_of_ascii a) (N_of_ascii b)) as [E1|E1|E1]; try discriminate;
  destruct (N.compare_spec (N_of_ascii b) (N_of_ascii c)) as [E2|E2|E2]; try discriminate;
  destruct (N.compare_spec (N_of_ascii a) (N_of_ascii c)) as [E3|E3|E3];
  try reflexivity; try lia.
  apply (IH _ _ H1 H2).
Qed.

Lemma insert_string_perm x l : Permutation (x :: l) (insert_string x l).
Proof.
  induction l as [|y r IH]; simpl; [reflexivity|].
  destruct (String.leb x y); [reflexivity|].
  eapply perm_trans; [apply perm_swap|]. constructor. exact IH.
Qed.

Lemma sort_strings_perm l : Permutation l (sort_strings l).
Proof.
  induction l as [|x r IH]; simpl; [reflexivity|].
  eapply perm_trans; [apply perm_skip, IH | apply insert_string_perm].
Qed.

Lemma insert_string_sorted x l : Sorted sleb l -> Sorted sleb (insert_string x l).
Proof.
  intro Hs. induction Hs as [|y r Hs IH Hhd]; simpl.
  - repeat constructor.
  - unfold sleb. destruct (String.leb x y) eqn:E.
    + constructor; [constructor; auto | constructor; exact E].
    + assert (Hyx : String.leb y x = true)
        by (destruct (String.leb_total x y); congruence).
      constructor; [exact IH|].
      destruct r as [|z r']; simpl.
      * constructor. exact Hyx.
      * inversion Hhd as [|? ? Hyz]; subst.
        destruct (String.leb x z); constructor; assumption.
Qed.

Lemma sort_strings_sorted l : Sorted sleb (sort_strings l).
Proof.
  induction l as [|x r IH]; simpl; [constructor|]. apply insert_string_sorted. exact IH.
Qed.

Lemma sorted_perm_eq (l1 l2 : list string) :
  Sorted sleb l1 -> Sorted sleb l2 -> Permutation l1 l2 -> l1 = l2.
Proof.
  intros H1 H2 Hp.
  assert (Tr : Transitive sleb) by (intros x y z; apply string_leb_trans).
  apply Sorted_StronglySorted in H1; [|exact Tr].
  apply Sorted_StronglySorted in H2; [|exact Tr].
  revert l2 H2 Hp. induction H1 as [|a r1 H1 IH Ha]; intros l2 H2 Hp.
  - symmetry. apply Permutation_nil. exact Hp.
  - destruct l2 as [|b r2]; [apply Permutation_sym, Permutation_nil in Hp; discriminate|].
    inversion H2 as [|? ? H2' Hb]; subst.
    assert (Eab : a = b).
    { assert (Ina : In a (b :: r2)) by (apply (Permutation_in a Hp); left; reflexivity).
      assert (Inb : In b (a :: r1))
        by (apply (Permutation_in b (Permutation_sym Hp)); left; reflexivity).
      destruct Ina as [Ina|Ina]; [congruence|].
      destruct Inb as [Inb|Inb]; [congruence|].
      apply String.leb_antisym.
      - exact (proj1 (Forall_forall _ _) Ha b Inb).
      - exact (proj1 (Forall_forall _ _) Hb a Ina). }
    subst b. f_equal. apply IH; [exact H2'|]. exact (Permutation_cons_inv Hp).
Qed.

Lemma sort_strings_perm_eq l1 l2 : Permutation l1 l2 -> sort_strings l1 = sort_strings l2.
Proof.
  intro Hp. apply sorted_perm_eq; try apply sort_strings_sorted.
  eapply perm_trans; [apply Permutation_sym, sort_strings_perm|].
  eapply perm_trans; [exact Hp | apply sort_strings_perm].
Qed.

Lemma json_ser_obj `{Host} plist fs :
  json_ser plist (VObj fs) =
  Some ("{" ++ String.concat ","
          (flat_map (fun k =>
             match find (fun kv => String.eqb (fst kv) k)
                        (map (fun kv => (fst kv, json_ser plist (snd kv))) fs) with
             | Some (_, Some s) => [json_quote k ++ ":" ++ s]
             | _ => []
             end) plist)
        ++ "}").
Proof.
  cbn [json_ser].
  assert (E : forall r,
    (fix ser_fields (r : list (string * value)) : list (string * option string) :=
       match r with
       | [] => []
       | (k, x) :: r' => (k, json_ser plist x) :: ser_fields r'
       end) r = map (fun kv => (fst kv, json_ser plist (snd kv))) r).
  { induction r as [|[k x] r IH]; simpl; [reflexivity | rewrite IH; reflexivity]. }
  rewrite E. reflexivity.
Qed.

Lemma find_key_perm {A} (l1 l2 : list (string * A)) k :
  NoDup (map fst l1) -> Permutation l1 l2 ->
  find (fun kv => String.eqb (fst kv) k) l1 = find (fun kv => String.eqb (fst kv) k) l2.
Proof.
  intros Hnd Hp. induction Hp as [|x l l' Hp IH|x y l|l l' l'' Hp1 IH1 Hp2 IH2].
  - reflexivity.
  - simpl in *. inversion Hnd; subst. destruct (String.eqb (fst x) k); [reflexivity|].
    apply IH. assumption.
  - simpl in *. inversion Hnd as [|? ? Hni Hnd']; subst.
    destruct (String.eqb (fst y) k) eqn:Ey, (String.eqb (fst x) k) eqn:Ex; try reflexivity.
    apply String.eqb_eq in Ey, Ex. exfalso. apply Hni. left. congruence.
  - rewrite IH1 by exact Hnd. apply IH2.
    eapply Permutation_NoDup; [apply Permutation_map; exact Hp1 | exact Hnd].
Qed.

(** C6 (as amended): [getCacheKey] does not depend on the order in which the
    keys of a parameter object (which has no repeated key) were inserted. *)
Theorem getCacheKey_key_order `{Host} prefix fs1 fs2 :
  NoDup (map fst fs1) -> Permutation fs1 fs2 ->
  getCacheKey prefix (VObj fs1) = getCacheKey prefix (VObj fs2).
Proof.
  intros Hnd Hp. unfold getCacheKey, object_keys.
  rewrite (sort_strings_perm_eq (map fst fs1) (map fst fs2) (Permutation_map fst Hp)).
  rewrite !json_ser_obj. erewrite flat_map_ext; [reflexivity|]. intro k. cbv beta.
  rewrite (find_key_perm (map (fun kv => (fst kv, json_ser (sort_strings (map fst fs2)) (snd kv))) fs1)
             (map (fun kv => (fst kv, json_ser (sort_strings (map fst fs2)) (snd kv))) fs2)).
  - reflexivity.
  - rewrite map_map. exact Hnd.
  - apply Permutation_map. exact Hp.
Qed.

Lemma getCacheKey_key_order_witness :
  @getCacheKey ExampleHost.host "BREADTH" (VObj [("b", VNum (NFin 2)); ("a", VStr "x")])
  = @getCacheKey ExampleHost.host "BREADTH" (VObj [("a", VStr "x"); ("b", VNum (NFin 2))]).
Proof.
  apply (@getCacheKey_key_order ExampleHost.host).
  - repeat constructor; simpl; intuition discriminate.
  - apply perm_swap.
Defined.

(** C6 as stated fails: two filter identities with the same keys whose
    [min_ad] values differ ([NaN] and [Infinity]) give the same cache key,
    since JSON writes both as [null]. *)
Lemma getCacheKey_nan_infinity_collide :
  filterIdentity sample_params_nan <> filterIdentity sample_params_inf /\
  object_keys (filterIdentity sample_params_nan) = object_keys (filterIdentity sample_params_inf) /\
  @getCacheKey ExampleHost.host "BREADTH" (filterIdentity sample_params_nan)
    = @getCacheKey ExampleHost.host "BREADTH" (filterIdentity sample_params_inf).
Proof.
  split; [|split].
  - unfold filterIdentity. cbn. intro E. injection E as E. discriminate.
  - reflexivity.
  - vm_compute. reflexivity.
Qed.

(** ** The merge of fetchBreadthData *)

Lemma svz_sym a b : svz a b = svz b a.
Proof.
  destruct a as [| |x|[x| | |]|x|x|x], b as [| |y|[y| | |]|y|y|y]; simpl; try reflexivity.
  - destruct x, y; reflexivity.
  - apply Qeq_bool_comm.
  - apply String.eqb_sym.
Qed.

Lemma svz_trans a b c : svz a b = true -> svz b c = true -> svz a c = true.
Proof.
  destruct a as [| |x|[x| | |]|x|x|x], b as [| |y|[y| | |]|y|y|y],
           c as [| |z|[z| | |]|z|z|z]; simpl; try discriminate; auto.
  - destruct x, y, z; simpl; congruence.
  - apply Qeq_bool_trans.
  - intros E1 E2. apply String.eqb_eq in E1, E2. subst. apply String.eqb_refl.
Qed.

Lemma svz_move a b k : svz a b = true -> svz a k = svz b k.
Proof.
  intro Hab. destruct (svz b k) eqn:Ebk.
  - exact (svz_trans _ _ _ Hab Ebk).
  - destruct (svz a k) eqn:Eak; [|reflexivity].
    rewrite svz_sym in Hab. rewrite (svz_trans _ _ _ Hab Eak) in Ebk. discriminate.
Qed.

Lemma entries_at_set_same {A} k0 (x : A) m k :
  svz k0 k = true -> (List.length (entries_at k m) <= 1)%nat ->
  exists k', entries_at k (map_set k0 x m) = [(k', x)].
Proof.
  intro Hk. unfold entries_at. induction m as [|[k' y] r IH]; simpl; intro Hl.
  - rewrite Hk. eauto.
  - destruct (svz k' k0) eqn:E; simpl.
    + rewrite (svz_move _ _ k E), Hk in Hl |- *. simpl in Hl.
      exists k'. destruct (filter _ r); [reflexivity | simpl in Hl; lia].
    + destruct (svz k' k) eqn:E'.
      * rewrite (svz_move _ _ k0 E') in E. rewrite svz_sym, Hk in E. discriminate.
      * apply IH. exact Hl.
Qed.

Lemma entries_at_set_other {A} k0 (x : A) m k :
  svz k0 k = false -> entries_at k (map_set k0 x m) = entries_at k m.
Proof.
  intro Hk. unfold entries_at. induction m as [|[k' y] r IH]; simpl.
  - rewrite Hk. reflexivity.
  - destruct (svz k' k0) eqn:E; simpl.
    + rewrite (svz_move _ _ k E), Hk. reflexivity.
    + rewrite IH. reflexivity.
Qed.

Lemma set_by_timestamp_Ok `{Host} m p m' :
  set_by_timestamp m p = Ok m' -> exists t, prop p "timestamp" = Ok t /\ m' = map_set t p m.
Proof.
  unfold set_by_timestamp. intro Hs. inv_binds. eauto.
Qed.

Lemma fold_set_entries `{Host} k l m m' :
  fold_resultM set_by_timestamp m l = Ok m' -> (List.length (entries_at k m) <= 1)%nat ->
  (List.length (entries_at k m') <= 1)%nat /\
  (filter (key_is k) l = [] -> entries_at k m' = entries_at k m) /\
  (filter (key_is k) l <> [] ->
     exists k', entries_at k m' = [(k', last (filter (key_is k) l) VUndef)]).
Proof.
  revert m. induction l as [|p r IH]; intros m Hf Hl; cbn [fold_resultM] in Hf.
  - injection Hf as <-. repeat split; auto. intro C. exfalso. apply C. reflexivity.
  - inv_binds. rename a into m1.
    destruct (set_by_timestamp_Ok _ _ _ Ha) as [t [Ht ->]].
    assert (Kp : key_is k p = svz t k) by (unfold key_is; rewrite Ht; reflexivity).
    cbn [filter]. rewrite Kp.
    destruct (svz t k) eqn:Etk.
    + destruct (entries_at_set_same t p m k Etk Hl) as [k1 E1].
      assert (Hl1 : (List.length (entries_at k (map_set t p m)) <= 1)%nat) by (rewrite E1; simpl; lia).
      destruct (IH _ Hf Hl1) as [Hl' [Hnone Hsome]].
      split; [exact Hl'|]. split; [discriminate|]. intros _.
      destruct (filter (key_is k) r) as [|q r'] eqn:Er.
      * exists k1. rewrite Hnone by reflexivity. exact E1.
      * destruct (Hsome ltac:(discriminate)) as [k2 E2]. exists k2. rewrite E2. reflexivity.
    + rewrite <- (entries_at_set_other t p m k Etk) in Hl |- *.
      exact (IH _ Hf Hl).
Qed.

Lemma map_set_entry_ok `{Host} m p t :
  prop p "timestamp" = Ok t -> Forall entry_ok m -> Forall entry_ok (map_set t p m).
Proof.
  intros Ht Hm. induction Hm as [|[k' y] r Hy Hr IH]; simpl.
  - constructor; [|constructor]. exists t. split; [exact Ht | right; reflexivity].
  - destruct (svz k' t) eqn:E.
    + constructor; [|exact Hr]. exists t. split; [exact Ht | left; exact E].
    + constructor; assumption.
Qed.

Lemma fold_set_entry_ok `{Host} l m m' :
  fold_resultM set_by_timestamp m l = Ok m' -> Forall entry_ok m -> Forall entry_ok m'.
Proof.
  revert m. induction l as [|p r IH]; intros m Hf Hm; cbn [fold_resultM] in Hf.
  - injection Hf as <-. exact Hm.
  - inv_binds. destruct (set_by_timestamp_Ok _ _ _ Ha) as [t [Ht ->]].
    exact (IH _ Hf (map_set_entry_ok _ _ _ Ht Hm)).
Qed.

Lemma filter_values `{Host} k m :
  Forall entry_ok m -> filter (key_is k) (map snd m) = map snd (entries_at k m).
Proof.
  unfold entries_at. intro Hm. induction Hm as [|[k' q] r Hq Hr IH]; simpl; [reflexivity|].
  destruct Hq as [t [Ht Hk]]. simpl in Ht, Hk.
  assert (Kq : key_is k q = svz t k) by (unfold key_is; rewrite Ht; reflexivity).
  rewrite Kq.
  assert (E : svz t k = svz k' k).
  { destruct Hk as [Hk | <-]; [symmetry; apply svz_move; exact Hk | reflexivity]. }
  rewrite E. destruct (svz k' k); simpl; rewrite IH; reflexivity.
Qed.

Lemma filter_perm {A} (f : A -> bool) l l' :
  Permutation l l' -> Permutation (filter f l) (filter f l').
Proof.
  intro Hp. induction Hp; simpl.
  - constructor.
  - destruct (f x); [constructor|]; assumption.
  - destruct (f x), (f y); try constructor; try reflexivity.
  - eapply perm_trans; eassumption.
Qed.

Lemma insert_point_perm `{Host} x l : Permutation (x :: l) (insert_point x l).
Proof.
  induction l as [|y r IH]; simpl; [reflexivity|].
  destruct (Qle_bool (ts_cmp x y) 0); [reflexivity|].
  eapply perm_trans; [apply perm_swap|]. constructor. exact IH.
Qed.

Lemma sort_by_timestamp_perm `{Host} l : Permutation l (sort_by_timestamp l).
Proof.
  unfold sort_by_timestamp.
  induction l as [|x r IH]; simpl; [reflexivity|].
  eapply perm_trans; [apply perm_skip, IH | apply insert_point_perm].
Qed.

Lemma ts_cmp_fin `{Host} a b x y :
  ts_num a = NFin x -> ts_num b = NFin y -> ts_cmp a b = (x + - y)%Q.
Proof. intros Ha Hb. unfold ts_cmp, num_sub. rewrite Ha, Hb. reflexivity. Qed.

Lemma insert_point_sorted `{Host} x l :
  finite_num (ts_num x) -> Forall (fun q => finite_num (ts_num q)) l ->
  Sorted ts_le l -> Sorted ts_le (insert_point x l).
Proof.
  intros [a Ha] Hf Hs. induction Hs as [|y r Hs IH Hhd]; simpl.
  - repeat constructor.
  - inversion Hf as [|? ? [b Hb] Hf']; subst.
    rewrite (ts_cmp_fin _ _ _ _ Ha Hb).
    destruct (Qle_bool (a + - b) 0) eqn:E.
    + constructor; [constructor; assumption|]. constructor.
      exists a, b. repeat split; auto. apply Qle_bool_iff in E.
      apply (Qplus_le_l _ _ (- b)). rewrite Qplus_opp_r. exact E.
    + assert (Hba : (b <= a)%Q).
      { apply Qnot_lt_le. intro Hlt. apply Qlt_le_weak in Hlt.
        assert (Hle : (a + - b <= 0)%Q)
          by (apply (Qplus_le_l _ _ b); ring_simplify; exact Hlt).
        apply Qle_bool_iff in Hle. congruence. }
      constructor; [exact (IH Hf')|].
      destruct r as [|z r']; simpl.
      * constructor. exists b, a. auto.
      * inversion Hhd as [|? ? Hyz]; subst.
        destruct (Qle_bool (ts_cmp x z) 0); constructor; [exists b, a; auto | exact Hyz].
Qed.

Lemma sort_by_timestamp_sorted `{Host} l :
  Forall (fun q => finite_num (ts_num q)) l -> Sorted ts_le (sort_by_timestamp l).
Proof.
  unfold sort_by_timestamp. induction l as [|x r IH]; intro Hf; simpl; [constructor|].
  inversion Hf as [|? ? Hx Hr]; subst. apply insert_point_sorted; auto.
  apply (Permutation_Forall (sort_by_timestamp_perm r)). exact Hr.
Qed.

(** C4: in the merge block of [fetchBreadthData] (the cached points when the
    history is not refetched, then the history points, then the latest points,
    each written into [mergedMap] by timestamp), for every timestamp [k] that
    some latest point has, the result holds exactly one point with timestamp
    [k]: the last latest point with that timestamp; and when every returned
    point has a finite numeric timestamp, the result is in ascending order of
    timestamp. *)
Theorem breadth_merge_latest_wins `{Host} writable st t1 cacheKey cachedData isCacheValid
    shouldFetchHistory latestRaw historyRaw res st' lp :
  breadth_merge writable st t1 cacheKey cachedData isCacheValid shouldFetchHistory
    latestRaw historyRaw = Ok (res, st') ->
  processRaw latestRaw = Ok lp ->
  (forall k, filter (key_is k) lp <> [] ->
     filter (key_is k) res = [last (filter (key_is k) lp) VUndef]) /\
  ((forall q, In q res -> finite_num (ts_num q)) -> Sorted ts_le res).
Proof.
  intros Hm Hlp. unfold breadth_merge in Hm. rewrite Hlp in Hm. cbn [bind] in Hm.
  destruct (processRaw historyRaw) as [hp|]; [|discriminate]. cbn [bind] in Hm.
  assert (Start : forall l m, fold_resultM set_by_timestamp [] l = Ok m ->
            Forall entry_ok m /\ forall k, (List.length (entries_at k m) <= 1)%nat).
  { intros l m E. split; [exact (fold_set_entry_ok _ _ _ E (Forall_nil _))|].
    intro k. exact (proj1 (fold_set_entries k _ _ _ E ltac:(simpl; lia))). }
  destruct (if negb shouldFetchHistory && isCacheValid
            then fold_resultM set_by_timestamp [] cachedData else Ok []) as [m1|] eqn:E1;
    [|discriminate].
  cbn [bind] in Hm.
  assert (I1 : Forall entry_ok m1 /\ forall k, (List.length (entries_at k m1) <= 1)%nat).
  { destruct (negb shouldFetchHistory && isCacheValid); [exact (Start _ _ E1)|].
    injection E1 as <-. split; [constructor | intro; simpl; lia]. }
  destruct I1 as [O1 L1].
  destruct (if shouldFetchHistory
            then fold_resultM set_by_timestamp m1 hp else Ok m1) as [m2|] eqn:E2;
    [|discriminate].
  cbn [bind] in Hm.
  assert (I2 : Forall entry_ok m2 /\ forall k, (List.length (entries_at k m2) <= 1)%nat).
  { destruct shouldFetchHistory.
    - split; [exact (fold_set_entry_ok _ _ _ E2 O1)|].
      intro k. exact (proj1 (fold_set_entries k _ _ _ E2 (L1 k))).
    - injection E2 as <-. auto. }
  destruct I2 as [O2 L2].
  destruct (fold_resultM set_by_timestamp m2 lp) as [m3|] eqn:E3; [|discriminate].
  cbn [bind] in Hm. injection Hm as Hres _. subst res.
  split.
  - intros k Hne.
    destruct (proj2 (proj2 (fold_set_entries k _ _ _ E3 (L2 k))) Hne) as [k' Ek].
    pose proof (filter_values k m3 (fold_set_entry_ok _ _ _ E3 O2)) as Fv.
    rewrite Ek in Fv. simpl in Fv.
    apply Permutation_length_1_inv. rewrite <- Fv.
    apply filter_perm. apply sort_by_timestamp_perm.
  - intro Hfin. apply sort_by_timestamp_sorted. apply Forall_forall. intros q Hq.
    apply Hfin. exact (Permutation_in q (sort_by_timestamp_perm _) Hq).
Qed.

Lemma breadth_merge_latest_wins_witness :
  exists res st',
    @breadth_merge ExampleHost.host true empty_storage 0%Z "k" [] false true
      sample_latest sample_history = Ok (res, st') /\
    filter (@key_is ExampleHost.host (VNum (NFin (1704153600000 # 1)))) res
      = [ready_point (1704153600000 # 1) 55] /\
    Sorted (@ts_le ExampleHost.host) res.
Proof.
  set (L := [ready_point (1704067200000 # 1) 40; ready_point (1704153600000 # 1) 55]).
  assert (Hm : @breadth_merge ExampleHost.host true empty_storage 0%Z "k" [] false true
                 sample_latest sample_history = Ok (L, saveToCache true empty_storage 0%Z "k" (VArr L)))
    by (vm_compute; reflexivity).
  destruct (@breadth_merge_latest_wins ExampleHost.host true empty_storage 0%Z "k" [] false true
              sample_latest sample_history L _ [ready_point (1704153600000 # 1) 55] Hm
              ltac:(vm_compute; reflexivity)) as [Hk Hs].
  exists L, (saveToCache true empty_storage 0%Z "k" (VArr L)). split; [exact Hm|]. split.
  - rewrite Hk by (vm_compute; discriminate). reflexivity.
  - apply Hs. intros q Hq. simpl in Hq.
    destruct Hq as [<- | [<- | []]]; eexists; reflexivity.
Defined.

(** ** A failed refresh of a stale breadth cache *)

Lemma map_set_fresh {A} k (x : A) m :
  Forall (fun e => svz (fst e) k = false) m -> map_set k x m = (m ++ [(k, x)])%list.
Proof.
  intro Hm. induction Hm as [|[k' y] r Hy Hr IH]; simpl in *; [reflexivity|].
  rewrite Hy, IH. reflexivity.
Qed.

Lemma fin_ts_prop p x : fin_ts p = Some x -> prop p "timestamp" = Ok (VNum (NFin x)).
Proof.
  unfold fin_ts. destruct (prop p "timestamp") as [[| | |[q| | |]| | |]|]; try discriminate.
  intro E. injection E as <-. reflexivity.
Qed.

Lemma fold_set_distinct l m :
  distinct_fin_ts l ->
  (forall e p x, In e m -> In p l -> fin_ts p = Some x -> svz (fst e) (VNum (NFin x)) = false) ->
  exists m', fold_resultM set_by_timestamp m l = Ok m' /\ map snd m' = (map snd m ++ l)%list.
Proof.
  revert m. induction l as [|p r IH]; intros m [Hf Hd] Hm; cbn [fold_resultM].
  - exists m. rewrite app_nil_r. auto.
  - inversion Hf as [|? ? [x Hx] Hf']; subst.
    inversion Hd as [|? ? Hp Hd']; subst.
    assert (Hset : set_by_timestamp m p = Ok (m ++ [(VNum (NFin x), p)])%list).
    { unfold set_by_timestamp. rewrite (fin_ts_prop _ _ Hx). cbn [bind]. f_equal.
      apply map_set_fresh. apply Forall_forall. intros e He.
      exact (Hm e p x He (or_introl eq_refl) Hx). }
    rewrite Hset. cbn [bind].
    destruct (IH (m ++ [(VNum (NFin x), p)])%list (conj Hf' Hd')) as [m' [E1 E2]].
    + intros e q y He Hq Hy. apply in_app_or in He. destruct He as [He | [<- | []]].
      * exact (Hm e q y He (or_intror Hq) Hy).
      * simpl. exact (proj1 (Forall_forall _ _) Hp q Hq x y Hx Hy).
    + exists m'. split; [exact E1|]. rewrite E2, map_app. simpl. rewrite <- app_assoc. reflexivity.
Qed.

Lemma json_rt_stable_list l : json_stable l -> json_rt (VArr l) = Some (VArr l).
Proof.
  intro Hs. cbn [json_rt]. f_equal. f_equal.
  induction Hs as [|p r Hp Hr IH]; simpl; [reflexivity|]. rewrite Hp, IH. reflexivity.
Qed.

Lemma breadth_cache_hit `{Host} st t0 key c cs age :
  loadFromCache st t0 key None = Some (VArr (c :: cs), age) ->
  breadth_cache st t0 key = (c :: cs, true, age).
Proof. intro Hl. unfold breadth_cache. rewrite Hl. reflexivity. Qed.

Lemma processRaw_empty `{Host} : processRaw (VArr []) = Ok [].
Proof. reflexivity. Qed.

(** C9: with a cached entry of at least 50 points (finite, pairwise distinct
    timestamps; as JSON gives them back) whose age is not below the 5-minute
    window, a call of [fetchBreadthData] whose latest request fails returns
    the cached points sorted by timestamp, having issued only the latest
    request, and writes them back with written-at time [t1]; a call at any
    [t2] less than 5 minutes after [t1] then returns the same list without any
    request and leaves the cache as it is. *)
Theorem fetchBreadthData_stale_cache_refreshed `{Host} params st t0 t1 cached age history :
  let key := getCacheKey "BREADTH" (filterIdentity params) in
  let S := sort_by_timestamp cached in
  let st' := saveToCache true st t1 key (VArr S) in
  loadFromCache st t0 key None = Some (VArr cached, age) ->
  (50 <= List.length cached)%nat ->
  num_lt age BREADTH_MIN_FRESH = false ->
  distinct_fin_ts cached -> json_stable cached ->
  fetchBreadthData params st t0 None history true t1 = (S, st', [ReqLatest]) /\
  Permutation cached S /\ Sorted ts_le S /\
  (forall t2 latest' history' writable' t3, (inject_Z t2 - inject_Z t1 < 300000 # 1)%Q ->
     fetchBreadthData params st' t2 latest' history' writable' t3 = (S, st', [])).
Proof.
  intros key S st' Hl Hlen Hage Hd Hj.
  assert (HS0 : sort_by_timestamp cached = S) by reflexivity.
  assert (Hst0 : saveToCache true st t1 key (VArr S) = st') by reflexivity.
  clearbody st' S.
  assert (Hp : Permutation cached S) by (rewrite <- HS0; apply sort_by_timestamp_perm).
  destruct cached as [|c cs]; [simpl in Hlen; lia|].
  destruct S as [|s ss]; [apply Permutation_sym, Permutation_nil in Hp; discriminate|].
  assert (Hlt : Nat.ltb (List.length (c :: cs)) 50 = false) by (apply Nat.ltb_ge; exact Hlen).
  split; [|split; [exact Hp | split]].
  - unfold fetchBreadthData. fold key. rewrite (breadth_cache_hit _ _ _ _ _ _ Hl).
    cbn [andb negb orb]. rewrite Hage, Hlt. cbn [andb negb orb].
    unfold breadth_merge. rewrite processRaw_empty. cbn [bind negb andb].
    destruct (fold_set_distinct (c :: cs) [] Hd ltac:(intros e p x [])) as [m [E1 E2]].
    rewrite E1. cbn [bind fold_resultM]. simpl in E2. rewrite E2, HS0.
    cbn [try_catch]. rewrite Hst0. reflexivity.
  - rewrite <- HS0. apply sort_by_timestamp_sorted. apply Forall_forall. intros q Hq.
    destruct Hd as [Hf _]. destruct (proj1 (Forall_forall _ _) Hf q Hq) as [x Hx].
    exists x. unfold ts_num. rewrite (fin_ts_prop _ _ Hx). reflexivity.
  - intros t2 latest' history' writable' t3 Hrecent.
    assert (Hsave : loadFromCache st' t2 key None
                    = Some (VArr (s :: ss), NFin (inject_Z t2 - inject_Z t1))).
    { rewrite <- Hst0. apply loadFromCache_saved; [|reflexivity].
      apply json_rt_stable_list. exact (Permutation_Forall Hp Hj). }
    unfold fetchBreadthData. fold key.
    rewrite (breadth_cache_hit _ _ _ _ _ _ Hsave).
    cbn [andb]. unfold num_lt, BREADTH_MIN_FRESH. rewrite (Qltb_lt _ _ Hrecent).
    reflexivity.
Qed.

Lemma fetchBreadthData_stale_cache_refreshed_witness :
  let key := @getCacheKey ExampleHost.host "BREADTH" (filterIdentity sample_params) in
  let st := saveToCache true empty_storage 0%Z key (VArr sample_cached) in
  let S := @sort_by_timestamp ExampleHost.host sample_cached in
  let st' := saveToCache true st 600000%Z key (VArr S) in
  @fetchBreadthData ExampleHost.host sample_params st 600000%Z None None true 600000%Z
    = (S, st', [ReqLatest]) /\
  @fetchBreadthData ExampleHost.host sample_params st' 700000%Z None None true 700000%Z
    = (S, st', []).
Proof.
  intros key st S st'.
  assert (H4 : distinct_fin_ts sample_cached).
  { cbv [sample_cached seq map]. split.
    - repeat constructor; eexists; reflexivity.
    - repeat constructor; intros x y E1 E2; vm_compute in E1, E2;
        injection E1 as <-; injection E2 as <-; vm_compute; reflexivity. }
  assert (H5 : json_stable sample_cached).
  { cbv [sample_cached seq map]. repeat constructor. }
  destruct (@fetchBreadthData_stale_cache_refreshed ExampleHost.host sample_params st
              600000%Z 600000%Z sample_cached (NFin (inject_Z 600000 - inject_Z 0)) None
              ltac:(vm_compute; reflexivity) ltac:(vm_compute; lia)
              ltac:(vm_compute; reflexivity) H4 H5) as [A [_ [_ D]]].
  split; [exact A | apply D; vm_compute; reflexivity].
Defined.

(* ------------------------------------------------------------------------- *)
(** * Further properties of the code *)

Lemma getCacheKey_prefixes_disjoint `{Host} p1 p2 :
  getCacheKey "BREADTH" p1 <> getCacheKey "VNINDEX" p2.
Proof. unfold getCacheKey, CACHE_PREFIX. cbn. discriminate. Qed.

(** X1: a cache entry whose timestamp reads as NaN has age NaN, and loadFromCache returns its data whatever the TTL: the expiry test [age > ttl] is false for NaN. *)
Theorem loadFromCache_nan_age_never_expires `{Host} st now key fs d ttl :
  st key = Some (Json (VObj fs)) ->
  assoc "data" fs = Some d -> truthy d = true ->
  to_number (match assoc "timestamp" fs with Some t => t | None => VUndef end) = NNaN ->
  loadFromCache st now key ttl = Some (d, NNaN).
Proof.
  intros Hs Hd Ht Hn. unfold loadFromCache. rewrite Hs. cbn [truthy negb prop].
  rewrite Hd, Ht, Hn. cbn [negb num_sub num_neg num_add].
  destruct ttl as [t|]; [|reflexivity].
  unfold num_gt, num_lt. destruct t; reflexivity.
Qed.

Lemma loadFromCache_nan_age_never_expires_witness :
  @loadFromCache ExampleHost.host
    (store_put empty_storage "k" (Json (VObj [("data", VArr [VNum (NFin 1)])])))
    1000000000%Z "k" (Some VNINDEX_TTL) = Some (VArr [VNum (NFin 1)], NNaN).
Proof.
  apply (@loadFromCache_nan_age_never_expires ExampleHost.host _ _ _
           [("data", VArr [VNum (NFin 1)])]); reflexivity.
Defined.

Lemma saveToCache_other `{Host} w st now key d k :
  key <> k -> saveToCache w st now key d k = st k.
Proof.
  intro Hne. unfold saveToCache. destruct w; [|reflexivity].
  destruct (json_rt _); [|reflexivity]. unfold store_put.
  destruct (String.eqb key k) eqn:E; [apply String.eqb_eq in E; congruence | reflexivity].
Qed.

Lemma breadth_merge_store `{Host} w st t1 key cd v s lr hr res st' :
  breadth_merge w st t1 key cd v s lr hr = Ok (res, st') ->
  st' = st \/ exists d, st' = saveToCache w st t1 key d.
Proof.
  unfold breadth_merge. intro Hm. inv_binds. subst st'.
  destruct (sort_by_timestamp _); [left | right; eexists]; reflexivity.
Qed.

Lemma fetchBreadthData_store `{Host} params st t0 latest history w t1 :
  let st' := snd (fst (fetchBreadthData params st t0 latest history w t1)) in
  st' = st \/ exists d, st' = saveToCache w st t1 (getCacheKey "BREADTH" (filterIdentity params)) d.
Proof.
  cbv zeta. unfold fetchBreadthData.
  destruct (breadth_cache _ _ _) as [[cd v] age].
  destruct (v && num_lt age BREADTH_MIN_FRESH); [left; reflexivity|].
  match goal with |- context [try_catch ?m ?h] => destruct m as [[res st'']|e] eqn:E end;
    cbn [try_catch fst snd].
  - exact (breadth_merge_store _ _ _ _ _ _ _ _ _ _ _ E).
  - left; reflexivity.
Qed.

Lemma fetchVNIndexData_store `{Host} url st t0 fetched w t1 v st' :
  fetchVNIndexData url st t0 fetched w t1 = Ok (v, st') ->
  st' = st \/ exists d, st' = saveToCache w st t1
                           (getCacheKey "VNINDEX" (VObj [("url", VStr (vnindex_target url))])) d.
Proof.
  unfold fetchVNIndexData.
  destruct (loadFromCache _ _ _ _) as [[d age]|].
  - intro E. injection E as _ <-. left; reflexivity.
  - intro E. injection E as E.
    match type of E with try_catch ?m ?h = _ => destruct m as [[v' st'']|e] eqn:Em end;
      cbn [try_catch] in E.
    + inv_binds. destruct (negb (truthy a)); [discriminate|]. inv_binds.
      injection E as _ <-. subst st''.
      destruct (Nat.ltb 0 _); [right; eexists; reflexivity | left; reflexivity].
    + destruct (loadFromCache _ _ _ _) as [[? ?]|]; injection E as _ <-; left; reflexivity.
Qed.

(** X2: fetchBreadthData never changes a storage entry under a VNINDEX key, and fetchVNIndexData never changes one under a BREADTH key: the two prefixes give disjoint keys. *)
Theorem fetch_caches_independent `{Host} :
  (forall params st t0 latest history w t1 p,
     snd (fst (fetchBreadthData params st t0 latest history w t1)) (getCacheKey "VNINDEX" p)
     = st (getCacheKey "VNINDEX" p)) /\
  (forall url st t0 fetched w t1 v st' p,
     fetchVNIndexData url st t0 fetched w t1 = Ok (v, st') ->
     st' (getCacheKey "BREADTH" p) = st (getCacheKey "BREADTH" p)).
Proof.
  split.
  - intros params st t0 latest history w t1 p.
    destruct (fetchBreadthData_store params st t0 latest history w t1) as [E | [d E]];
      rewrite E; [reflexivity|].
    apply saveToCache_other. apply getCacheKey_prefixes_disjoint.
  - intros url st t0 fetched w t1 v st' p Hf.
    destruct (fetchVNIndexData_store _ _ _ _ _ _ _ _ Hf) as [-> | [d ->]]; [reflexivity|].
    apply saveToCache_other. intro E. exact (getCacheKey_prefixes_disjoint _ _ (eq_sym E)).
Qed.

(** X3: when the VNINDEX cache misses and the request returns data that parses to a non-empty list that survives a JSON round trip (no NaN or infinite number), fetchVNIndexData saves the list; a second call at most 4 hours later returns the same list from the cache and leaves the storage unchanged, whatever its request would give. *)
Theorem fetchVNIndexData_second_call_cached `{Host} url st t0 d parsed t1 t2 fetched' w' t3 :
  let key := getCacheKey "VNINDEX" (VObj [("url", VStr (vnindex_target url))]) in
  loadFromCache st t0 key (Some VNINDEX_TTL) = None ->
  truthy d = true -> parseVNIndexData d = Ok parsed -> parsed <> [] -> json_stable parsed ->
  (inject_Z t2 - inject_Z t1 <= 14400000 # 1)%Q ->
  let st' := saveToCache true st t1 key (VArr parsed) in
  fetchVNIndexData url st t0 (Some d) true t1 = Ok (VArr parsed, st') /\
  fetchVNIndexData url st' t2 fetched' w' t3 = Ok (VArr parsed, st').
Proof.
  intros key Hmiss Ht Hp Hne Hj Hage st'.
  split.
  - unfold fetchVNIndexData. fold key. rewrite Hmiss. cbn [bind]. rewrite Ht. cbn [negb].
    rewrite Hp. cbn [bind try_catch].
    destruct parsed as [|p ps]; [congruence|]. reflexivity.
  - assert (Hl : loadFromCache st' t2 key None
                 = Some (VArr parsed, NFin (inject_Z t2 - inject_Z t1))).
    { apply loadFromCache_saved; [apply json_rt_stable_list; exact Hj | reflexivity]. }
    unfold fetchVNIndexData. fold key.
    rewrite (loadFromCache_ttl _ _ _ _ _ _ Hl).
    unfold num_gt, num_lt, Qltb, VNINDEX_TTL.
    rewrite (proj2 (Qle_bool_iff _ _) Hage). reflexivity.
Qed.

(** X4: with no non-empty cached array and both requests failing, fetchBreadthData returns an empty list, leaves the storage unchanged and issues both requests. *)
Theorem fetchBreadthData_offline_empty `{Host} params st t0 w t1 :
  let key := getCacheKey "BREADTH" (filterIdentity params) in
  (forall c cs age, loadFromCache st t0 key None <> Some (VArr (c :: cs), age)) ->
  fetchBreadthData params st t0 None None w t1 = ([], st, [ReqLatest; ReqHistory]).
Proof.
  intros key Hno. unfold fetchBreadthData. fold key.
  assert (E : breadth_cache st t0 key = ([], false, NFin (999999999 # 1))).
  { unfold breadth_cache.
    destruct (loadFromCache st t0 key None) as [[[| | | | |[|c cs]|] age]|] eqn:Hl;
      try reflexivity.
    exfalso. exact (Hno c cs age eq_refl). }
  rewrite E. reflexivity.
Qed.

Lemma fetchBreadthData_offline_empty_witness :
  @fetchBreadthData ExampleHost.host sample_params empty_storage 0%Z None None true 0%Z
    = ([], empty_storage, [ReqLatest; ReqHistory]).
Proof.
  apply (@fetchBreadthData_offline_empty ExampleHost.host).
  intros c cs age. unfold loadFromCache, empty_storage. discriminate.
Defined.

Lemma map_set_values {A} k (x : A) m y :
  In y (map snd (map_set k x m)) -> y = x \/ In y (map snd m).
Proof.
  induction m as [|[k' z] r IH]; simpl.
  - intros [<- | []]. left; reflexivity.
  - destruct (svz k' k); simpl.
    + intros [<- | H]; [left; reflexivity | right; right; exact H].
    + intros [<- | H]; [right; left; reflexivity|].
      destruct (IH H) as [-> | H']; [left; reflexivity | right; right; exact H'].
Qed.

Lemma map_set_not_nil {A} k (x : A) m : map_set k x m <> [].
Proof. destruct m as [|[k' z] r]; simpl; [|destruct (svz k' k)]; discriminate. Qed.

Lemma fold_set_values m l m' :
  fold_resultM set_by_timestamp m l = Ok m' ->
  forall y, In y (map snd m') -> In y (map snd m) \/ In y l.
Proof.
  revert m. induction l as [|p r IH]; intros m E y Hy; cbn [fold_resultM] in E.
  - injection E as ->. left; exact Hy.
  - apply bind_Ok in E. destruct E as [m1 [E1 E]].
    unfold set_by_timestamp in E1. apply bind_Ok in E1. destruct E1 as [ts [_ E1]].
    injection E1 as <-.
    destruct (IH _ E y Hy) as [H1 | H1]; [|right; right; exact H1].
    destruct (map_set_values _ _ _ _ H1) as [-> | H2]; [right; left; reflexivity | left; exact H2].
Qed.

Lemma fold_set_ok m l :
  Forall (fun p => nullish p = false) l ->
  exists m', fold_resultM set_by_timestamp m l = Ok m' /\ (m' = [] <-> m = [] /\ l = []).
Proof.
  revert m. induction l as [|p r IH]; intros m Hn; cbn [fold_resultM].
  - exists m. split; [reflexivity|]. tauto.
  - inversion Hn as [|? ? Hp Hr]; subst.
    assert (Hts : exists ts, prop p "timestamp" = Ok ts)
      by (destruct p; try discriminate; eexists; reflexivity).
    destruct Hts as [ts Hts].
    destruct (IH (map_set ts p m) Hr) as [m' [E Hiff]].
    exists m'. unfold set_by_timestamp. rewrite Hts. cbn [bind]. split; [exact E|].
    split; [intro H0; exfalso; exact (map_set_not_nil _ _ _ (proj1 (proj1 Hiff H0)))|].
    intros [_ H0]; discriminate H0.
Qed.

(** X5: a stale cache of fewer than 50 points triggers both requests; if only
    the latest request succeeds and none of its processed points is null or
    undefined, the result holds only points of the latest response (the cached
    points are dropped), is empty only when that response gives no point, and
    is saved under the key when non-empty.  When the latest points have
    distinct finite timestamps, the result is exactly those points, sorted. *)
Theorem fetchBreadthData_small_cache_history_lost `{Host} params st t0 t1 w cached age
    latest lp :
  let key := getCacheKey "BREADTH" (filterIdentity params) in
  loadFromCache st t0 key None = Some (VArr cached, age) -> cached <> [] ->
  (List.length cached < 50)%nat -> num_lt age BREADTH_MIN_FRESH = false ->
  processRaw latest = Ok lp -> Forall (fun p => nullish p = false) lp ->
  exists S,
    fetchBreadthData params st t0 (Some latest) None w t1
      = (S, match S with [] => st | _ => saveToCache w st t1 key (VArr S) end,
         [ReqLatest; ReqHistory]) /\
    (forall p, In p S -> In p lp) /\ (S = [] <-> lp = []) /\
    (distinct_fin_ts lp -> S = sort_by_timestamp lp).
Proof.
  intros key Hl Hne Hlen Hage Hp Hn.
  destruct cached as [|c cs]; [congruence|].
  assert (Hlt : Nat.ltb (List.length (c :: cs)) 50 = true) by (apply Nat.ltb_lt; exact Hlen).
  destruct (fold_set_ok [] lp Hn) as [m [Em Hiff]].
  exists (sort_by_timestamp (map snd m)). split; [|split; [|split]].
  - unfold fetchBreadthData. fold key. rewrite (breadth_cache_hit _ _ _ _ _ _ Hl).
    cbn [andb negb orb]. rewrite Hage, Hlt. cbn [andb negb orb].
    unfold breadth_merge. rewrite Hp, processRaw_empty. cbn [bind negb andb fold_resultM].
    rewrite Em. cbn [bind]. destruct (sort_by_timestamp (map snd m)); reflexivity.
  - intros p Hin. apply (Permutation_in _ (Permutation_sym (sort_by_timestamp_perm _))) in Hin.
    destruct (fold_set_values _ _ _ Em p Hin) as [[] | H1]. exact H1.
  - split.
    + intro H0. apply Hiff. apply (map_eq_nil snd). apply Permutation_nil.
      rewrite <- H0. apply Permutation_sym, sort_by_timestamp_perm.
    + intro H0. assert (m = []) as -> by (apply Hiff; split; [reflexivity | exact H0]).
      reflexivity.
  - intro Hd. destruct (fold_set_distinct lp [] Hd ltac:(intros e p x [])) as [m' [E1 E2]].
    rewrite Em in E1. injection E1 as <-. rewrite E2. reflexivity.
Qed.

Lemma fetchBreadthData_small_cache_history_lost_witness :
  let key := @getCacheKey ExampleHost.host "BREADTH" (filterIdentity sample_params) in
  let st := saveToCache true empty_storage 0%Z key (VArr [ready_point (1704067200000 # 1) 40]) in
  let lp := [ready_point (1704153600000 # 1) 55] in
  exists S,
    @fetchBreadthData ExampleHost.host sample_params st 600000%Z (Some sample_latest) None true
        600000%Z
      = (S, match S with [] => st | _ => saveToCache true st 600000%Z key (VArr S) end,
         [ReqLatest; ReqHistory]) /\
    (forall p, In p S -> In p lp) /\ (S = [] <-> lp = []) /\ S = @sort_by_timestamp ExampleHost.host lp.
Proof.
  intros key st lp.
  destruct (@fetchBreadthData_small_cache_history_lost ExampleHost.host sample_params st
           600000%Z 600000%Z true [ready_point (1704067200000 # 1) 40]
           (NFin (inject_Z 600000 - inject_Z 0)) sample_latest lp)
    as [S [E [Hin [Hiff Hd]]]].
  - vm_compute. reflexivity.
  - intro E; inversion E.
  - simpl; lia.
  - vm_compute; reflexivity.
  - vm_compute; reflexivity.
  - repeat constructor.
  - exists S. split; [exact E|]. split; [exact Hin|]. split; [exact Hiff|].
    apply Hd. split.
    + repeat constructor; eexists; reflexivity.
    + repeat constructor.
Defined.

Lemma map_set_fst_in {A} k (x : A) m b :
  In b (map fst (map_set k x m)) -> In b (map fst m) \/ b = k.
Proof.
  induction m as [|[k' y] r IH]; simpl.
  - intros [<- | []]. right; reflexivity.
  - destruct (svz k' k); simpl.
    + intros [<- | H]; [left; left; reflexivity | left; right; exact H].
    + intros [<- | H]; [left; left; reflexivity|].
      destruct (IH H) as [H' | H']; [left; right; exact H' | right; exact H'].
Qed.

Lemma map_set_keys_distinct {A} k (x : A) m :
  keys_distinct m -> keys_distinct (map_set k x m).
Proof.
  unfold keys_distinct. induction m as [|[k' y] r IH]; simpl; intro Hd.
  - repeat constructor.
  - inversion Hd as [|? ? Hk Hr]; subst.
    destruct (svz k' k) eqn:E; simpl; constructor; auto.
    apply Forall_forall. intros b Hb. destruct (map_set_fst_in _ _ _ _ Hb) as [Hb' | ->].
    + exact (proj1 (Forall_forall _ _) Hk b Hb').
    + exact E.
Qed.

Lemma map_set_dates date x m :
  dates_are_keys m ->
  c_date x = c_date (match map_get date m with Some e => e
                     | None => mk_centry date n0 None None None end) ->
  dates_are_keys (map_set date x m).
Proof.
  unfold dates_are_keys. induction m as [|[k' y] r IH]; simpl; intros Hm Hx.
  - repeat constructor. exact Hx.
  - inversion Hm as [|? ? Hy Hr]; subst. simpl in Hy.
    destruct (svz k' date); constructor; simpl; auto.
    congruence.
Qed.

Lemma centry_set_count_date cp n e : c_date (centry_set_count cp n e) = c_date e.
Proof. unfold centry_set_count. destruct (String.eqb _ _); [|destruct (String.eqb _ _)]; reflexivity. Qed.

Lemma merge_series_item_inv `{Host} cp m item m' :
  merge_series_item cp m item = Ok m' ->
  keys_distinct m -> dates_are_keys m -> keys_distinct m' /\ dates_are_keys m'.
Proof.
  unfold merge_series_item. intros E Hk Hd. inv_binds. subst m'. split.
  - apply map_set_keys_distinct; exact Hk.
  - apply map_set_dates; [exact Hd|]. rewrite centry_set_count_date.
    destruct (truthy a0); reflexivity.
Qed.

Lemma fold_merge_inv `{Host} cp items m m' :
  fold_resultM (merge_series_item cp) m items = Ok m' ->
  keys_distinct m -> dates_are_keys m -> keys_distinct m' /\ dates_are_keys m'.
Proof.
  revert m. induction items as [|it r IH]; simpl; intros m E Hk Hd.
  - injection E as <-. auto.
  - inv_binds. destruct (merge_series_item_inv _ _ _ _ Ha Hk Hd) as [Hk' Hd'].
    exact (IH _ E Hk' Hd').
Qed.

Lemma mergeSeries_inv `{Host} d key cp m m' :
  mergeSeries d key cp m = Ok m' ->
  keys_distinct m -> dates_are_keys m -> keys_distinct m' /\ dates_are_keys m'.
Proof.
  unfold mergeSeries. intros E Hk Hd. inv_binds.
  destruct a; try (injection E as <-; auto).
  exact (fold_merge_inv _ _ _ _ E Hk Hd).
Qed.

(** X6: the points returned by mapComplexBreadthData have pairwise distinct dates. *)
Theorem mapComplexBreadthData_distinct_dates `{Host} d ps :
  mapComplexBreadthData d = Ok ps -> distinct_dates ps.
Proof.
  unfold mapComplexBreadthData. intro E. inv_binds.
  assert (H0 : keys_distinct (@nil (value * centry)) /\ dates_are_keys []) by
    (split; constructor).
  destruct (mergeSeries_inv _ _ _ _ _ Ha (proj1 H0) (proj2 H0)) as [Hk1 Hd1].
  destruct (mergeSeries_inv _ _ _ _ _ Ha0 Hk1 Hd1) as [Hk2 Hd2].
  destruct (mergeSeries_inv _ _ _ _ _ Ha1 Hk2 Hd2) as [Hk3 Hd3].
  subst ps. unfold distinct_dates. clear -Hk3 Hd3.
  unfold keys_distinct, dates_are_keys in *.
  induction a1 as [|[k e] r IH]; simpl in *; constructor.
  - inversion Hk3 as [|? ? Hk Hr]; subst. inversion Hd3 as [|? ? He Hr']; subst.
    simpl in He. apply Forall_forall. intros b Hb x y Ex Ey.
    apply in_map_iff in Hb. destruct Hb as [[k2 e2] [<- Hin]].
    cbn in Ex, Ey. injection Ex as <-. injection Ey as <-.
    rewrite He. pose proof (proj1 (Forall_forall _ _) Hr' _ Hin) as E2. simpl in E2.
    rewrite E2.
    exact (proj1 (Forall_forall _ _) Hk k2 (in_map fst _ _ Hin)).
  - inversion Hk3; inversion Hd3; subst. apply IH; assumption.
Qed.

Lemma mapComplexBreadthData_distinct_dates_witness :
  let ps := match @mapComplexBreadthData ExampleHost.host sample_complex with
            | Ok ps => ps | Throw _ => [] end in
  @mapComplexBreadthData ExampleHost.host sample_complex = Ok ps /\
  List.length ps = 1%nat /\ @distinct_dates ExampleHost.host ps.
Proof.
  intros ps. split; [vm_compute; reflexivity|]. split; [vm_compute; reflexivity|].
  apply (@mapComplexBreadthData_distinct_dates ExampleHost.host sample_complex).
  vm_compute. reflexivity.
Defined.

Lemma mapM_throw_type_error {A B} (f : A -> result B) l x :
  (forall y e, In y l -> f y = Throw e -> e = TypeError) ->
  In x l -> f x = Throw TypeError -> mapM f l = Throw TypeError.
Proof.
  induction l as [|y r IH]; simpl; intros Hall Hin Hx; [destruct Hin|].
  destruct (f y) as [b|e] eqn:Ey; cbn [bind].
  - destruct Hin as [-> | Hin]; [congruence|].
    rewrite (IH (fun z e Hz => Hall z e (or_intror Hz)) Hin Hx). reflexivity.
  - f_equal. exact (Hall y e (or_introl eq_refl) Ey).
Qed.

Lemma prop_not_nullish v k : nullish v = false -> exists x, prop v k = Ok x.
Proof. destruct v; try discriminate; intros _; eexists; reflexivity. Qed.

Lemma index_read_not_nullish v i : nullish v = false -> exists x, index_read v i = Ok x.
Proof. destruct v; try discriminate; intros _; eexists; reflexivity. Qed.

Lemma or_props_not_nullish v ks : nullish v = false -> exists x, or_props v ks = Ok x.
Proof.
  intro Hn. induction ks as [|k r IH]; [eexists; reflexivity|].
  destruct r as [|k' r'].
  - exact (prop_not_nullish v k Hn).
  - destruct (prop_not_nullish v k Hn) as [x Hx].
    change (or_props v (k :: k' :: r'))
      with (let* x := prop v k in if truthy x then Ok x else or_props v (k' :: r')).
    rewrite Hx. cbn [bind]. destruct (truthy x); [eexists; reflexivity | exact IH].
Qed.

Lemma array_row_point_error `{Host} x e : array_row_point x = Throw e -> e = TypeError.
Proof.
  unfold array_row_point. destruct (nullish x) eqn:Hn.
  - destruct x; try discriminate; intro E; injection E; auto.
  - destruct (index_read_not_nullish x 0 Hn) as [a Ha], (prop_not_nullish x "length" Hn) as [b Hb].
    destruct (index_read_not_nullish x 4 Hn) as [c Hc], (index_read_not_nullish x 1 Hn) as [d Hd].
    rewrite Ha, Hb. cbn [bind]. destruct (num_ge _ _); [rewrite Hc | rewrite Hd]; discriminate.
Qed.

Lemma object_row_point_error `{Host} x e : object_row_point x = Throw e -> e = TypeError.
Proof.
  unfold object_row_point. destruct (nullish x) eqn:Hn.
  - destruct x; try discriminate; intro E; injection E; auto.
  - destruct (or_props_not_nullish x time_keys Hn) as [a Ha],
      (or_props_not_nullish x close_keys Hn) as [b Hb].
    rewrite Ha, Hb. cbn [bind]. destruct a, b; discriminate.
Qed.

(** X7: parseVNIndexData on an array with a null or undefined element throws a TypeError. *)
Theorem parseVNIndexData_nullish_row_throws `{Host} l x :
  In x l -> nullish x = true -> parseVNIndexData (VArr l) = Throw TypeError.
Proof.
  intros Hin Hx.
  assert (Hxe : forall f : value -> result value, (f = array_row_point) ->
                f x = Throw TypeError) by
    (intros f ->; destruct x; try discriminate; reflexivity).
  destruct l as [|y r]; [destruct Hin|].
  cbn [parseVNIndexData truthy negb parse_shapes].
  destruct y as [| | | | |yl|];
    try (cbn [bind]; rewrite (mapM_throw_type_error object_row_point _ x
           (fun z e _ Hz => object_row_point_error z e Hz) Hin
           ltac:(destruct x; try discriminate; reflexivity)); reflexivity).
  exact (mapM_throw_type_error array_row_point _ x
           (fun z e _ Hz => array_row_point_error z e Hz) Hin (Hxe _ eq_refl)).
Qed.

Lemma parseVNIndexData_nullish_row_throws_witness :
  @parseVNIndexData ExampleHost.host
    (VArr [VObj [("date", VStr "2024-01-01"); ("value", VNum (NFin 1200))]; VNull])
    = Throw TypeError.
Proof.
  apply (@parseVNIndexData_nullish_row_throws ExampleHost.host _ VNull);
    [simpl; auto | reflexivity].
Defined.

(** X8: parseVNIndexData on an object whose data field is not an array and which has no array columns t and c returns an empty list. *)
Theorem parseVNIndexData_unrecognised_object `{Host} fs :
  (forall x, assoc "data" fs = Some x -> is_array x = false) ->
  (forall ts cs, assoc "t" fs = Some (VArr ts) -> assoc "c" fs = Some (VArr cs) -> False) ->
  parseVNIndexData (VObj fs) = Ok [].
Proof.
  intros Hd Htc. rewrite (parseVNIndexData_no_wrapper fs Hd). cbn [parse_shapes].
  destruct (assoc "t" fs) as [[| | | | |ts|]|] eqn:Et; try reflexivity.
  destruct (assoc "c" fs) as [[| | | | |cs|]|] eqn:Ec; try reflexivity.
  exfalso. exact (Htc ts cs eq_refl eq_refl).
Qed.

Lemma parseVNIndexData_unrecognised_object_witness :
  @parseVNIndexData ExampleHost.host
    (VObj [("data", VObj [("data", VArr [VArr [VNum (NFin 1704067200); VNum (NFin 1200)]])])])
    = Ok [].
Proof.
  apply (@parseVNIndexData_unrecognised_object ExampleHost.host).
  - intros x E. injection E as <-. reflexivity.
  - intros ts cs E. discriminate.
Defined.

Lemma assoc_In k fs x : assoc k fs = Some x -> In (k, x) fs.
Proof.
  induction fs as [|[k' y] r IH]; simpl; [discriminate|].
  destruct (String.eqb k k') eqn:E; intro H.
  - apply String.eqb_eq in E. subst k'. injection H as <-. left; reflexivity.
  - right. exact (IH H).
Qed.

Lemma obj_assign_fin r fs : rec_fin_ts r -> ts_fields_fin fs -> rec_fin_ts (obj_assign r (VObj fs)).
Proof.
  unfold obj_assign. revert r. induction fs as [|[k v] rest IH]; intros r Hr Hfs; simpl; [exact Hr|].
  apply IH.
  - destruct (String.eqb k "timestamp") eqn:E.
    + apply String.eqb_eq in E. subst k.
      destruct (Hfs v (or_introl eq_refl)) as [q ->].
      exists q. apply assoc_obj_set_same.
    + destruct Hr as [q Hq]. exists q. rewrite assoc_obj_set_other; [exact Hq|].
      intro E'. subst k. rewrite String.eqb_refl in E. discriminate.
  - intros v' Hv'. exact (Hfs v' (or_intror Hv')).
Qed.

Lemma obj_set_fin r k v : rec_fin_ts r -> k <> "timestamp" -> rec_fin_ts (obj_set k v r).
Proof.
  intros [q Hq] Hk. exists q. rewrite assoc_obj_set_other; [exact Hq|].
  intro E. apply Hk. auto.
Qed.

Lemma dm_put_forall (P : record -> Prop) key r dm :
  Forall (fun kr => P (snd kr)) dm -> P r -> Forall (fun kr => P (snd kr)) (dm_put key r dm).
Proof.
  intros Hdm Hr. induction Hdm as [|[k x] rest Hx Hrest IH]; simpl; [repeat constructor; exact Hr|].
  destruct (String.eqb k key); constructor; auto.
Qed.

Lemma dm_get_forall (P : record -> Prop) key r dm :
  Forall (fun kr => P (snd kr)) dm -> dm_get key dm = Some r -> P r.
Proof.
  intro Hdm. induction Hdm as [|[k x] rest Hx Hrest IH]; simpl; [discriminate|].
  destruct (String.eqb k key); [intro E; injection E as <-; exact Hx | exact IH].
Qed.

Lemma getDateKey_undef `{Host} : getDateKey VUndef = Throw RangeError.
Proof. reflexivity. Qed.

Lemma merge_breadth_point_fin `{Host} dm b dm' :
  Forall (fun kr => rec_fin_ts (snd kr)) dm -> breadth_input_ok b ->
  merge_breadth_point dm b = Ok dm' -> Forall (fun kr => rec_fin_ts (snd kr)) dm'.
Proof.
  intros Hdm [fs [-> Hfs]] E. unfold merge_breadth_point in E. inv_binds.
  cbn [prop] in Ha. injection Ha as <-.
  destruct (assoc "timestamp" fs) as [t|] eqn:Et; [|rewrite getDateKey_undef in Ha0; discriminate].
  destruct (Hfs t (assoc_In _ _ _ Et)) as [q ->].
  unfold getOrCreate in E. destruct (dm_get a0 dm) as [r|] eqn:Eg.
  - injection E as <-. apply dm_put_forall; [exact Hdm|].
    apply obj_assign_fin; [exact (dm_get_forall _ _ _ _ Hdm Eg) | exact Hfs].
  - injection E as <-.
    assert (Hf : rec_fin_ts (fresh_record (VNum (NFin q)) a0)) by (exists q; reflexivity).
    apply dm_put_forall; [apply dm_put_forall; assumption|].
    apply obj_assign_fin; assumption.
Qed.

Lemma merge_index_point_fin `{Host} field dm v dm' :
  field <> "timestamp" ->
  Forall (fun kr => rec_fin_ts (snd kr)) dm -> has_fin_ts v ->
  merge_index_point field dm v = Ok dm' -> Forall (fun kr => rec_fin_ts (snd kr)) dm'.
Proof.
  intros Hfield Hdm [q Hq] E. unfold merge_index_point in E.
  rewrite (fin_ts_prop _ _ Hq) in E. cbn [bind] in E.
  destruct (getDateKey (VNum (NFin q))) as [key|] eqn:Ek; cbn [bind] in E; [|discriminate].
  unfold getOrCreate in E. destruct (dm_get key dm) as [r|] eqn:Eg.
  - inv_binds. destruct (nullish a); injection E as <-; [exact Hdm|].
    apply dm_put_forall; [exact Hdm|].
    apply obj_set_fin; [exact (dm_get_forall _ _ _ _ Hdm Eg) | exact Hfield].
  - inv_binds.
    assert (Hf : rec_fin_ts (fresh_record (VNum (NFin q)) key)) by (exists q; reflexivity).
    assert (Hdm1 : Forall (fun kr => rec_fin_ts (snd kr)) (dm_put key (fresh_record (VNum (NFin q)) key) dm))
      by (apply dm_put_forall; assumption).
    destruct (nullish a); injection E as <-; [exact Hdm1|].
    apply dm_put_forall; [exact Hdm1|].
    exact (obj_set_fin _ field a Hf Hfield).
Qed.

Lemma fold_breadth_fin `{Host} l dm dm' :
  Forall (fun kr => rec_fin_ts (snd kr)) dm -> Forall breadth_input_ok l ->
  fold_resultM merge_breadth_point dm l = Ok dm' -> Forall (fun kr => rec_fin_ts (snd kr)) dm'.
Proof.
  revert dm. induction l as [|b r IH]; simpl; intros dm Hdm Hl E.
  - injection E as <-. exact Hdm.
  - inversion Hl as [|? ? Hb Hr]; subst. inv_binds.
    exact (IH _ (merge_breadth_point_fin _ _ _ Hdm Hb Ha) Hr E).
Qed.

Lemma merge_index_series_fin `{Host} field l dm dm' :
  field <> "timestamp" ->
  Forall (fun kr => rec_fin_ts (snd kr)) dm -> Forall has_fin_ts l ->
  merge_index_series field l dm = Ok dm' -> Forall (fun kr => rec_fin_ts (snd kr)) dm'.
Proof.
  unfold merge_index_series. intro Hfield.
  revert dm. induction l as [|v r IH]; simpl; intros dm Hdm Hl E.
  - injection E as <-. exact Hdm.
  - inversion Hl as [|? ? Hv Hr]; subst. inv_binds.
    exact (IH _ (merge_index_point_fin _ _ _ _ Hfield Hdm Hv Ha) Hr E).
Qed.

Lemma chart_merge_fin `{Host} b v c s dm :
  Forall breadth_input_ok b -> Forall has_fin_ts v -> Forall has_fin_ts c ->
  Forall has_fin_ts s -> chart_merge b v c s = Ok dm ->
  Forall (fun kr => rec_fin_ts (snd kr)) dm.
Proof.
  intros Hb Hv Hc Hs E. unfold chart_merge in E. inv_binds.
  pose proof (fold_breadth_fin _ _ _ (Forall_nil _) Hb Ha) as H1.
  pose proof (merge_index_series_fin "vnIndex" _ _ _ ltac:(discriminate) H1 Hv Ha0) as H2.
  pose proof (merge_index_series_fin "capVal" _ _ _ ltac:(discriminate) H2 Hc Ha1) as H3.
  exact (merge_index_series_fin "sectorVal" _ _ _ ltac:(discriminate) H3 Hs E).
Qed.

Lemma records_fin_ts `{Host} (dm : list (string * record)) :
  Forall (fun kr => rec_fin_ts (snd kr)) dm -> Forall has_fin_ts (map (fun kr => VObj (snd kr)) dm).
Proof.
  intro Hdm. apply Forall_map. refine (Forall_impl _ _ Hdm).
  intros [k r] [q Hq]. exists q. unfold fin_ts. cbn [prop snd] in *. rewrite Hq. reflexivity.
Qed.

Lemma has_fin_ts_finite `{Host} p : has_fin_ts p -> finite_num (ts_num p).
Proof. intros [q Hq]. exists q. unfold ts_num. rewrite (fin_ts_prop _ _ Hq). reflexivity. Qed.

Lemma point_ts_fin `{Host} d q : fin_ts d = Some q -> point_ts d = VNum (NFin q).
Proof. intro Hq. unfold point_ts. rewrite (fin_ts_prop _ _ Hq). reflexivity. Qed.

Lemma ts_le_trans `{Host} a b c : ts_le a b -> ts_le b c -> ts_le a c.
Proof.
  intros [x [y [Ha [Hb Hxy]]]] [y' [z [Hb' [Hc Hyz]]]].
  rewrite Hb in Hb'. injection Hb' as <-. exists x, z. repeat split; auto.
  exact (Qle_trans _ _ _ Hxy Hyz).
Qed.

Lemma sorted_filter {A} (R : A -> A -> Prop) (f : A -> bool) l :
  (forall a b c, R a b -> R b c -> R a c) -> Sorted R l -> Sorted R (filter f l).
Proof.
  intros Htr Hs. apply StronglySorted_Sorted.
  apply Sorted_StronglySorted in Hs; [|exact Htr].
  induction Hs as [|x r Hs IH Hx]; simpl; [constructor|].
  destruct (f x); [|exact IH]. constructor; [exact IH|].
  apply Forall_forall. intros y Hy. apply filter_In in Hy.
  exact (proj1 (Forall_forall _ _) Hx y (proj1 Hy)).
Qed.

Lemma js_ge_fin `{Host} q c : js_ge (VNum (NFin q)) (VNum (NFin c)) = true -> (c <= q)%Q.
Proof.
  unfold js_ge, js_less. cbn [to_primitive to_number num_lt].
  destruct (Qltb q c) eqn:E; [discriminate|]. intros _.
  unfold Qltb in E. destruct (Qle_bool c q) eqn:E'; [|discriminate].
  apply Qle_bool_iff. exact E'.
Qed.

Lemma js_lt_fin `{Host} q c : js_lt (VNum (NFin q)) (VNum (NFin c)) = true -> (q < c)%Q.
Proof.
  unfold js_lt, js_less. cbn [to_primitive to_number num_lt].
  unfold Qltb. destruct (Qle_bool c q) eqn:E; [discriminate|]. intros _.
  apply Qnot_le_lt. intro Hle. apply Qle_bool_iff in Hle. congruence.
Qed.

Lemma js_ge_nan `{Host} v : js_ge v (VNum NNaN) = false.
Proof.
  unfold js_ge, js_less. cbn [to_primitive to_number].
  destruct (to_primitive v); cbn [to_number]; try reflexivity;
    match goal with |- context [match ?n with NFin _ => _ | _ => _ end] => destruct n end;
    reflexivity.
Qed.

Lemma js_lt_nan `{Host} v : js_lt v (VNum NNaN) = false.
Proof.
  unfold js_lt, js_less. cbn [to_primitive to_number].
  destruct (to_primitive v); cbn [to_number]; try reflexivity;
    match goal with |- context [match ?n with NFin _ => _ | _ => _ end] => destruct n end;
    reflexivity.
Qed.

(** The points [chartData] sorts: one per day record of the merge. *)
Lemma chartData_cases `{Host} b v c s range f t now out :
  chartData b v c s range f t now = Ok out ->
  out = [] \/
  exists dm, chart_merge b v c s = Ok dm /\
    exists g, out = filter g (sort_by_timestamp (map (fun kr => VObj (snd kr)) dm)).
Proof.
  unfold chartData. destruct (_ && _); [intro E; injection E as <-; left; reflexivity|].
  destruct (chart_merge b v c s) as [dm|e]; cbn [bind]; [|discriminate].
  intro E. right. exists dm. split; [reflexivity|].
  destruct (date_given f || date_given t); [injection E as <-; eexists; reflexivity|].
  destruct (num_truthy _); injection E as <-; [eexists; reflexivity|].
  exists (fun _ => true). symmetry. apply forallb_filter_id. apply forallb_forall. reflexivity.
Qed.

(** X9: on inputs whose timestamps are finite, chartData returns points with finite timestamps, sorted by timestamp. *)
Theorem chartData_sorted `{Host} b v c s range f t now out :
  Forall breadth_input_ok b -> Forall has_fin_ts v -> Forall has_fin_ts c ->
  Forall has_fin_ts s ->
  chartData b v c s range f t now = Ok out ->
  Forall has_fin_ts out /\ Sorted ts_le out.
Proof.
  intros Hb Hv Hc Hs E.
  destruct (chartData_cases _ _ _ _ _ _ _ _ _ E) as [-> | [dm [Edm [g ->]]]];
    [split; constructor|].
  pose proof (records_fin_ts _ (chart_merge_fin _ _ _ _ _ Hb Hv Hc Hs Edm)) as Hf.
  pose proof (Permutation_Forall (sort_by_timestamp_perm _) Hf) as Hf'.
  split.
  - apply Forall_forall. intros d Hd. apply filter_In in Hd.
    exact (proj1 (Forall_forall _ _) Hf' d (proj1 Hd)).
  - apply sorted_filter; [exact ts_le_trans|]. apply sort_by_timestamp_sorted.
    exact (Forall_impl _ has_fin_ts_finite Hf).
Qed.

Lemma filter_forall {A} (P : A -> Prop) (g : A -> bool) l :
  (forall x, In x l -> g x = true -> P x) -> Forall P (filter g l).
Proof.
  intro Hx. apply Forall_forall. intros x Hin. apply filter_In in Hin.
  exact (Hx x (proj1 Hin) (proj2 Hin)).
Qed.

Lemma chart_sorted_fin `{Host} b v c s dm :
  Forall breadth_input_ok b -> Forall has_fin_ts v -> Forall has_fin_ts c ->
  Forall has_fin_ts s -> chart_merge b v c s = Ok dm ->
  Forall has_fin_ts (sort_by_timestamp (map (fun kr => VObj (snd kr)) dm)).
Proof.
  intros Hb Hv Hc Hs Edm.
  exact (Permutation_Forall (sort_by_timestamp_perm _)
           (records_fin_ts _ (chart_merge_fin _ _ _ _ _ Hb Hv Hc Hs Edm))).
Qed.

(** X10: without a custom date, every point of chartData has a timestamp no earlier than now minus the range's number of days. *)
Theorem chartData_range_window `{Host} b v c s range f t now out :
  Forall breadth_input_ok b -> Forall has_fin_ts v -> Forall has_fin_ts c ->
  Forall has_fin_ts s ->
  date_given f = false -> date_given t = false ->
  chartData b v c s range f t now = Ok out ->
  Forall (fun d => exists q, fin_ts d = Some q /\
            (inject_Z now - inject_Z (range_days range) * (86400000 # 1) <= q)%Q) out.
Proof.
  intros Hb Hv Hc Hs Hf Ht. unfold chartData.
  destruct (_ && _); [intro E; injection E as <-; constructor|].
  destruct (chart_merge b v c s) as [dm|e] eqn:Edm; cbn [bind]; [|discriminate].
  rewrite Hf, Ht. cbn [orb].
  assert (Hd : num_truthy (NFin (inject_Z (range_days range))) = true)
    by (destruct range; reflexivity).
  rewrite Hd. intro E. injection E as <-.
  pose proof (chart_sorted_fin _ _ _ _ _ Hb Hv Hc Hs Edm) as Hfin.
  apply filter_forall. intros d Hin Hg.
  destruct (proj1 (Forall_forall _ _) Hfin d Hin) as [q Hq].
  exists q. split; [exact Hq|].
  rewrite (point_ts_fin _ _ Hq) in Hg. apply js_ge_fin in Hg.
  unfold Qminus. exact Hg.
Qed.

(** X11: with both custom dates given and valid, every point of chartData lies from the start of the first date up to the end of the last date. *)
Theorem chartData_custom_window `{Host} b v c s range fd td zf zt now out :
  Forall breadth_input_ok b -> Forall has_fin_ts v -> Forall has_fin_ts c ->
  Forall has_fin_ts s ->
  fd <> "" -> td <> "" -> date_parse fd = Some zf -> date_parse td = Some zt ->
  chartData b v c s range (Some fd) (Some td) now = Ok out ->
  Forall (fun d => exists q, fin_ts d = Some q /\
            (inject_Z zf <= q)%Q /\ (q < inject_Z zt + (86400000 # 1))%Q) out.
Proof.
  intros Hb Hv Hc Hs Hfd Htd Ezf Ezt. unfold chartData.
  destruct (_ && _); [intro E; injection E as <-; constructor|].
  destruct (chart_merge b v c s) as [dm|e] eqn:Edm; cbn [bind]; [|discriminate].
  apply String.eqb_neq in Hfd, Htd.
  cbn [date_given]. rewrite Hfd, Htd, Ezf, Ezt. cbn [negb orb time_num num_add].
  intro E. injection E as <-.
  pose proof (chart_sorted_fin _ _ _ _ _ Hb Hv Hc Hs Edm) as Hfin.
  apply filter_forall. intros d Hin Hg.
  destruct (proj1 (Forall_forall _ _) Hfin d Hin) as [q Hq].
  exists q. split; [exact Hq|].
  rewrite (point_ts_fin _ _ Hq) in Hg. apply andb_prop in Hg. destruct Hg as [Hg1 Hg2].
  split; [exact (js_ge_fin _ _ Hg1) | exact (js_lt_fin _ _ Hg2)].
Qed.

(** X12: if a given custom date is non-empty and does not parse, chartData returns no point. *)
Theorem chartData_invalid_date_empty `{Host} b v c s range f t now out :
  (exists d, (f = Some d \/ t = Some d) /\ d <> "" /\ date_parse d = None) ->
  chartData b v c s range f t now = Ok out -> out = [].
Proof.
  intros [d [Hft [Hne Hp]]]. apply String.eqb_neq in Hne. unfold chartData.
  destruct (_ && _); [intro E; injection E as <-; reflexivity|].
  destruct (chart_merge b v c s) as [dm|e] eqn:Edm; cbn [bind]; [|discriminate].
  assert (Hg : date_given f || date_given t = true)
    by (destruct Hft as [-> | ->]; cbn [date_given]; rewrite Hne;
        [reflexivity | apply orb_true_r]).
  rewrite Hg. intro E. injection E as <-.
  induction (sort_by_timestamp _) as [|x r IH]; [reflexivity|]. cbn [filter].
  destruct Hft as [-> | ->]; rewrite Hne, Hp in *; cbn [time_num num_add] in *;
    rewrite ?js_ge_nan, ?js_lt_nan, ?andb_false_r in *; exact IH.
Qed.

Ltac breadth_ok :=
  repeat (apply Forall_cons;
    [match goal with |- breadth_input_ok (VObj ?fs) =>
       exists fs; split; [reflexivity|];
       intros v Hv; simpl in Hv;
       repeat (destruct Hv as [Hv | Hv];
         [first [discriminate Hv | injection Hv as <-; eexists; reflexivity]|]);
       destruct Hv
     end|]);
  apply Forall_nil.

Ltac fin_ts_ok := repeat (apply Forall_cons; [eexists; reflexivity|]); apply Forall_nil.

Lemma sample_chart_ok :
  Forall breadth_input_ok sample_chart_breadth /\
  Forall has_fin_ts sample_chart_index /\ Forall has_fin_ts (@nil value).
Proof.
  split; [unfold sample_chart_breadth; breadth_ok|].
  split; [unfold sample_chart_index; fin_ts_ok | apply Forall_nil].
Qed.

Lemma chartData_sorted_witness :
  let r := @chartData ExampleHost.host sample_chart_breadth sample_chart_index [] []
             R1Y None None 1704326400000%Z in
  r = Ok (chart_out r) /\ List.length (chart_out r) = 4%nat /\
  Forall has_fin_ts (chart_out r) /\ Sorted (@ts_le ExampleHost.host) (chart_out r).
Proof.
  intro r. assert (E : r = Ok (chart_out r)) by (vm_compute; reflexivity).
  split; [exact E|]. split; [vm_compute; reflexivity|].
  destruct sample_chart_ok as [Hb [Hv Hn]].
  exact (@chartData_sorted ExampleHost.host sample_chart_breadth sample_chart_index [] []
           R1Y None None 1704326400000%Z (chart_out r) Hb Hv Hn Hn E).
Defined.

Lemma chartData_range_window_witness :
  let r := @chartData ExampleHost.host sample_chart_breadth sample_chart_index [] []
             R1M None None 1704326400000%Z in
  r = Ok (chart_out r) /\ List.length (chart_out r) = 3%nat /\
  Forall (fun d => exists q, fin_ts d = Some q /\
            (inject_Z 1704326400000 - inject_Z (range_days R1M) * (86400000 # 1) <= q)%Q)
         (chart_out r).
Proof.
  intro r. assert (E : r = Ok (chart_out r)) by (vm_compute; reflexivity).
  split; [exact E|]. split; [vm_compute; reflexivity|].
  destruct sample_chart_ok as [Hb [Hv Hn]].
  exact (@chartData_range_window ExampleHost.host sample_chart_breadth sample_chart_index [] []
           R1M None None 1704326400000%Z (chart_out r) Hb Hv Hn Hn eq_refl eq_refl E).
Defined.

Lemma chartData_custom_window_witness :
  let r := @chartData ExampleHost.host sample_chart_breadth sample_chart_index [] []
             R1M (Some "2024-01-02") (Some "2024-01-02") 1704326400000%Z in
  r = Ok (chart_out r) /\ List.length (chart_out r) = 1%nat /\
  Forall (fun d => exists q, fin_ts d = Some q /\
            (inject_Z 1704153600000 <= q)%Q /\
            (q < inject_Z 1704153600000 + (86400000 # 1))%Q) (chart_out r).
Proof.
  intro r. assert (E : r = Ok (chart_out r)) by (vm_compute; reflexivity).
  split; [exact E|]. split; [vm_compute; reflexivity|].
  destruct sample_chart_ok as [Hb [Hv Hn]].
  exact (@chartData_custom_window ExampleHost.host sample_chart_breadth sample_chart_index [] []
           R1M "2024-01-02" "2024-01-02" 1704153600000%Z 1704153600000%Z 1704326400000%Z
           (chart_out r) Hb Hv Hn Hn
           ltac:(discriminate) ltac:(discriminate)
           ltac:(vm_compute; reflexivity) ltac:(vm_compute; reflexivity) E).
Defined.

Lemma chartData_invalid_date_empty_witness :
  let r := @chartData ExampleHost.host sample_chart_breadth sample_chart_index [] []
             R1M (Some "last week") None 1704326400000%Z in
  r = Ok (chart_out r) /\ chart_out r = [].
Proof.
  intro r. assert (E : r = Ok (chart_out r)) by (vm_compute; reflexivity).
  split; [exact E|].
  apply (@chartData_invalid_date_empty ExampleHost.host sample_chart_breadth sample_chart_index
           [] [] R1M (Some "last week") None 1704326400000%Z (chart_out r)); [|exact E].
  exists "last week". split; [left; reflexivity|]. split; [discriminate|].
  vm_compute. reflexivity.
Defined.

Lemma Qltb_false_le a b : Qltb a b = false -> (b <= a)%Q.
Proof. unfold Qltb. destruct (Qle_bool b a) eqn:E; [|discriminate]. intros _. apply Qle_bool_iff. exact E. Qed.

Lemma Qltb_true_lt a b : Qltb a b = true -> (a < b)%Q.
Proof.
  unfold Qltb. destruct (Qle_bool b a) eqn:E; [discriminate|]. intros _.
  apply Qnot_le_lt. intro Hle. apply Qle_bool_iff in Hle. congruence.
Qed.

Lemma cross_step_ma `{Host} lo hi prev curr :
  ma_point lo hi prev -> ma_point lo hi curr ->
  cross_step lo hi prev curr =
    Ok (if above lo hi prev
        then (if above lo hi curr then None else Some Bear)
        else (if above lo hi curr then Some Bull else None)).
Proof.
  intros [fs [a [b [-> [Ha [Hb Hab]]]]]] [gs [c [d [-> [Hc [Hd Hcd]]]]]].
  unfold cross_step, above. cbn [prop bind]. rewrite Ha, Hb, Hc, Hd. cbn [defined negb].
  unfold js_le, js_gt, js_ge, js_lt, js_less. cbn [to_primitive to_number num_lt].
  destruct (Qltb b a) eqn:Eba, (Qltb d c) eqn:Edc; cbn [andb negb].
  - destruct (Qltb a b) eqn:Eab; [apply Qltb_true_lt in Eab, Eba; exfalso;
      exact (Qlt_not_le _ _ Eab (Qlt_le_weak _ _ Eba))|].
    destruct (Qltb c d) eqn:Ecd; [apply Qltb_true_lt in Ecd, Edc; exfalso;
      exact (Qlt_not_le _ _ Ecd (Qlt_le_weak _ _ Edc))|].
    reflexivity.
  - destruct (Qltb a b) eqn:Eab; [apply Qltb_true_lt in Eab, Eba; exfalso;
      exact (Qlt_not_le _ _ Eab (Qlt_le_weak _ _ Eba))|].
    destruct (Qltb c d) eqn:Ecd; [reflexivity|].
    apply Qltb_false_le in Ecd, Edc. exfalso. apply Hcd. apply Qle_antisym; assumption.
  - destruct (Qltb c d) eqn:Ecd; [apply Qltb_true_lt in Ecd, Edc; exfalso;
      exact (Qlt_not_le _ _ Ecd (Qlt_le_weak _ _ Edc))|].
    reflexivity.
  - destruct (Qltb a b) eqn:Eab; [reflexivity|].
    apply Qltb_false_le in Eab, Eba. exfalso. apply Hab. apply Qle_antisym; assumption.
Qed.

Lemma alt_step p c l :
  alt_from c l ->
  alt_from p ((if p then if c then [] else [Bear] else if c then [Bull] else []) ++ l)%list.
Proof.
  intros [Ha Hh]. destruct p, c; cbn [app]; split; auto;
    destruct l as [|t r]; cbn [alternating]; auto; subst t; split; auto; discriminate.
Qed.

Lemma cross_events `{Host} lo hi prev curr s e :
  ma_point lo hi prev -> ma_point lo hi curr ->
  cross_step lo hi prev curr = Ok s -> cross_push curr s = Ok e ->
  map snd e = if above lo hi prev then (if above lo hi curr then [] else [Bear])
              else (if above lo hi curr then [Bull] else []).
Proof.
  intros Hp Hc Hs He. rewrite (cross_step_ma _ _ _ _ Hp Hc) in Hs. injection Hs as <-.
  destruct Hc as [gs [_ [_ [-> _]]]].
  destruct (above lo hi prev), (above lo hi (VObj gs)); cbn [cross_push prop bind] in He;
    injection He as <-; reflexivity.
Qed.

Lemma cross_loop_fst `{Host} prev rest E1 E2 :
  Forall (ma_point "ma20" "ma50") (prev :: rest) -> cross_loop prev rest = Ok (E1, E2) ->
  alt_from (above "ma20" "ma50" prev) (map snd E1).
Proof.
  revert prev E1 E2. induction rest as [|curr r IH]; intros prev E1 E2 Hf E.
  - injection E as <- <-. split; exact I.
  - inversion Hf as [|? ? Hp Hf']; subst. inversion Hf' as [|? ? Hc Hr]; subst.
    cbn [cross_loop] in E. inv_binds. destruct a3 as [A1 A2]. subst E1 E2.
    cbn [fst]. rewrite map_app, (cross_events _ _ _ _ _ _ Hp Hc Ha Ha0).
    apply alt_step. exact (IH curr A1 A2 Hf' Ha3).
Qed.

Lemma cross_loop_snd `{Host} prev rest E1 E2 :
  Forall (ma_point "ma50" "ma200") (prev :: rest) -> cross_loop prev rest = Ok (E1, E2) ->
  alt_from (above "ma50" "ma200" prev) (map snd E2).
Proof.
  revert prev E1 E2. induction rest as [|curr r IH]; intros prev E1 E2 Hf E.
  - injection E as <- <-. split; exact I.
  - inversion Hf as [|? ? Hp Hf']; subst. inversion Hf' as [|? ? Hc Hr]; subst.
    cbn [cross_loop] in E. inv_binds. destruct a3 as [A1 A2]. subst E1 E2.
    cbn [snd]. rewrite map_app, (cross_events _ _ _ _ _ _ Hp Hc Ha1 Ha2).
    apply alt_step. exact (IH curr A1 A2 Hf' Ha3).
Qed.

Lemma cross_step_obj `{Host} lo hi prev curr :
  is_obj prev -> is_obj curr -> exists s, cross_step lo hi prev curr = Ok s.
Proof.
  intros [fs ->] [gs ->]. unfold cross_step. cbn [prop bind].
  repeat (destruct (negb (defined _)); [eexists; reflexivity|]).
  destruct (_ && _); [eexists; reflexivity|]. destruct (_ && _); eexists; reflexivity.
Qed.

Lemma cross_loop_obj `{Host} prev rest :
  Forall is_obj (prev :: rest) -> exists r, cross_loop prev rest = Ok r.
Proof.
  revert prev. induction rest as [|curr r IH]; intros prev Hf; [eexists; reflexivity|].
  inversion Hf as [|? ? Hp Hf']; subst. inversion Hf' as [|? ? Hc Hr]; subst.
  destruct (cross_step_obj "ma20" "ma50" _ _ Hp Hc) as [s1 E1].
  destruct (cross_step_obj "ma50" "ma200" _ _ Hp Hc) as [s2 E2].
  destruct (IH curr Hf') as [acc Eacc].
  destruct Hc as [gs ->].
  cbn [cross_loop]. rewrite E1, E2. cbn [bind].
  destruct s1; cbn [cross_push prop bind];
    destruct s2; cbn [cross_push prop bind]; rewrite Eacc; cbn [bind]; eexists; reflexivity.
Qed.

(** X13: crossovers succeeds on a list of objects; when at every point the two moving averages of a pair are finite numbers that differ, the crossings of each pair alternate between bullish and bearish, the first one opposite to the initial order of the pair. *)
Theorem crossovers_alternate `{Host} data :
  Forall is_obj data ->
  exists c1 c2, crossovers data = Ok (c1, c2) /\
    (Forall (ma_point "ma20" "ma50") data ->
       alt_from (above "ma20" "ma50" (hd VUndef data)) (map snd c1)) /\
    (Forall (ma_point "ma50" "ma200") data ->
       alt_from (above "ma50" "ma200" (hd VUndef data)) (map snd c2)).
Proof.
  intro Ho. unfold crossovers.
  destruct (Nat.ltb (List.length data) 2).
  - exists [], []. repeat split.
  - destruct data as [|p r]; [exists [], []; repeat split|].
    destruct (cross_loop_obj p r Ho) as [[c1 c2] E].
    exists c1, c2. split; [exact E|]. cbn [hd]. split.
    + intro Hf. exact (cross_loop_fst _ _ _ _ Hf E).
    + intro Hf. exact (cross_loop_snd _ _ _ _ Hf E).
Qed.

Lemma crossovers_alternate_witness :
  @crossovers ExampleHost.host sample_cross
    = Ok ([(VNum (NFin 2), Bull); (VNum (NFin 3), Bear); (VNum (NFin 4), Bull)],
          [(VNum (NFin 3), Bear)]) /\
  Forall (ma_point "ma20" "ma50") sample_cross /\ Forall (ma_point "ma50" "ma200") sample_cross /\
  exists c1 c2, @crossovers ExampleHost.host sample_cross = Ok (c1, c2) /\
    (Forall (ma_point "ma20" "ma50") sample_cross ->
       alt_from (above "ma20" "ma50" (hd VUndef sample_cross)) (map snd c1)) /\
    (Forall (ma_point "ma50" "ma200") sample_cross ->
       alt_from (above "ma50" "ma200" (hd VUndef sample_cross)) (map snd c2)).
Proof.
  split; [vm_compute; reflexivity|].
  split; [|split].
  1, 2: unfold sample_cross, ma_day;
    repeat (apply Forall_cons;
      [do 3 eexists; split; [reflexivity|]; split; [reflexivity|]; split; [reflexivity|];
       intro E; vm_compute in E; discriminate|]);
    apply Forall_nil.
  apply (@crossovers_alternate ExampleHost.host sample_cross).
  unfold sample_cross, ma_day. repeat (apply Forall_cons; [eexists; reflexivity|]).
  apply Forall_nil.
Defined.

(** X14: prepareAnalysisContext throws when fewer than 5 points are given; otherwise its window is the last min(n, count) points of the data, at least 5 of them. *)
Theorem analysis_window_last (data : list value) (range : analysis_range) :
  ((List.length data < 5)%nat -> analysis_window data range = Throw Error) /\
  ((5 <= List.length data)%nat ->
   exists pre w, analysis_window data range = Ok w /\ data = (pre ++ w)%list /\
     List.length w = Nat.min (List.length data) (slice_count range (List.length data)) /\
     (5 <= List.length w)%nat).
Proof.
  unfold analysis_window. split.
  - intro Hl. apply Nat.ltb_lt in Hl. rewrite Hl. reflexivity.
  - intro Hl. assert (Hb : Nat.ltb (List.length data) 5 = false) by (apply Nat.ltb_ge; exact Hl).
    rewrite Hb. set (k := slice_count range (List.length data)).
    exists (firstn (Nat.max 0 (List.length data - k)) data),
           (skipn (Nat.max 0 (List.length data - k)) data).
    split; [reflexivity|]. split; [symmetry; apply firstn_skipn|].
    rewrite length_skipn.
    assert (Hk : (5 <= k)%nat) by (unfold k; destruct range; cbn [slice_count]; lia).
    split; lia.
Qed.

Lemma analysis_window_last_witness :
  analysis_window (repeat VNull 4) AR1M = Throw Error /\
  exists pre w, analysis_window (repeat VNull 30) AR1M = Ok w /\
    repeat VNull 30 = (pre ++ w)%list /\
    List.length w = Nat.min (List.length (repeat VNull 30))
                            (slice_count AR1M (List.length (repeat VNull 30))) /\
    (5 <= List.length w)%nat.
Proof.
  split.
  - apply (proj1 (analysis_window_last (repeat VNull 4) AR1M)). simpl. lia.
  - apply (proj2 (analysis_window_last (repeat VNull 30) AR1M)). simpl. lia.
Defined.

Lemma fin_ts_obj d q : fin_ts d = Some q -> exists fs, d = VObj fs.
Proof.
  unfold fin_ts. destruct d; cbn [prop]; try discriminate;
    try (destruct (String.eqb _ _); discriminate).
  intros _. eexists; reflexivity.
Qed.

Lemma js_ge_fin_iff `{Host} q c : js_ge (VNum (NFin q)) (VNum (NFin c)) = negb (Qltb q c).
Proof. unfold js_ge, js_less. cbn [to_primitive to_number num_lt]. destruct (Qltb q c); reflexivity. Qed.

Lemma Qltb_iff_lt a b : Qltb a b = true <-> (a < b)%Q.
Proof.
  split; [apply Qltb_true_lt | apply Qltb_lt].
Qed.

Lemma find_from_fin `{Host} t0 l :
  Forall has_fin_ts l ->
  (find_from (VNum (NFin t0)) l = Ok None /\ Forall (ts_before t0) l) \/
  exists pre sp post, l = (pre ++ sp :: post)%list /\ Forall (ts_before t0) pre /\
    ts_from t0 sp /\ find_from (VNum (NFin t0)) l = Ok (Some sp).
Proof.
  intro Hf. induction Hf as [|d r [q Hq] Hr IH]; [left; split; [reflexivity | constructor]|].
  cbn [find_from]. rewrite (fin_ts_prop _ _ Hq). cbn [bind]. rewrite js_ge_fin_iff.
  destruct (Qltb q t0) eqn:E; cbn [negb].
  - apply Qltb_true_lt in E. destruct IH as [[E1 E2] | [pre [sp [post [-> [Hpre [Hsp Hfind]]]]]]].
    + left. split; [exact E1|]. constructor; [exists q; auto | exact E2].
    + right. exists (d :: pre), sp, post. repeat split; auto.
      constructor; [exists q; auto | exact Hpre].
  - apply Qltb_false_le in E. right. exists [], d, r. repeat split; auto. exists q; auto.
Qed.

(** X15: the sector change is null when the last sector point is before the window start; otherwise it is the percentage change from the first point at or after the start to the last point. *)
Theorem sector_change_window `{Host} l t0 qe :
  l <> [] -> Forall has_fin_ts l -> fin_ts (last l VUndef) = Some qe ->
  ((qe < t0)%Q -> sector_change (VArr l) (VNum (NFin t0)) = Ok None) /\
  ((t0 <= qe)%Q ->
   exists pre sp post c, l = (pre ++ sp :: post)%list /\ Forall (ts_before t0) pre /\
     ts_from t0 sp /\ pct_change sp (last l VUndef) = Ok c /\
     sector_change (VArr l) (VNum (NFin t0)) = Ok (Some c)).
Proof.
  intros Hne Hf He.
  assert (Hend : nth (List.length l - 1) l VUndef = last l VUndef).
  { destruct l as [|x r] using rev_ind; [congruence|].
    rewrite last_last, length_app, app_nth2; cbn [List.length]; [|lia].
    replace (List.length r + 1 - 1 - List.length r)%nat with 0%nat by lia. reflexivity. }
  assert (Hlen : strict_eq_num (VNum (NFin (inject_Z (Z.of_nat (List.length l))))) 0 = false).
  { destruct l as [|x r]; [congruence|]. cbn [strict_eq_num].
    destruct (Qeq_bool _ _) eqn:E; [|reflexivity]. apply Qeq_bool_iff in E.
    unfold Qeq in E. simpl in E. lia. }
  destruct (fin_ts_obj _ _ He) as [efs Eefs].
  pose proof (fin_ts_prop _ _ He) as Het.
  assert (Hp : prop (VArr l) "length" = Ok (VNum (NFin (inject_Z (Z.of_nat (List.length l))))))
    by reflexivity.
  unfold sector_change. cbn [truthy negb]. rewrite Hp. cbn [bind]. rewrite Hlen.
  rewrite Hend.
  destruct (find_from_fin t0 l Hf) as [[E1 _] | [pre [sp [post [Hl [Hpre [Hsp E1]]]]]]];
    rewrite E1; cbn [bind].
  - split; [reflexivity|]. intro Hle. exfalso.
    destruct (find_from_fin t0 l Hf) as [[_ Hb] | [pre [sp [post [_ [_ [_ E2]]]]]]];
      [|congruence].
    assert (Hin : In (last l VUndef) l).
    { destruct l as [|x r] using rev_ind; [congruence|]. rewrite last_last.
      apply in_or_app. right. left. reflexivity. }
    destruct (proj1 (Forall_forall _ _) Hb _ Hin) as [q [Hq Hlt]].
    rewrite He in Hq. injection Hq as <-. exact (Qlt_not_le _ _ Hlt Hle).
  - destruct Hsp as [qs [Hqs Hqs']]. destruct (fin_ts_obj _ _ Hqs) as [sfs ->].
    rewrite Eefs. cbn [truthy andb]. rewrite <- Eefs, Het. cbn [bind]. rewrite js_ge_fin_iff.
    split.
    + intro Hlt. apply Qltb_iff_lt in Hlt. rewrite Hlt. reflexivity.
    + intro Hle. destruct (Qltb qe t0) eqn:Elt;
        [apply Qltb_true_lt in Elt; exfalso; exact (Qlt_not_le _ _ Elt Hle)|].
      cbn [negb]. rewrite Eefs. cbn [pct_change prop bind].
      eexists pre, (VObj sfs), post, _. split; [exact Hl|]. split; [exact Hpre|].
      split; [exists qs; auto|]. split; reflexivity.
Qed.

Lemma sector_change_window_witness :
  @sector_change ExampleHost.host (VArr sample_sector) (VNum (NFin 2))
    = Ok (Some (NFin ((11 # 110) * (100 # 1)))) /\
  @sector_change ExampleHost.host (VArr sample_sector) (VNum (NFin 6)) = Ok None /\
  exists pre sp post c, sample_sector = (pre ++ sp :: post)%list /\
    Forall (ts_before 2) pre /\ ts_from 2 sp /\
    @pct_change ExampleHost.host sp (last sample_sector VUndef) = Ok c /\
    @sector_change ExampleHost.host (VArr sample_sector) (VNum (NFin 2)) = Ok (Some c).
Proof.
  assert (Hf : Forall has_fin_ts sample_sector)
    by (unfold sample_sector; repeat (apply Forall_cons; [eexists; reflexivity|]);
        apply Forall_nil).
  split; [vm_compute; reflexivity|]. split.
  - apply (proj1 (@sector_change_window ExampleHost.host sample_sector 6 5
                    ltac:(discriminate) Hf eq_refl)).
    vm_compute. reflexivity.
  - apply (proj2 (@sector_change_window ExampleHost.host sample_sector 2 5
                    ltac:(discriminate) Hf eq_refl)).
    vm_compute. discriminate.
Defined.

(** X16: loading the saved session never replaces a known model by one outside MODELS. *)
Theorem load_session_known_model st s :
  known_model (s_model s) = true -> known_model (s_model (load_session st s)) = true.
Proof.
  intro Hs. unfold load_session.
  destruct (st STORAGE_KEY) as [[|parsed]|]; [exact Hs| |exact Hs].
  destruct (prop parsed "analysis") as [a|]; [|exact Hs].
  assert (H1 : s_model (if truthy a then mk_ai_state a (s_chatMessages s) (s_range s) (s_model s)
                        else s) = s_model s) by (destruct (truthy a); reflexivity).
  set (s1 := if truthy a then _ else s) in *.
  destruct (prop parsed "chatMessages") as [c|]; [|cbn; rewrite H1; exact Hs].
  assert (H2 : s_model (if truthy c then mk_ai_state (s_analysis s1) c (s_range s1) (s_model s1)
                        else s1) = s_model s) by (destruct (truthy c); [exact H1 | exact H1]).
  set (s2 := if truthy c then _ else s1) in *.
  destruct (prop parsed "range") as [r|]; [|rewrite H2; exact Hs].
  assert (H3 : s_model (if truthy r then mk_ai_state (s_analysis s2) (s_chatMessages s2) r
                          (s_model s2) else s2) = s_model s)
    by (destruct (truthy r); [exact H2 | exact H2]).
  set (s3 := if truthy r then _ else s2) in *.
  destruct (prop parsed "model") as [m|]; [|rewrite H3; exact Hs].
  destruct (truthy m && known_model m) eqn:E.
  - apply andb_prop in E. exact (proj2 E).
  - rewrite H3. exact Hs.
Qed.

Lemma load_session_known_model_witness :
  let st := store_put empty_storage STORAGE_KEY
              (Json (VObj [("analysis", VStr "Uptrend"); ("model", VStr "gpt-4")])) in
  s_model (load_session st sample_session) = VStr "gemini-2.5-pro" /\
  known_model (s_model (load_session st sample_session)) = true.
Proof.
  intro st. split; [vm_compute; reflexivity|].
  apply load_session_known_model. vm_compute. reflexivity.
Defined.

Lemma store_remove_same st : store_remove st STORAGE_KEY STORAGE_KEY = None.
Proof. unfold store_remove. rewrite String.eqb_refl. reflexivity. Qed.

Lemma store_remove_other st k : k <> STORAGE_KEY -> store_remove st STORAGE_KEY k = st k.
Proof.
  intro Hk. unfold store_remove. destruct (String.eqb STORAGE_KEY k) eqn:E; [|reflexivity].
  apply String.eqb_eq in E. congruence.
Qed.

(** X17: handleClearHistory resets the analysis and the chat but keeps the range and the model; the save that follows removes the stored session, so a later load changes no field, and no other storage key is touched. *)
Theorem clear_history_forgets_session st s w now s0 :
  let '(s', st1) := handleClearHistory st s in
  s_analysis s' = VNull /\ s_chatMessages s' = VArr [] /\
  s_range s' = s_range s /\ s_model s' = s_model s /\
  exists st2, save_session w st1 s' now = Ok st2 /\
    load_session st2 s0 = s0 /\ (forall k, k <> STORAGE_KEY -> st2 k = st k).
Proof.
  cbn [handleClearHistory s_analysis s_chatMessages s_range s_model].
  repeat split. exists (store_remove (store_remove st STORAGE_KEY) STORAGE_KEY).
  split; [reflexivity|]. split.
  - unfold load_session. rewrite store_remove_same. reflexivity.
  - intros k Hk. rewrite !store_remove_other by exact Hk. reflexivity.
Qed.

Lemma json_rt_obj fs :
  Forall (fun kv => json_rt (snd kv) = Some (snd kv)) fs -> json_rt (VObj fs) = Some (VObj fs).
Proof.
  intro Hf. cbn [json_rt]. do 2 f_equal.
  induction Hf as [|[k x] r Hx Hr IH]; [reflexivity|]. cbn [snd] in Hx.
  cbn beta iota. rewrite Hx, IH. reflexivity.
Qed.

(** X18: a session with a non-empty analysis and range, a model of MODELS and JSON-stable messages saved and then loaded gives back the same session; other storage keys are unchanged. *)
Theorem session_round_trip st now a msgs r m s0 :
  a <> "" -> r <> "" -> In m MODELS -> json_stable msgs ->
  let s := mk_ai_state (VStr a) (VArr msgs) (VStr r) (VStr m) in
  exists st', save_session true st s now = Ok st' /\ load_session st' s0 = s /\
    (forall k, k <> STORAGE_KEY -> st' k = st k).
Proof.
  intros Ha Hr Hm Hj s.
  apply String.eqb_neq in Ha, Hr.
  assert (Hk : known_model (VStr m) = true).
  { cbn [known_model]. apply existsb_exists. exists m. split; [exact Hm | apply String.eqb_refl]. }
  set (p := VObj [("analysis", VStr a); ("chatMessages", VArr msgs); ("range", VStr r);
                  ("model", VStr m); ("timestamp", VNum (NFin (inject_Z now)))]).
  assert (Hp : json_rt p = Some p).
  { apply json_rt_obj. repeat constructor. exact (json_rt_stable_list msgs Hj). }
  unfold save_session. cbn [s s_analysis s_chatMessages s_range s_model truthy].
  rewrite Ha. cbn [negb]. fold p. rewrite Hp.
  eexists. split; [reflexivity|]. split.
  - unfold load_session, store_put. rewrite String.eqb_refl. unfold p.
    cbn [prop assoc]. cbn [truthy]. cbn [String.eqb Ascii.eqb Bool.eqb]. cbn [truthy]. rewrite Ha, Hr. cbn [negb andb]. rewrite Hk.
    assert (Hm' : String.eqb m "" = false)
      by (destruct Hm as [<- | [<- | [<- | []]]]; reflexivity).
    rewrite Hm'. reflexivity.
  - intros k Hk'. unfold store_put. destruct (String.eqb STORAGE_KEY k) eqn:E; [|reflexivity].
    apply String.eqb_eq in E. congruence.
Qed.

Lemma session_round_trip_witness :
  let s := mk_ai_state (VStr "Uptrend") (VArr [VObj [("role", VStr "user"); ("text", VStr "why?")]])
             (VStr "3M") (VStr "gemini-2.5-pro") in
  exists st', save_session true empty_storage s 1704067200000%Z = Ok st' /\
    load_session st' sample_session = s /\
    (forall k, k <> STORAGE_KEY -> st' k = empty_storage k).
Proof.
  apply (session_round_trip empty_storage 1704067200000%Z "Uptrend"
           [VObj [("role", VStr "user"); ("text", VStr "why?")]] "3M" "gemini-2.5-pro"
           sample_session).
  - discriminate.
  - discriminate.
  - simpl; auto.
  - repeat constructor.
Defined.

Lemma split_on_no_c c s : str_has c s = false -> split_on c s = [s].
Proof.
  induction s as [|a r IH]; [reflexivity|]. cbn [str_has split_on].
  intro H. apply orb_false_iff in H. destruct H as [Ha Hr].
  rewrite Ha, (IH Hr). reflexivity.
Qed.

Lemma split_on_app c s1 s2 :
  str_has c s1 = false -> split_on c (s1 ++ String c s2) = s1 :: split_on c s2.
Proof.
  induction s1 as [|a r IH]; intro H; cbn [append split_on].
  - rewrite Ascii.eqb_refl. reflexivity.
  - cbn [str_has] in H. apply orb_false_iff in H. destruct H as [Ha Hr].
    rewrite Ha, (IH Hr). reflexivity.
Qed.

Lemma split_on_concat l :
  l <> [] -> Forall no_comma l -> split_on "," (String.concat "," l) = l.
Proof.
  induction l as [|x r IH]; intros Hne Hf; [congruence|].
  inversion Hf as [|? ? Hx Hr]; subst.
  destruct r as [|y r'].
  - cbn [String.concat]. apply split_on_no_c. exact Hx.
  - change (String.concat "," (x :: y :: r')) with (x ++ "," ++ String.concat "," (y :: r')).
    cbn [append]. rewrite (split_on_app _ _ _ Hx), IH; [reflexivity | discriminate | exact Hr].
Qed.

Lemma parse_floors_concat l : Forall floor_ok l -> parse_floors (String.concat "," l) = l.
Proof.
  intro Hf. destruct l as [|x r]; [reflexivity|].
  unfold parse_floors. rewrite split_on_concat;
    [| discriminate | exact (Forall_impl _ (fun s (H : floor_ok s) => proj2 H) Hf)].
  apply forallb_filter_id. apply forallb_forall. intros y Hy.
  destruct (proj1 (Forall_forall _ _) Hf y Hy) as [Hne _].
  apply String.eqb_neq in Hne. rewrite Hne. reflexivity.
Qed.

Lemma split_on_no_comma c s : Forall (fun x => str_has c x = false) (split_on c s).
Proof.
  induction s as [|a r IH]; cbn [split_on]; [repeat constructor|].
  destruct (Ascii.eqb a c) eqn:E; [constructor; [reflexivity | exact IH]|].
  destruct (split_on c r) as [|x xs] eqn:Es; [repeat constructor; cbn; rewrite E; reflexivity|].
  inversion IH as [|? ? Hx Hxs]; subst. constructor; [|exact Hxs].
  cbn [str_has]. rewrite E, Hx. reflexivity.
Qed.

Lemma parse_floors_ok s : Forall floor_ok (parse_floors s).
Proof.
  unfold parse_floors. apply Forall_forall. intros x Hx. apply filter_In in Hx.
  destruct Hx as [Hin Hne]. split.
  - intro E. subst x. discriminate.
  - exact (proj1 (Forall_forall _ _) (split_on_no_comma "," s) x Hin).
Qed.

Lemma remove_first_ok f l : Forall floor_ok l -> Forall floor_ok (remove_first f l).
Proof.
  induction l as [|x r IH]; intro Hf; cbn [remove_first]; [constructor|].
  inversion Hf; subst. destruct (String.eqb x f); [assumption | constructor; auto].
Qed.

Lemma remove_first_app_perm f l : Permutation (remove_first f (l ++ [f])) l.
Proof.
  induction l as [|x r IH]; cbn [remove_first app].
  - rewrite String.eqb_refl. constructor.
  - destruct (String.eqb x f) eqn:E.
    + apply String.eqb_eq in E. subst x. apply Permutation_sym, Permutation_cons_append.
    + constructor. exact IH.
Qed.

Lemma remove_first_app_notin f l : ~ In f l -> remove_first f (l ++ [f]) = l.
Proof.
  induction l as [|x r IH]; intro Hn; cbn [remove_first app].
  - rewrite String.eqb_refl. reflexivity.
  - destruct (String.eqb x f) eqn:E.
    + apply String.eqb_eq in E. subst x. exfalso. apply Hn. left; reflexivity.
    + rewrite IH; [reflexivity|]. intro Hin. apply Hn. right; exact Hin.
Qed.

(** X19: checking a floor appends it to the parsed list of floors, unchecking it removes its first occurrence. *)
Theorem toggle_floor_parse s f :
  floor_ok f ->
  parse_floors (toggle_floor s f true) = (parse_floors s ++ [f])%list /\
  parse_floors (toggle_floor s f false) = remove_first f (parse_floors s).
Proof.
  intro Hf. unfold toggle_floor. split.
  - apply parse_floors_concat. apply Forall_app. split; [apply parse_floors_ok|].
    repeat constructor; apply Hf.
  - apply parse_floors_concat. apply remove_first_ok. apply parse_floors_ok.
Qed.

(** X20: checking then unchecking a floor gives back the same floors up to order, and exactly the same list when the floor was not selected. *)
Theorem toggle_floor_check_uncheck s f :
  floor_ok f ->
  Permutation (parse_floors (toggle_floor (toggle_floor s f true) f false)) (parse_floors s) /\
  (~ In f (parse_floors s) ->
   parse_floors (toggle_floor (toggle_floor s f true) f false) = parse_floors s).
Proof.
  intro Hf.
  assert (E1 : parse_floors (toggle_floor s f true) = (parse_floors s ++ [f])%list).
  { unfold toggle_floor. apply parse_floors_concat. apply Forall_app.
    split; [apply parse_floors_ok | repeat constructor; apply Hf]. }
  assert (E2 : parse_floors (toggle_floor (toggle_floor s f true) f false)
               = remove_first f (parse_floors s ++ [f])%list).
  { unfold toggle_floor at 1. rewrite E1. apply parse_floors_concat. apply remove_first_ok.
    apply Forall_app. split; [apply parse_floors_ok | repeat constructor; apply Hf]. }
  rewrite E2. split; [apply remove_first_app_perm | apply remove_first_app_notin].
Qed.

Lemma toggle_floor_parse_witness :
  parse_floors "hose,,hnx" = ["hose"; "hnx"] /\
  (parse_floors (toggle_floor "hose,,hnx" "upcom" true)
     = (parse_floors "hose,,hnx" ++ ["upcom"])%list /\
   parse_floors (toggle_floor "hose,,hnx" "upcom" false)
     = remove_first "upcom" (parse_floors "hose,,hnx")).
Proof.
  split; [vm_compute; reflexivity|].
  apply (toggle_floor_parse "hose,,hnx" "upcom"). split; [discriminate | vm_compute; reflexivity].
Defined.

Lemma toggle_floor_check_uncheck_witness :
  parse_floors (toggle_floor (toggle_floor "hose,hnx" "hnx" true) "hnx" false)
    = ["hose"; "hnx"] /\
  (Permutation (parse_floors (toggle_floor (toggle_floor "hose,hnx" "hnx" true) "hnx" false))
               (parse_floors "hose,hnx") /\
   (~ In "hnx" (parse_floors "hose,hnx") ->
    parse_floors (toggle_floor (toggle_floor "hose,hnx" "hnx" true) "hnx" false)
      = parse_floors "hose,hnx")).
Proof.
  split; [vm_compute; reflexivity|].
  apply (toggle_floor_check_uncheck "hose,hnx" "hnx"). split; [discriminate | vm_compute; reflexivity].
Defined.

Lemma string_app_nil_r (s : string) : (s ++ "")%string = s.
Proof. induction s as [|a r IH]; cbn; [reflexivity | rewrite IH; reflexivity]. Qed.

Lemma split_query_app url suffix :
  split_query (url ++ suffix) =
    match split_query url with
    | (p, None) => let '(p', q) := split_query suffix in ((p ++ p')%string, q)
    | (p, Some q) => (p, Some (q ++ suffix)%string)
    end.
Proof.
  induction url as [|a r IH]; cbn [append split_query].
  - destruct (split_query suffix); reflexivity.
  - destruct (Ascii.eqb a "?"); [reflexivity|]. rewrite IH.
    destruct (split_query r) as [p [q|]]; [reflexivity|].
    destruct (split_query suffix); reflexivity.
Qed.

Lemma split_query_none_has url p :
  split_query url = (p, None) -> str_has "?" url = false.
Proof.
  revert p. induction url as [|a r IH]; intros p; cbn [split_query str_has]; [reflexivity|].
  destruct (Ascii.eqb a "?") eqn:E; [discriminate|].
  destruct (split_query r) as [p' q] eqn:Er. intro H. injection H as _ ->.
  rewrite (IH p' eq_refl). reflexivity.
Qed.

Lemma split_query_some_has url p q :
  split_query url = (p, Some q) -> str_has "?" url = true.
Proof.
  revert p. induction url as [|a r IH]; intros p; cbn [split_query str_has]; [discriminate|].
  destruct (Ascii.eqb a "?") eqn:E; [reflexivity|].
  destruct (split_query r) as [p' q'] eqn:Er. intro H. injection H as _ ->.
  rewrite (IH p' eq_refl). reflexivity.
Qed.

(** X21: the cache-busting URL keeps the part before the first question mark and appends [_=now] as the last query parameter, joined with [&] when a query was already there. *)
Theorem urlWithCacheBuster_query `{Host} url now :
  let T := num_to_json (inject_Z now) in
  split_query (urlWithCacheBuster url now) =
    match split_query url with
    | (p, None) => (p, Some ("_=" ++ T))
    | (p, Some q) => (p, Some (q ++ "&_=" ++ T))
    end.
Proof.
  intro T. unfold urlWithCacheBuster. fold T. rewrite split_query_app.
  destruct (split_query url) as [p [q|]] eqn:E.
  - rewrite (split_query_some_has _ _ _ E). reflexivity.
  - rewrite (split_query_none_has _ _ E). 
    cbn [split_query Ascii.eqb Bool.eqb append]. rewrite string_app_nil_r. reflexivity.
Qed.

Lemma fetch_caches_independent_witness :
  exists v st',
    @fetchVNIndexData ExampleHost.host None empty_storage 0%Z (Some sample_vnindex_raw) true 0%Z
      = Ok (v, st') /\
    st' (@getCacheKey ExampleHost.host "BREADTH" (filterIdentity sample_params))
      = empty_storage (@getCacheKey ExampleHost.host "BREADTH" (filterIdentity sample_params)).
Proof.
  destruct (@fetchVNIndexData ExampleHost.host None empty_storage 0%Z (Some sample_vnindex_raw)
              true 0%Z) as [[v st']|e] eqn:E.
  - exists v, st'. split; [reflexivity|].
    exact (proj2 (@fetch_caches_independent ExampleHost.host) None empty_storage 0%Z
             (Some sample_vnindex_raw) true 0%Z v st' (filterIdentity sample_params) E).
  - exfalso. vm_compute in E. discriminate E.
Defined.

Lemma fetchVNIndexData_second_call_cached_witness :
  let key := @getCacheKey ExampleHost.host "VNINDEX"
               (VObj [("url", VStr (vnindex_target None))]) in
  let st' := saveToCache true empty_storage 0%Z key (VArr sample_vnindex_parsed) in
  @fetchVNIndexData ExampleHost.host None empty_storage 0%Z (Some sample_vnindex_raw) true 0%Z
    = Ok (VArr sample_vnindex_parsed, st') /\
  @fetchVNIndexData ExampleHost.host None st' 3600000%Z None true 3600000%Z
    = Ok (VArr sample_vnindex_parsed, st').
Proof.
  apply (@fetchVNIndexData_second_call_cached ExampleHost.host None empty_storage 0%Z
           sample_vnindex_raw sample_vnindex_parsed 0%Z 3600000%Z None true 3600000%Z).
  - reflexivity.
  - reflexivity.
  - vm_compute; reflexivity.
  - intro E; inversion E.
  - constructor; [vm_compute; reflexivity | constructor].
  - vm_compute; intro H; discriminate H.
Defined.
